(** * RSqueak object memory: value representations, storage strategies,
      contexts.

    A shallow embedding of [spyvm/model.py], [spyvm/storage.py] and
    [spyvm/storage_contexts.py].  Python objects that are mutated in place
    are modelled by explicit state passing; Python exceptions by the
    [result] type below.  Part I holds the definitions, Part II the
    properties. *)

From stdpp Require Import gmap list.
From Stdlib Require Import ZArith Lia Bool.
From Stdlib Require String.

Local Open Scope Z_scope.

(* ################################################################## *)
(** * Part I: the program *)

(* ================================================================== *)
(** ** Exceptions and results *)

(** The exceptions the sources raise or meet.  [OutsideModel] is no Python
    exception: it marks an operation that leaves what the model covers (an
    access outside a raw C buffer, a reference to no object). *)
Inductive exn : Type :=
| IndexError
| AssertionError
| ValueError
| TypeError
| OverflowError
| GenericException
| NotImplementedError
| PrimitiveFailedError
| UnwrappingError
| WrapperException
| AttributeError
| RuntimeError
| OutsideModel.

Inductive result (A : Type) : Type :=
| Ok (a : A)
| Raise (e : exn).

Arguments Ok {A} a.
Arguments Raise {A} e.

Definition bind {A B : Type} (r : result A) (k : A -> result B) : result B :=
  match r with
  | Ok a => k a
  | Raise e => Raise e
  end.

Notation "x <- r ;; k" := (bind r (fun x => k))
  (at level 100, r at next level, right associativity).

(** [assert c] of Python: an [AssertionError] when the condition is false. *)
Definition py_assert (c : bool) : result unit :=
  if c then Ok tt else Raise AssertionError.


(** A comprehension [[f(i) for i in xs]] whose body may raise. *)
Fixpoint mapM {A B : Type} (f : A -> result B) (xs : list A) : result (list B) :=
  match xs with
  | [] => Ok []
  | x :: xs' => y <- f x ;; ys <- mapM f xs' ;; Ok (y :: ys)
  end.

(** [range(n)]. *)
Definition py_range (n : Z) : list Z := map Z.of_nat (seq 0 (Z.to_nat n)).

(* ================================================================== *)
(** ** rpython.rlib.rarithmetic on the 32-bit target

    The machine word is 32 bits wide: [W_LargePositiveInteger1Word] keeps an
    unsigned 32-bit value in a signed [int] whose highest bit may be set. *)

Definition LONG_BIT : Z := 32.
Definition MAXINT : Z := 2 ^ (LONG_BIT - 1) - 1.
Definition MININT : Z := - 2 ^ (LONG_BIT - 1).

(** [intmask]: wrap into the signed word. *)
Definition intmask (n : Z) : Z :=
  (n + 2 ^ (LONG_BIT - 1)) mod 2 ^ LONG_BIT - 2 ^ (LONG_BIT - 1).

(** [r_uint]: wrap into the unsigned word. *)
Definition r_uint (n : Z) : Z := n mod 2 ^ LONG_BIT.

(** [ovfcheck]: the value when it is a machine int, [OverflowError] otherwise. *)
Definition ovfcheck (n : Z) : result Z :=
  if (MININT <=? n) && (n <=? MAXINT) then Ok n else Raise OverflowError.

(** [int_between(n, m, hi)] is [n <= m < hi]. *)
Definition int_between (n m hi : Z) : bool := (n <=? m) && (m <? hi).

(** Python's [<<] and [>>] on integers: a negative count is a [ValueError]. *)
Definition py_lshift (a n : Z) : result Z :=
  if n <? 0 then Raise ValueError else Ok (Z.shiftl a n).

Definition py_rshift (a n : Z) : result Z :=
  if n <? 0 then Raise ValueError else Ok (Z.shiftr a n).

(* ================================================================== *)
(** ** Python list indexing

    [l[i]] and [l[i] = x] accept a negative index counted from the end and
    raise [IndexError] outside [-len(l) <= i < len(l)]. *)

Definition py_index {A : Type} (l : list A) (i : Z) : result nat :=
  let n := Z.of_nat (length l) in
  if (0 <=? i) && (i <? n) then Ok (Z.to_nat i)
  else if (- n <=? i) && (i <? 0) then Ok (Z.to_nat (i + n))
  else Raise IndexError.

Definition py_getitem {A : Type} (l : list A) (i : Z) : result A :=
  k <- py_index l i ;;
  match l !! k with
  | Some x => Ok x
  | None => Raise IndexError
  end.

Definition py_setitem {A : Type} (l : list A) (i : Z) (x : A) : result (list A) :=
  k <- py_index l i ;;
  Ok (<[k := x]> l).

(* ================================================================== *)
(** ** Runtime values

    What a slot, a temporary or a stack cell holds.  Small integers and
    floats are value types; a 1-word large positive integer is carried with
    its two fields; every other object is a reference, compared by
    identity.  A float is its IEEE-754 binary64 bit pattern. *)

Inductive W_Object : Type :=
| w_nil
| W_SmallInteger (value : Z)
| W_Float (value : Z)
| W_LargePositiveInteger1Word (value : Z) (_exposed_size : Z)
| W_Ref (oop : positive).

(** What the constructors leave in the fields: [W_SmallInteger.__init__]
    and [W_LargePositiveInteger1Word.__init__] apply [intmask]. *)
Definition new_SmallInteger (value : Z) : W_Object :=
  W_SmallInteger (intmask value).

Definition new_LargePositiveInteger1Word (value : Z) : W_Object :=
  W_LargePositiveInteger1Word (intmask value) 4.


Definition float_is_nan (f : Z) : bool :=
  (Z.land (Z.shiftr f 52) 2047 =? 2047) && negb (Z.land f (2 ^ 52 - 1) =? 0).

Definition float_is_zero (f : Z) : bool := Z.land f (2 ^ 63 - 1) =? 0.

(** Python's [==] on floats: no NaN equals anything, the two zeros are equal. *)
Definition float_eq (a b : Z) : bool :=
  negb (float_is_nan a) && negb (float_is_nan b) &&
  ((a =? b) || (float_is_zero a && float_is_zero b)).

(** [sys.float_info.max], 0x7FEFFFFFFFFFFFFF. *)
Definition float_info_max : Z := 9218868437227405311.

(** Modelled from the spec: [space.wrap_int] and
    [space.wrap_positive_32bit_int] of the object space, which is not
    among the sources.  A positive 32-bit value is promoted to a 1-word
    large positive integer when it does not fit a small integer. *)
Definition wrap_int (val : Z) : W_Object := new_SmallInteger val.

Definition wrap_positive_32bit_int (val : Z) : W_Object :=
  if int_between 0 val MAXINT then new_SmallInteger val
  else new_LargePositiveInteger1Word val.

(* ================================================================== *)
(** ** Integers: [W_SmallInteger] and [W_LargePositiveInteger1Word] *)

Module Integers.

Definition size (w : W_Object) : Z :=
  match w with
  | W_LargePositiveInteger1Word _ sz => sz
  | _ => 0
  end.

Definition unwrap_positive_32bit_int (w : W_Object) : result Z :=
  match w with
  | W_SmallInteger value =>
      if 0 <=? value then Ok (r_uint value) else Raise UnwrappingError
  | W_LargePositiveInteger1Word value _ => Ok (r_uint value)
  | _ => Raise UnwrappingError
  end.

Definition unwrap_int (w : W_Object) : result Z :=
  match w with
  | W_SmallInteger value => Ok (intmask value)
  | W_LargePositiveInteger1Word value _ =>
      if 0 <=? value then Ok (intmask value) else Raise UnwrappingError
  | _ => Raise UnwrappingError
  end.

(** [W_SmallInteger.lshift], [W_LargePositiveInteger1Word.lshift] and the
    default [W_Object.lshift]. *)
Definition lshift (w : W_Object) (shift : Z) : result W_Object :=
  match w with
  | W_SmallInteger value =>
      up <- py_rshift (r_uint (-1)) shift ;;
      let upperbound := intmask up in
      if (0 <=? value) && (value <=? upperbound) then
        s <- py_lshift value shift ;;
        let shifted := intmask s in
        Ok (wrap_positive_32bit_int shifted)
      else
        s <- py_lshift value shift ;;
        match ovfcheck s with
        | Ok shifted => Ok (wrap_int shifted)
        | Raise OverflowError => Raise PrimitiveFailedError
        | Raise e => Raise e
        end
  | W_LargePositiveInteger1Word value _ =>
      up <- py_rshift (r_uint (-1)) shift ;;
      let upperbound := intmask up in
      if (0 <=? value) && (value <=? upperbound) then
        s <- py_lshift value shift ;;
        let shifted := intmask s in
        Ok (wrap_positive_32bit_int shifted)
      else Raise PrimitiveFailedError
  | _ => Raise PrimitiveFailedError
  end.

(** [W_LargePositiveInteger1Word.at0]. *)
Definition at0 (w : W_Object) (index0 : Z) : result W_Object :=
  match w with
  | W_LargePositiveInteger1Word value _ =>
      let shift := index0 * 8 in
      r <- py_rshift value shift ;;
      let result := Z.land r 255 in
      Ok (wrap_int (intmask result))
  | _ => Raise NotImplementedError
  end.

(** [W_LargePositiveInteger1Word.atput0]: the receiver after the store. *)
Definition atput0 (w : W_Object) (index0 : Z) (w_byte : W_Object) : result W_Object :=
  match w with
  | W_LargePositiveInteger1Word value sz =>
      if sz <=? index0 then Raise IndexError else
      let skew := index0 * 8 in
      byte <- unwrap_int w_byte ;;
      _ <- py_assert (byte <=? 255) ;;
      m <- py_lshift 255 skew ;;
      let new_value := Z.land (r_uint value) (r_uint (Z.lnot m)) in
      b <- py_lshift byte skew ;;
      let new_value := Z.lor new_value (r_uint b) in
      Ok (W_LargePositiveInteger1Word (intmask new_value) sz)
  | _ => Raise NotImplementedError
  end.

(** [W_SmallInteger.rshift], [W_LargePositiveInteger1Word.rshift] and the
    default [W_Object.rshift]. *)
Definition rshift (w : W_Object) (shift : Z) : result W_Object :=
  match w with
  | W_SmallInteger value =>
      s <- py_rshift value shift ;;
      Ok (wrap_int s)
  | W_LargePositiveInteger1Word value _ =>
      if shift =? 0 then Ok w
      else
        m <- py_lshift 1 (32 - shift) ;;
        let mask := intmask (m - 1) in
        s <- py_rshift value shift ;;
        Ok (wrap_int (Z.land s mask))
  | _ => Raise PrimitiveFailedError
  end.

Definition unwrap_uint (w : W_Object) : result Z :=
  match w with
  | W_SmallInteger value => Ok (r_uint value)
  | W_LargePositiveInteger1Word value _ => Ok (r_uint value)
  | _ => Raise UnwrappingError
  end.

(** [clone]: a small integer is itself; the copy of a 1-word large
    positive integer gets the default size. *)
Definition clone (w : W_Object) : result W_Object :=
  match w with
  | W_SmallInteger _ => Ok w
  | W_LargePositiveInteger1Word value _ => Ok (new_LargePositiveInteger1Word value)
  | _ => Raise NotImplementedError
  end.

End Integers.

(* ================================================================== *)
(** ** Storage strategies of [W_GenericPointersObject]

    [storage.py] configures the strategy classes (what each contains, its
    tag, the strategies it generalizes to); the behaviour they share comes
    from the mixins of [rpython.rlib.rstrategies]. *)

Module Strategies.

Inductive strategy_type : Type :=
| AllNilStrategy
| SmallIntegerOrNilStrategy
| FloatOrNilStrategy
| ListStrategy.

Definition strategy_type_eqb (a b : strategy_type) : bool :=
  match a, b with
  | AllNilStrategy, AllNilStrategy
  | SmallIntegerOrNilStrategy, SmallIntegerOrNilStrategy
  | FloatOrNilStrategy, FloatOrNilStrategy
  | ListStrategy, ListStrategy => true
  | _, _ => false
  end.

(** An element of a backing list: a raw int, a raw float or an object. *)
Inductive raw : Type :=
| RawInt (i : Z)
| RawFloat (f : Z)
| RawObj (w : W_Object).

(** The [_storage] field: the size box of a single-value strategy, or a
    Python list. *)
Inductive storage : Type :=
| SingleValueStrategyStorage (size : Z)
| PyList (l : list raw).

Record W_GenericPointersObject : Type := mkObj {
  strategy : strategy_type;
  _storage : storage
}.

Definition store_strategy (o : W_GenericPointersObject) (s : strategy_type) :=
  mkObj s (_storage o).

Definition set_storage (o : W_GenericPointersObject) (st : storage) :=
  mkObj (strategy o) st.

(** The [generalize] lists of the [@rstrat.strategy] decorators. *)
Definition generalize (s : strategy_type) : list strategy_type :=
  match s with
  | AllNilStrategy => [SmallIntegerOrNilStrategy; FloatOrNilStrategy; ListStrategy]
  | SmallIntegerOrNilStrategy => [ListStrategy]
  | FloatOrNilStrategy => [ListStrategy]
  | ListStrategy => []
  end.

(** [unwrapped_tagged_value]: [constants.MAXINT] for small integers,
    [sys.float_info.max] for floats. *)
Definition unwrapped_tagged_value (s : strategy_type) : raw :=
  match s with
  | FloatOrNilStrategy => RawFloat float_info_max
  | _ => RawInt MAXINT
  end.

Definition is_nil (w : W_Object) : bool :=
  match w with w_nil => true | _ => false end.

(** Modelled from the spec: the strategy mixins of
    [rpython.rlib.rstrategies] ([SingleValueStrategy], [TaggingStrategy],
    [GenericStrategy], [StrategyWithStorage], [UnsafeIndexingMixin]) and
    its [StrategyFactory], which are not among the sources.  A tagged
    single-type strategy stores raw values plus one reserved sentinel
    meaning nil; a store the strategy cannot hold makes the factory pick
    the first compatible strategy of the [generalize] list, re-read every
    slot from the old strategy into the new one, and retry the store. *)
Definition _check_can_handle (s : strategy_type) (value : W_Object) : bool :=
  match s with
  | AllNilStrategy => is_nil value
  | SmallIntegerOrNilStrategy =>
      is_nil value ||
      match value with
      | W_SmallInteger v => negb (intmask v =? MAXINT)
      | _ => false
      end
  | FloatOrNilStrategy =>
      is_nil value ||
      match value with
      | W_Float f => negb (float_eq f float_info_max)
      | _ => false
      end
  | ListStrategy => true
  end.

(** [unwrap] of the strategy class: [space.unwrap_int], [space.unwrap_float]. *)
Definition unwrap (s : strategy_type) (w_val : W_Object) : result raw :=
  match s with
  | SmallIntegerOrNilStrategy =>
      match w_val with
      | W_SmallInteger v => Ok (RawInt (intmask v))
      | W_LargePositiveInteger1Word v _ =>
          if 0 <=? v then Ok (RawInt (intmask v)) else Raise UnwrappingError
      | _ => Raise UnwrappingError
      end
  | FloatOrNilStrategy =>
      match w_val with
      | W_Float f => Ok (RawFloat f)
      | W_SmallInteger _ | W_LargePositiveInteger1Word _ _ =>
          (* [float(self.value)]: the conversion is outside the model; a
             strategy unwraps only values it can handle, here floats *)
          Raise NotImplementedError
      | _ => Raise UnwrappingError
      end
  | _ => Raise NotImplementedError
  end.

(** [wrap] of the strategy class: [space.wrap_int], [space.wrap_float]. *)
Definition wrap (s : strategy_type) (val : raw) : result W_Object :=
  match s, val with
  | SmallIntegerOrNilStrategy, RawInt i => Ok (wrap_int i)
  | FloatOrNilStrategy, RawFloat f => Ok (W_Float f)
  | _, _ => Raise TypeError
  end.

Definition raw_eq (a b : raw) : bool :=
  match a, b with
  | RawInt x, RawInt y => x =? y
  | RawFloat x, RawFloat y => float_eq x y
  | _, _ => false
  end.

Definition _unwrap (s : strategy_type) (value : W_Object) : result raw :=
  match s with
  | ListStrategy => Ok (RawObj value)
  | AllNilStrategy => Raise NotImplementedError
  | _ => if is_nil value then Ok (unwrapped_tagged_value s) else unwrap s value
  end.

Definition _wrap (s : strategy_type) (value : raw) : result W_Object :=
  match s with
  | ListStrategy =>
      match value with
      | RawObj w => Ok w
      | _ => Raise TypeError
      end
  | AllNilStrategy => Raise NotImplementedError
  | _ => if raw_eq value (unwrapped_tagged_value s) then Ok w_nil else wrap s value
  end.

Definition size (o : W_GenericPointersObject) : result Z :=
  match strategy o, _storage o with
  | AllNilStrategy, SingleValueStrategyStorage n => Ok n
  | AllNilStrategy, PyList _ => Raise TypeError
  | _, PyList l => Ok (Z.of_nat (length l))
  | _, SingleValueStrategyStorage _ => Raise TypeError
  end.

(** [fetch]: the index checks of [UnsafeIndexingMixin] do nothing. *)
Definition fetch_with (s : strategy_type) (st : storage) (index0 : Z) : result W_Object :=
  match s with
  | AllNilStrategy => Ok w_nil
  | _ =>
      match st with
      | PyList l => unwrapped <- py_getitem l index0 ;; _wrap s unwrapped
      | SingleValueStrategyStorage _ => Raise TypeError
      end
  end.

Definition fetch (o : W_GenericPointersObject) (n0 : Z) : result W_Object :=
  fetch_with (strategy o) (_storage o) n0.

Definition size_with (s : strategy_type) (st : storage) : result Z :=
  size (mkObj s st).

(** [_initialize_storage]. *)
Definition _initialize_storage (s : strategy_type) (initial_size : Z) : result storage :=
  match s with
  | AllNilStrategy => Ok (SingleValueStrategyStorage initial_size)
  | _ =>
      default <- _unwrap s w_nil ;;
      Ok (PyList (replicate (Z.to_nat initial_size) default))
  end.

(** [_convert_storage_to]: the storage of the new strategy, read from the
    previous one.  [AbstractStrategy._convert_storage_from_AllNilStrategy]
    of [storage.py] only initializes the fields to nil. *)
Definition convert_storage (new old : strategy_type) (st : storage) : result storage :=
  match old, new with
  | AllNilStrategy, _ =>
      n <- size_with old st ;; _initialize_storage new n
  | _, AllNilStrategy =>
      n <- size_with old st ;; _initialize_storage new n
  | _, _ =>
      n <- size_with old st ;;
      new_storage <- mapM (fun i => w <- fetch_with old st i ;; _unwrap new w) (py_range n) ;;
      Ok (PyList new_storage)
  end.

(** [StrategyFactory.switch_strategy]: the strategy is replaced first, the
    storage converted afterwards. *)
Definition switch_strategy (o : W_GenericPointersObject) (new_strategy_type : strategy_type)
  : W_GenericPointersObject * result unit :=
  let old_strategy := strategy o in
  let o1 := store_strategy o new_strategy_type in
  match convert_storage new_strategy_type old_strategy (_storage o) with
  | Ok st => (set_storage o1 st, Ok tt)
  | Raise e => (o1, Raise e)
  end.

Definition generalized_strategy_for (s : strategy_type) (value : W_Object) : result strategy_type :=
  match find (fun t => _check_can_handle t value) (generalize s) with
  | Some t => Ok t
  | None => Raise GenericException
  end.

(** [store]: the object after the call and the outcome.  A store the
    strategy cannot handle generalizes and retries on the new strategy;
    [fuel] bounds the retries. *)
Fixpoint store_fuel (fuel : nat) (o : W_GenericPointersObject) (index0 : Z) (w_value : W_Object)
  : W_GenericPointersObject * result unit :=
  let _cannot_handle_store :=
    match fuel with
    | O => (o, Raise GenericException)
    | S fuel' =>
        match generalized_strategy_for (strategy o) w_value with
        | Raise e => (o, Raise e)
        | Ok strategy_type =>
            match switch_strategy o strategy_type with
            | (o', Ok _) => store_fuel fuel' o' index0 w_value
            | (o', Raise e) => (o', Raise e)
            end
        end
    end in
  match strategy o with
  | AllNilStrategy =>
      if _check_can_handle AllNilStrategy w_value then (o, Ok tt)
      else _cannot_handle_store
  | s =>
      if _check_can_handle s w_value then
        match _unwrap s w_value, _storage o with
        | Ok unwrapped, PyList l =>
            match py_setitem l index0 unwrapped with
            | Ok l' => (set_storage o (PyList l'), Ok tt)
            | Raise e => (o, Raise e)
            end
        | Ok _, SingleValueStrategyStorage _ => (o, Raise TypeError)
        | Raise e, _ => (o, Raise e)
        end
      else _cannot_handle_store
  end.

(** No chain of generalizations is longer than the number of strategies. *)
Definition store (o : W_GenericPointersObject) (n0 : Z) (w_value : W_Object) :=
  store_fuel 4 o n0 w_value.



(** A sequence of [store(i, v)] calls, stopping at the first exception. *)
Fixpoint store_sequence (o : W_GenericPointersObject) (ops : list (Z * W_Object))
  : W_GenericPointersObject * result unit :=
  match ops with
  | [] => (o, Ok tt)
  | (i, v) :: ops' =>
      match store o i v with
      | (o', Ok _) => store_sequence o' ops'
      | (o', Raise e) => (o', Raise e)
      end
  end.


(** The generalization lattice: [AllNil] below the tagged single-type
    strategies, which are below [List]. *)
Definition strategy_le (a b : strategy_type) : bool :=
  match a, b with
  | AllNilStrategy, _ => true
  | _, ListStrategy => true
  | SmallIntegerOrNilStrategy, SmallIntegerOrNilStrategy => true
  | FloatOrNilStrategy, FloatOrNilStrategy => true
  | _, _ => false
  end.

(** *** Abstract contents

    The slot values an object stands for, used to state what [fetch]
    returns after a sequence of stores. *)



(** The slot values after a sequence of stores. *)
Definition apply_ops (c : list W_Object) (ops : list (Z * W_Object)) : list W_Object :=
  fold_left (fun c op => <[Z.to_nat (fst op) := snd op]> c) ops c.

End Strategies.

(* ================================================================== *)
(** ** Objects of [model.py] with their fields

    One module per class.  A reference to another object (a class, a
    context) is its address in the object memory.  The [version] fields,
    which hold a fresh empty [Version] object after each change and exist
    for the JIT only, are not part of the model. *)

(** [c_bytes[n]] and [c_words[n]]: an access to a raw C buffer. *)
Definition raw_getitem (buf : option (list Z)) (n : Z) : result Z :=
  match buf with
  | None => Raise OutsideModel
  | Some l =>
      if (0 <=? n) && (n <? Z.of_nat (length l)) then
        match l !! Z.to_nat n with
        | Some x => Ok x
        | None => Raise OutsideModel
        end
      else Raise OutsideModel
  end.

Definition raw_setitem (buf : option (list Z)) (n : Z) (x : Z) : result (option (list Z)) :=
  match buf with
  | None => Raise OutsideModel
  | Some l =>
      if (0 <=? n) && (n <? Z.of_nat (length l)) then Ok (Some (<[Z.to_nat n := x]> l))
      else Raise OutsideModel
  end.

(** [chr(i)]: a [ValueError] outside [range(256)]. *)
Definition chr (i : Z) : result Z :=
  if (0 <=? i) && (i <? 256) then Ok i else Raise ValueError.

Module SmallPointers.

Record W_SmallPointersObject : Type := mkSmallPointers {
  w_class : option positive;
  _size : Z;
  f1 : W_Object;
  f2 : W_Object;
  f3 : W_Object;
  f4 : W_Object
}.

(** [W_PointersObject.__init__] with [_initialize_storage]. *)
Definition new (w_class : option positive) (size : Z) : W_SmallPointersObject :=
  mkSmallPointers w_class size w_nil w_nil w_nil w_nil.

Definition size (self : W_SmallPointersObject) : Z := _size self.

Definition instsize (self : W_SmallPointersObject) : Z := size self.

Definition fetch (self : W_SmallPointersObject) (index0 : Z) : result W_Object :=
  if negb (int_between 0 index0 (size self)) then Raise IndexError
  else if index0 =? 0 then Ok (f1 self)
  else if index0 =? 1 then Ok (f2 self)
  else if index0 =? 2 then Ok (f3 self)
  else if index0 =? 3 then Ok (f4 self)
  else Raise IndexError.

Definition store (self : W_SmallPointersObject) (index0 : Z) (w_value : W_Object)
  : result W_SmallPointersObject :=
  if negb (int_between 0 index0 (size self)) then Raise IndexError
  else if index0 =? 0 then
    Ok (mkSmallPointers (w_class self) (_size self) w_value (f2 self) (f3 self) (f4 self))
  else if index0 =? 1 then
    Ok (mkSmallPointers (w_class self) (_size self) (f1 self) w_value (f3 self) (f4 self))
  else if index0 =? 2 then
    Ok (mkSmallPointers (w_class self) (_size self) (f1 self) (f2 self) w_value (f4 self))
  else if index0 =? 3 then
    Ok (mkSmallPointers (w_class self) (_size self) (f1 self) (f2 self) (f3 self) w_value)
  else Raise IndexError.

(** [W_PointersObject.at0] and [atput0]: the variable-sized part. *)
Definition at0 (self : W_SmallPointersObject) (index0 : Z) : result W_Object :=
  fetch self (index0 + instsize self).

Definition atput0 (self : W_SmallPointersObject) (index0 : Z) (w_value : W_Object)
  : result W_SmallPointersObject :=
  store self (index0 + instsize self) w_value.

(** [W_PointersObject.fetch_all]. *)
Definition fetch_all (self : W_SmallPointersObject) : result (list W_Object) :=
  mapM (fetch self) (py_range (size self)).

(** The two [while] loops of [W_PointersObject.store_all]: the object
    after the stores of [collection[i]], then of nil, at the indices
    [idxs].  A failing store leaves the stores before it in place. *)
Fixpoint store_loop (self : W_SmallPointersObject) (idxs : list Z)
         (value : Z -> result W_Object) : W_SmallPointersObject * result unit :=
  match idxs with
  | [] => (self, Ok tt)
  | i :: idxs' =>
      match value i with
      | Raise e => (self, Raise e)
      | Ok w =>
          match store self i w with
          | Raise e => (self, Raise e)
          | Ok self' => store_loop self' idxs' value
          end
      end
  end.

(** [range(a, b)]. *)
Definition py_range2 (a b : Z) : list Z :=
  map (fun k => a + Z.of_nat k) (seq 0 (Z.to_nat (b - a))).

Definition store_all (self : W_SmallPointersObject) (collection : list W_Object)
  : W_SmallPointersObject * result unit :=
  let my_length := size self in
  let incoming_length := Z.min my_length (Z.of_nat (length collection)) in
  match store_loop self (py_range2 0 incoming_length) (py_getitem collection) with
  | (self1, Raise e) => (self1, Raise e)
  | (self1, Ok _) =>
      store_loop self1 (py_range2 (Z.max 0 incoming_length) my_length) (fun _ => Ok w_nil)
  end.

Definition clone (self : W_SmallPointersObject) : result W_SmallPointersObject :=
  my_pointers <- fetch_all self ;;
  let w_result := new (w_class self) (Z.of_nat (length my_pointers)) in
  match store_all w_result my_pointers with
  | (w_result', Ok _) => Ok w_result'
  | (_, Raise e) => Raise e
  end.

End SmallPointers.

Module Bytes.

Record W_BytesObject : Type := mkBytes {
  w_class : option positive;
  bytes : option (list Z);
  c_bytes : option (list Z);
  _size : Z
}.

(** [W_BytesObject.__init__]: [size] zero bytes in a Python list. *)
Definition new (w_class : option positive) (size : Z) : W_BytesObject :=
  mkBytes w_class (Some (replicate (Z.to_nat size) 0)) None size.

Definition size (self : W_BytesObject) : Z := _size self.

Definition getchar (self : W_BytesObject) (n0 : Z) : result Z :=
  match bytes self with
  | None =>
      if _size self <=? n0 then Raise IndexError
      else raw_getitem (c_bytes self) n0
  | Some l => py_getitem l n0
  end.

(** [setchar]: [character] is one character, given by its code. *)
Definition setchar (self : W_BytesObject) (n0 : Z) (character : Z) : result W_BytesObject :=
  match bytes self with
  | None =>
      c <- raw_setitem (c_bytes self) n0 character ;;
      Ok (mkBytes (w_class self) None c (_size self))
  | Some l =>
      l' <- py_setitem l n0 character ;;
      Ok (mkBytes (w_class self) (Some l') (c_bytes self) (_size self))
  end.

Definition at0 (self : W_BytesObject) (index0 : Z) : result W_Object :=
  c <- getchar self index0 ;; Ok (wrap_int c).

Definition atput0 (self : W_BytesObject) (index0 : Z) (w_value : W_Object)
  : result W_BytesObject :=
  i <- Integers.unwrap_int w_value ;;
  c <- chr i ;;
  setchar self index0 c.

(** The [for] loop of [has_same_chars] over the remaining indices. *)
Fixpoint has_same_chars_loop (self other : W_BytesObject) (idxs : list Z) : result bool :=
  match idxs with
  | [] => Ok true
  | i :: idxs' =>
      a <- getchar self i ;;
      b <- getchar other i ;;
      if negb (a =? b) then Ok false else has_same_chars_loop self other idxs'
  end.

Definition has_same_chars (self other : W_BytesObject) (size : Z) : result bool :=
  has_same_chars_loop self other (py_range size).

(** [self.bytes == other.bytes] on two lists of characters. *)
Fixpoint list_eqb (a b : list Z) : bool :=
  match a, b with
  | [], [] => true
  | x :: a', y :: b' => (x =? y) && list_eqb a' b'
  | _, _ => false
  end.

(** [is_same_object] once [other] is known to be a [W_BytesObject];
    [self_is_other] is the outcome of [self is other]. *)
Definition is_same_object (self_is_other : bool) (self other : W_BytesObject) : result bool :=
  if self_is_other then Ok true
  else
    let sz := size self in
    if negb (sz =? size other) then Ok false
    else
      match bytes self, bytes other with
      | Some l1, Some l2 =>
          if 256 <? sz then Ok (list_eqb l1 l2) else has_same_chars self other sz
      | _, _ => has_same_chars self other sz
      end.

Definition clone (self : W_BytesObject) : result W_BytesObject :=
  let sz := size self in
  let w_result := new (w_class self) sz in
  match bytes self with
  | None =>
      l <- mapM (raw_getitem (c_bytes self)) (py_range sz) ;;
      Ok (mkBytes (w_class w_result) (Some l) (c_bytes w_result) (_size w_result))
  | Some l =>
      Ok (mkBytes (w_class w_result) (Some l) (c_bytes w_result) (_size w_result))
  end.

(** [_pure_as_string]: the characters of the object. *)
Definition unwrap_string (self : W_BytesObject) : result (list Z) :=
  match bytes self with
  | None => mapM (raw_getitem (c_bytes self)) (py_range (size self))
  | Some l => Ok l
  end.

(** [convert_to_c_layout]: the object afterwards; [rffi.str2charp] copies
    the characters into a fresh buffer and ends it with a zero. *)
Definition convert_to_c_layout (self : W_BytesObject) : result W_BytesObject :=
  match bytes self with
  | None => Ok self
  | Some l => Ok (mkBytes (w_class self) None (Some (l ++ [0])) (_size self))
  end.

(** *** Abstract contents

    The characters an object stands for, and the link between [_size] and
    the layout that the constructors and [convert_to_c_layout] keep. *)

Definition chars (self : W_BytesObject) : option (list Z) :=
  match bytes self with
  | Some l => Some l
  | None =>
      match c_bytes self with
      | Some buf => Some (take (Z.to_nat (_size self)) buf)
      | None => None
      end
  end.

Definition wf (self : W_BytesObject) : Prop :=
  0 <= _size self /\
  match bytes self with
  | Some l => Z.of_nat (length l) = _size self
  | None =>
      match c_bytes self with
      | Some buf => _size self <= Z.of_nat (length buf)
      | None => False
      end
  end.

End Bytes.

Module Words.

Record W_WordsObject : Type := mkWords {
  w_class : option positive;
  words : option (list Z);
  c_words : option (list Z);
  _size : Z
}.

(** [W_WordsObject.__init__]. *)
Definition new (w_class : option positive) (size : Z) : W_WordsObject :=
  mkWords w_class (Some (replicate (Z.to_nat size) (r_uint 0))) None size.

Definition size (self : W_WordsObject) : Z := _size self.

Definition getword (self : W_WordsObject) (n : Z) : result Z :=
  _ <- py_assert ((n <? size self) && (0 <=? n)) ;;
  match words self with
  | None => c <- raw_getitem (c_words self) n ;; Ok (r_uint c)
  | Some l => py_getitem l n
  end.

Definition setword (self : W_WordsObject) (n : Z) (word : Z) : result W_WordsObject :=
  match words self with
  | None =>
      c <- raw_setitem (c_words self) n (intmask word) ;;
      Ok (mkWords (w_class self) None c (_size self))
  | Some l =>
      l' <- py_setitem l n (r_uint word) ;;
      Ok (mkWords (w_class self) (Some l') (c_words self) (_size self))
  end.

Definition clone (self : W_WordsObject) : result W_WordsObject :=
  let sz := size self in
  let w_result := new (w_class self) sz in
  match words self with
  | None =>
      l <- mapM (fun i => c <- raw_getitem (c_words self) i ;; Ok (r_uint c)) (py_range sz) ;;
      Ok (mkWords (w_class w_result) (Some l) (c_words w_result) (_size w_result))
  | Some l =>
      Ok (mkWords (w_class w_result) (Some l) (c_words w_result) (_size w_result))
  end.

(** [convert_to_c_layout]: the object afterwards. *)
Definition convert_to_c_layout (self : W_WordsObject) : result W_WordsObject :=
  match words self with
  | None => Ok self
  | Some l =>
      c <- mapM (fun i => w <- py_getitem l i ;; Ok (intmask w)) (py_range (size self)) ;;
      Ok (mkWords (w_class self) None (Some c) (_size self))
  end.

End Words.

Module Method.

Record W_CompiledMethod : Type := mkMethod {
  header : Z;
  _primitive : Z;
  literalsize : Z;
  islarge : Z;
  _tempsize : Z;
  argsize : Z;
  bytes : list Z;
  literals : list W_Object;
  lookup_selector : String.string;
  compiledin_class : option positive;
  lookup_class : option positive
}.

(** [constants.BYTES_PER_WORD] on the 32-bit target. *)
Definition BYTES_PER_WORD : Z := 4.

Definition tempsize (self : W_CompiledMethod) : Z := _tempsize self.

Definition primitive (self : W_CompiledMethod) : Z := _primitive self.

Definition headersize (self : W_CompiledMethod) : Z := BYTES_PER_WORD.

Definition getliteralsize (self : W_CompiledMethod) : Z := literalsize self * BYTES_PER_WORD.

Definition bytecodeoffset (self : W_CompiledMethod) : Z :=
  getliteralsize self + headersize self.

Definition size (self : W_CompiledMethod) : Z :=
  headersize self + getliteralsize self + Z.of_nat (length (bytes self)).

Definition compute_frame_size (self : W_CompiledMethod) : Z :=
  16 + islarge self * 40 + argsize self.

Definition fetch_bytecode (self : W_CompiledMethod) (pc : Z) : result Z :=
  _ <- py_assert ((0 <=? pc) && (pc <? Z.of_nat (length (bytes self)))) ;;
  py_getitem (bytes self) pc.

Definition getliteral (self : W_CompiledMethod) (index : Z) : result W_Object :=
  py_getitem (literals self) index.

Definition setchar (self : W_CompiledMethod) (index0 : Z) (character : Z)
  : result W_CompiledMethod :=
  _ <- py_assert (0 <=? index0) ;;
  b <- py_setitem (bytes self) index0 character ;;
  Ok (mkMethod (header self) (_primitive self) (literalsize self) (islarge self)
               (_tempsize self) (argsize self) b (literals self)
               (lookup_selector self) (compiledin_class self) (lookup_class self)).

(** [setliteral]: [index == len(self.literals)] cannot hold once the
    store succeeded, so [compiledin_class] is kept. *)
Definition setliteral (self : W_CompiledMethod) (index : Z) (w_lit : W_Object)
  : result W_CompiledMethod :=
  l <- py_setitem (literals self) index w_lit ;;
  let cc := if index =? Z.of_nat (length l) then None else compiledin_class self in
  Ok (mkMethod (header self) (_primitive self) (literalsize self) (islarge self)
               (_tempsize self) (argsize self) (bytes self) l
               (lookup_selector self) cc (lookup_class self)).

End Method.

(* ================================================================== *)
(** ** The object memory: identity hash, identity and become *)

Module Model.

(** [__class__] of an object with an identity hash. *)
Inductive py_class : Type :=
| cls_LargePositiveInteger1Word
| cls_Float
| cls_PointersObjectNoFields
| cls_SmallPointersObject
| cls_GenericPointersObject
| cls_BytesObject
| cls_WordsObject
| cls_CompiledMethod.

Definition py_class_eqb (a b : py_class) : bool :=
  match a, b with
  | cls_LargePositiveInteger1Word, cls_LargePositiveInteger1Word
  | cls_Float, cls_Float
  | cls_PointersObjectNoFields, cls_PointersObjectNoFields
  | cls_SmallPointersObject, cls_SmallPointersObject
  | cls_GenericPointersObject, cls_GenericPointersObject
  | cls_BytesObject, cls_BytesObject
  | cls_WordsObject, cls_WordsObject
  | cls_CompiledMethod, cls_CompiledMethod => true
  | _, _ => false
  end.

(** The fields a class adds to [hash].  The strategy of a
    [W_GenericPointersObject] is one of the singleton strategies, which do
    not handle become themselves. *)
Inductive instance : Type :=
| LargePositiveInteger1Word (value : Z) (_exposed_size : Z)
| Float (value : Z)
| PointersObjectNoFields (w_class : option positive)
| SmallPointersObject (o : SmallPointers.W_SmallPointersObject)
| GenericPointersObject (w_class : option positive) (o : Strategies.W_GenericPointersObject)
| BytesObject (o : Bytes.W_BytesObject)
| WordsObject (o : Words.W_WordsObject)
| CompiledMethod (o : Method.W_CompiledMethod).

Record W_AbstractObjectWithIdentityHash : Type := mkObject {
  hash : Z;
  fields : instance
}.

Definition UNASSIGNED_HASH : Z := MAXINT.

(** A new object: [hash] is the class default. *)
Definition new (i : instance) : W_AbstractObjectWithIdentityHash :=
  mkObject UNASSIGNED_HASH i.

Definition class_of (o : W_AbstractObjectWithIdentityHash) : py_class :=
  match fields o with
  | LargePositiveInteger1Word _ _ => cls_LargePositiveInteger1Word
  | Float _ => cls_Float
  | PointersObjectNoFields _ => cls_PointersObjectNoFields
  | SmallPointersObject _ => cls_SmallPointersObject
  | GenericPointersObject _ _ => cls_GenericPointersObject
  | BytesObject _ => cls_BytesObject
  | WordsObject _ => cls_WordsObject
  | CompiledMethod _ => cls_CompiledMethod
  end.

Definition can_become (self w_other : W_AbstractObjectWithIdentityHash) : bool :=
  py_class_eqb (class_of self) (class_of w_other).

(** [is_same_object] of the objects at the addresses [a] and [b]:
    [W_Float] and [W_BytesObject] override the identity test of
    [W_Object]. *)
Definition is_same_object (a b : positive) (self other : W_AbstractObjectWithIdentityHash)
  : result bool :=
  match fields self with
  | Float v1 =>
      match fields other with
      | Float v2 => Ok (float_eq v1 v2 || (float_is_nan v1 && float_is_nan v2))
      | _ => Ok false
      end
  | BytesObject o1 =>
      if Pos.eqb a b then Ok true
      else
        match fields other with
        | BytesObject o2 => Bytes.is_same_object false o1 o2
        | _ => Ok false
        end
  | _ => Ok (Pos.eqb a b)
  end.

(** [_become]: each class exchanges its fields, then
    [W_AbstractObjectWithIdentityHash._become] the hashes.  The asserts
    are the [isinstance] checks.  [W_CompiledMethod._become] leaves
    [lookup_class] where it is. *)
Definition _become (self w_other : W_AbstractObjectWithIdentityHash)
  : result (W_AbstractObjectWithIdentityHash * W_AbstractObjectWithIdentityHash) :=
  match fields self, fields w_other with
  | LargePositiveInteger1Word v1 s1, LargePositiveInteger1Word v2 s2 =>
      Ok (mkObject (hash w_other) (LargePositiveInteger1Word v2 s2),
          mkObject (hash self) (LargePositiveInteger1Word v1 s1))
  | Float v1, Float v2 =>
      Ok (mkObject (hash w_other) (Float v2), mkObject (hash self) (Float v1))
  | PointersObjectNoFields c1, PointersObjectNoFields c2 =>
      Ok (mkObject (hash w_other) (PointersObjectNoFields c2),
          mkObject (hash self) (PointersObjectNoFields c1))
  | SmallPointersObject o1, SmallPointersObject o2 =>
      Ok (mkObject (hash w_other) (SmallPointersObject o2),
          mkObject (hash self) (SmallPointersObject o1))
  | GenericPointersObject c1 o1, GenericPointersObject c2 o2 =>
      Ok (mkObject (hash w_other) (GenericPointersObject c2 o2),
          mkObject (hash self) (GenericPointersObject c1 o1))
  | BytesObject o1, BytesObject o2 =>
      Ok (mkObject (hash w_other) (BytesObject o2),
          mkObject (hash self) (BytesObject o1))
  | WordsObject o1, WordsObject o2 =>
      Ok (mkObject (hash w_other) (WordsObject o2),
          mkObject (hash self) (WordsObject o1))
  | CompiledMethod m1, CompiledMethod m2 =>
      Ok (mkObject (hash w_other)
            (CompiledMethod
               (Method.mkMethod (Method.header m2) (Method._primitive m2)
                  (Method.literalsize m2) (Method.islarge m2) (Method._tempsize m2)
                  (Method.argsize m2) (Method.bytes m2) (Method.literals m2)
                  (Method.lookup_selector m2) (Method.compiledin_class m2)
                  (Method.lookup_class m1))),
          mkObject (hash self)
            (CompiledMethod
               (Method.mkMethod (Method.header m1) (Method._primitive m1)
                  (Method.literalsize m1) (Method.islarge m1) (Method._tempsize m1)
                  (Method.argsize m1) (Method.bytes m1) (Method.literals m1)
                  (Method.lookup_selector m1) (Method.compiledin_class m1)
                  (Method.lookup_class m2))))
  | _, _ => Raise AssertionError
  end.

(** The fields of an object but for [lookup_class] of a compiled
    method. *)
Definition fields_but_lookup_class (i : instance) : instance :=
  match i with
  | CompiledMethod m =>
      CompiledMethod
        (Method.mkMethod (Method.header m) (Method._primitive m)
           (Method.literalsize m) (Method.islarge m) (Method._tempsize m)
           (Method.argsize m) (Method.bytes m) (Method.literals m)
           (Method.lookup_selector m) (Method.compiledin_class m) None)
  | _ => i
  end.

Definition lookup_class_of (i : instance) : option positive :=
  match i with
  | CompiledMethod m => Method.lookup_class m
  | _ => None
  end.

(** [become]: the memory afterwards and the returned flag. *)
(** The object memory holds the objects by address. *)
Definition become (h : gmap positive W_AbstractObjectWithIdentityHash)
           (self w_other : positive)
  : gmap positive W_AbstractObjectWithIdentityHash * result bool :=
  match h !! self, h !! w_other with
  | Some o1, Some o2 =>
      if negb (can_become o1 o2) then (h, Ok false)
      else
        match is_same_object self w_other o1 o2 with
        | Raise e => (h, Raise e)
        | Ok true => (h, Ok false)
        | Ok false =>
            match _become o1 o2 with
            | Raise e => (h, Raise e)
            | Ok (o1', o2') => (<[w_other := o2']> (<[self := o1']> h), Ok true)
            end
        end
  | _, _ => (h, Raise OutsideModel)
  end.

(** [rrandom.Random]: the generator is the sequence of its outputs and a
    position in it; [genrand32] yields an unsigned 32-bit number. *)
Record Random : Type := mkRandom {
  outputs : nat -> Z;
  position : nat
}.

Definition genrand32 (g : Random) : Z * Random :=
  ((outputs g (position g)) mod 2 ^ 32, mkRandom (outputs g) (S (position g))).

(** The object memory with the generator shared by all objects. *)
Record memory : Type := mkMemory {
  objects : gmap positive W_AbstractObjectWithIdentityHash;
  hash_generator : Random
}.

(** The object at [a] has the assigned hash [hv] and the fields [i]. *)
Definition assigned (m : memory) (a : positive) (hv : Z) (i : instance) : Prop :=
  objects m !! a = Some (mkObject hv i) /\ hv <> UNASSIGNED_HASH.

(** The case in which [gethash] on the object at [a] has a hash to
    assign: the object is there, is no float and has no hash yet. *)
Definition gethash_assigns (m : memory) (a : positive) : Prop :=
  exists self, objects m !! a = Some self /\ hash self = UNASSIGNED_HASH /\
               forall v, fields self <> Float v.

Section Hash.

(** [compute_hash] of [rpython.rlib.objectmodel], on the bits of a float. *)
Variable compute_hash : Z -> Z.

(** [gethash] of the object at [a]: [W_Float] overrides
    [W_AbstractObjectWithIdentityHash.gethash]. *)
Definition gethash (m : memory) (a : positive) : memory * result Z :=
  match objects m !! a with
  | None => (m, Raise OutsideModel)
  | Some self =>
      match fields self with
      | Float v => (m, Ok (intmask (compute_hash v) / 2))
      | _ =>
          if hash self =? UNASSIGNED_HASH then
            let (r, g) := genrand32 (hash_generator m) in
            let hash' := intmask r / 2 in
            (mkMemory (<[a := mkObject hash' (fields self)]> (objects m)) g, Ok hash')
          else (m, Ok (hash self))
      end
  end.

(** A sequence of [gethash] calls on the objects at [addrs], dropping the
    results. *)
Fixpoint gethash_all (m : memory) (addrs : list positive) : memory :=
  match addrs with
  | [] => m
  | a :: addrs' => gethash_all (fst (gethash m a)) addrs'
  end.

End Hash.

End Model.

(* ================================================================== *)
(** ** Contexts: [ContextPartShadow]

    A context is mutated in place and reached through references (the
    home of a block context, the sender), so the contexts live in a store
    by address, and the methods thread the store.  An address is that of
    the shadow; [_w_self] is the [W_PointersObject] it is attached to, if
    there is one.

    The model covers contexts without a closure ([closure] is [None], the
    default of [build_method_context]): [wrapper.BlockClosureWrapper] is
    not among the sources. *)

Module Contexts.

Inductive ContextState : Type :=
| InactiveContext
| ActiveContext
| DirtyContext.

Record ContextPartShadow : Type := mkContext {
  _w_self : option positive;
  _w_self_size : Z;
  state : ContextState;
  is_block_context : bool;
  _s_sender : option positive;
  _pc : Z;
  _temps_and_stack : list W_Object;
  _stack_ptr : Z;
  _w_home : option positive;
  _initialip : Z;
  _eargc : Z;
  _w_receiver : option W_Object;
  _w_method : option Method.W_CompiledMethod;
  _is_BlockClosure_ensure : bool
}.

(** The object space as far as contexts use it: the flag
    [uses_block_contexts] and the contexts by address. *)
Record ObjSpace : Type := mkSpace {
  uses_block_contexts : bool;
  contexts : gmap positive ContextPartShadow
}.

(** Modelled from the spec: the first stack slot of a context object in
    the layout constants of [spyvm/constants.py], which is not among the
    sources.  Both kinds of context have six named fields before the
    temporaries and the stack. *)
Definition MTHDCTX_TEMP_FRAME_START : Z := 6.

Definition BLKCTX_STACK_START : Z := 6.

(** *** Field assignments *)

Definition set_state (c : ContextPartShadow) (s : ContextState) : ContextPartShadow :=
  mkContext (_w_self c) (_w_self_size c) s (is_block_context c) (_s_sender c) (_pc c)
            (_temps_and_stack c) (_stack_ptr c) (_w_home c) (_initialip c) (_eargc c)
            (_w_receiver c) (_w_method c) (_is_BlockClosure_ensure c).

Definition set__s_sender (c : ContextPartShadow) (s : option positive) : ContextPartShadow :=
  mkContext (_w_self c) (_w_self_size c) (state c) (is_block_context c) s (_pc c)
            (_temps_and_stack c) (_stack_ptr c) (_w_home c) (_initialip c) (_eargc c)
            (_w_receiver c) (_w_method c) (_is_BlockClosure_ensure c).

Definition set__pc (c : ContextPartShadow) (pc : Z) : ContextPartShadow :=
  mkContext (_w_self c) (_w_self_size c) (state c) (is_block_context c) (_s_sender c) pc
            (_temps_and_stack c) (_stack_ptr c) (_w_home c) (_initialip c) (_eargc c)
            (_w_receiver c) (_w_method c) (_is_BlockClosure_ensure c).

Definition set__temps_and_stack (c : ContextPartShadow) (l : list W_Object)
  : ContextPartShadow :=
  mkContext (_w_self c) (_w_self_size c) (state c) (is_block_context c) (_s_sender c) (_pc c)
            l (_stack_ptr c) (_w_home c) (_initialip c) (_eargc c)
            (_w_receiver c) (_w_method c) (_is_BlockClosure_ensure c).

Definition set__stack_ptr (c : ContextPartShadow) (ptr : Z) : ContextPartShadow :=
  mkContext (_w_self c) (_w_self_size c) (state c) (is_block_context c) (_s_sender c) (_pc c)
            (_temps_and_stack c) ptr (_w_home c) (_initialip c) (_eargc c)
            (_w_receiver c) (_w_method c) (_is_BlockClosure_ensure c).

Definition set__w_receiver (c : ContextPartShadow) (w : option W_Object)
  : ContextPartShadow :=
  mkContext (_w_self c) (_w_self_size c) (state c) (is_block_context c) (_s_sender c) (_pc c)
            (_temps_and_stack c) (_stack_ptr c) (_w_home c) (_initialip c) (_eargc c)
            w (_w_method c) (_is_BlockClosure_ensure c).

Definition set__w_method (c : ContextPartShadow) (m : option Method.W_CompiledMethod)
           (ensure : bool) : ContextPartShadow :=
  mkContext (_w_self c) (_w_self_size c) (state c) (is_block_context c) (_s_sender c) (_pc c)
            (_temps_and_stack c) (_stack_ptr c) (_w_home c) (_initialip c) (_eargc c)
            (_w_receiver c) m ensure.

(** *** The store-and-exception monad of the context methods

    A method takes the object space and returns the space it leaves with
    its outcome; what it changed before raising stays changed. *)

Definition M (A : Type) : Type := ObjSpace -> ObjSpace * result A.

Definition mret {A : Type} (a : A) : M A := fun sp => (sp, Ok a).

Definition raise {A : Type} (e : exn) : M A := fun sp => (sp, Raise e).

Definition lift {A : Type} (r : result A) : M A := fun sp => (sp, r).

Definition mbind {A B : Type} (m : M A) (k : A -> M B) : M B :=
  fun sp =>
    match m sp with
    | (sp', Ok a) => k a sp'
    | (sp', Raise e) => (sp', Raise e)
    end.

Notation "x <~ m ;; k" := (mbind m (fun x => k))
  (at level 100, m at next level, right associativity).

(** A [for] loop whose body may raise. *)
Fixpoint forM {A : Type} (xs : list A) (body : A -> M unit) : M unit :=
  match xs with
  | [] => mret tt
  | x :: xs' => _ <~ body x ;; forM xs' body
  end.

(** The context at an address, and an assignment to its fields. *)
Definition get_ctx (self : positive) : M ContextPartShadow :=
  fun sp =>
    match contexts sp !! self with
    | Some c => (sp, Ok c)
    | None => (sp, Raise OutsideModel)
    end.

(** The space with the context at [self] replaced. *)
Definition with_ctx (sp : ObjSpace) (self : positive) (c : ContextPartShadow) : ObjSpace :=
  mkSpace (uses_block_contexts sp) (<[self := c]> (contexts sp)).

Definition update_ctx (self : positive) (f : ContextPartShadow -> ContextPartShadow)
  : M unit :=
  fun sp =>
    match contexts sp !! self with
    | Some c => (with_ctx sp self (f c), Ok tt)
    | None => (sp, Raise OutsideModel)
    end.

(** *** Accessing object fields *)

Definition pure_is_block_context (self : positive) : M bool :=
  c <~ get_ctx self ;;
  fun sp =>
    (sp, Ok (if uses_block_contexts sp then is_block_context c else false)).

Definition size (self : positive) : M Z :=
  c <~ get_ctx self ;; mret (_w_self_size c).

(** *** Sender, stack pointer, program counter *)

Definition store_s_sender (self : positive) (s_sender : option positive) : M unit :=
  c <~ get_ctx self ;;
  if negb (bool_decide (s_sender = _s_sender c)) then
    _ <~ update_ctx self (fun c => set__s_sender c s_sender) ;;
    match s_sender, state c with
    | Some _, ActiveContext => update_ctx self (fun c => set_state c DirtyContext)
    | _, _ => mret tt
    end
  else mret tt.

Definition s_sender (self : positive) : M (option positive) :=
  c <~ get_ctx self ;; mret (_s_sender c).

Definition stackdepth (self : positive) : M Z :=
  c <~ get_ctx self ;; mret (_stack_ptr c).

Definition pc (self : positive) : M Z :=
  c <~ get_ctx self ;; mret (_pc c).

Definition store_pc (self : positive) (newpc : Z) : M unit :=
  _ <~ lift (py_assert (-1 <=? newpc)) ;;
  update_ctx self (fun c => set__pc c newpc).

(** *** Specialized accessors

    [s_home_block_context]: the context behind [_w_home]. *)
Definition s_home_block_context (self : positive) : M positive :=
  c <~ get_ctx self ;;
  match _w_home c with
  | None => raise AttributeError
  | Some h => _ <~ get_ctx h ;; mret h
  end.

Definition s_home (self : positive) : M positive :=
  b <~ pure_is_block_context self ;;
  if b then s_home_block_context self else mret self.

Definition stackstart (self : positive) : M Z :=
  b <~ pure_is_block_context self ;;
  if b then mret BLKCTX_STACK_START else mret MTHDCTX_TEMP_FRAME_START.

(** A block context asks its home, which may be a block context again:
    [fuel] bounds the depth of the calls, and running out of it is
    Python's recursion limit. *)
Fixpoint w_receiver (fuel : nat) (self : positive) : M (option W_Object) :=
  b <~ pure_is_block_context self ;;
  if b then
    match fuel with
    | O => raise RuntimeError
    | S fuel' => h <~ s_home self ;; w_receiver fuel' h
    end
  else
    c <~ get_ctx self ;; mret (_w_receiver c).

Fixpoint w_method (fuel : nat) (self : positive) : M Method.W_CompiledMethod :=
  b <~ pure_is_block_context self ;;
  if b then
    match fuel with
    | O => raise RuntimeError
    | S fuel' => h <~ s_home self ;; w_method fuel' h
    end
  else
    c <~ get_ctx self ;;
    match _w_method c with
    | Some retval => mret retval
    | None => raise AssertionError
    end.

Definition tempsize (fuel : nat) (self : positive) : M Z :=
  b <~ pure_is_block_context self ;;
  if b then mret 0
  else m <~ w_method fuel self ;; mret (Method.tempsize m).

Definition is_closure_context (self : positive) : M bool :=
  b <~ pure_is_block_context self ;;
  if b then mret true else mret false.

Definition home_is_self (self : positive) : M bool :=
  b <~ pure_is_block_context self ;;
  if b then mret false else mret true.

(** *** Other properties of contexts *)

Definition mark_returned (self : positive) : M unit :=
  _ <~ store_pc self (-1) ;;
  store_s_sender self None.

(** [w_self()]: the [W_PointersObject] of the context.  Where there is
    none, one is made by [model.W_PointersObject(...)]; that class has no
    [store_strategy] ([W_GenericPointersObject] defines it), so the call
    [w_self.store_strategy(self)] raises [AttributeError] before [_w_self]
    is assigned. *)
Definition w_self (self : positive) : M W_Object :=
  c <~ get_ctx self ;;
  match _w_self c with
  | Some w => mret (W_Ref w)
  | None => raise AttributeError
  end.

Definition w_sender (self : positive) : M W_Object :=
  sender <~ s_sender self ;;
  match sender with
  | None => mret w_nil
  | Some s => w_self s
  end.

(** [and] evaluates [w_sender()] only when the program counter is -1. *)
Definition is_returned (self : positive) : M bool :=
  p <~ pc self ;;
  if p =? -1 then
    w <~ w_sender self ;;
    mret (Strategies.is_nil w)
  else mret false.

Definition stackend (self : positive) : M Z :=
  c <~ get_ctx self ;; mret (_w_self_size c).

Definition external_stackpointer (self : positive) : M Z :=
  d <~ stackdepth self ;;
  s <~ stackstart self ;;
  mret (d + s).

(** *** Stack manipulation *)

Definition stacksize (self : positive) : M Z :=
  e <~ stackend self ;;
  s <~ stackstart self ;;
  mret (e - s).

Definition full_stacksize (fuel : nat) (self : positive) : M Z :=
  c <~ get_ctx self ;;
  if negb (is_block_context c) then
    method <~ w_method fuel self ;;
    mret (Method.compute_frame_size method)
  else stacksize self.

Definition init_temps_and_stack (fuel : nat) (self : positive) : M unit :=
  stacksize <~ full_stacksize fuel self ;;
  _ <~ update_ctx self
         (fun c => set__temps_and_stack c (replicate (Z.to_nat stacksize) w_nil)) ;;
  tempsize <~ tempsize fuel self ;;
  update_ctx self (fun c => set__stack_ptr c tempsize).

Definition stack_get (self : positive) (index0 : Z) : M W_Object :=
  c <~ get_ctx self ;;
  _ <~ lift (py_assert (0 <=? index0)) ;;
  lift (py_getitem (_temps_and_stack c) index0).

(** [stack_put]: a [W_Object] is never [None]. *)
Definition stack_put (self : positive) (index0 : Z) (w_val : W_Object) : M unit :=
  c <~ get_ctx self ;;
  _ <~ lift (py_assert (0 <=? index0)) ;;
  l <~ lift (py_setitem (_temps_and_stack c) index0 w_val) ;;
  update_ctx self (fun c => set__temps_and_stack c l).

(** [stack()]: the slice [_temps_and_stack[tempsize:_stack_ptr]] for
    indices within the list. *)
Definition stack (fuel : nat) (self : positive) : M (list W_Object) :=
  c <~ get_ctx self ;;
  t <~ tempsize fuel self ;;
  mret (drop (Z.to_nat t) (take (Z.to_nat (_stack_ptr c)) (_temps_and_stack c))).

Definition pop (fuel : nat) (self : positive) : M (option W_Object) :=
  c <~ get_ctx self ;;
  let ptr := _stack_ptr c - 1 in
  ret <~ (if ptr <? 0 then w_receiver fuel self
          else (w <~ stack_get self ptr ;; mret (Some w))) ;;
  _ <~ lift (py_assert (0 <=? ptr)) ;;
  _ <~ update_ctx self (fun c => set__stack_ptr c ptr) ;;
  mret ret.

Definition push (self : positive) (w_v : W_Object) : M unit :=
  c <~ get_ctx self ;;
  let ptr := _stack_ptr c in
  _ <~ stack_put self ptr w_v ;;
  update_ctx self (fun c => set__stack_ptr c (ptr + 1)).

Definition push_all (self : positive) (lst : list W_Object) : M unit :=
  forM lst (push self).

Definition peek (self : positive) (idx : Z) : M W_Object :=
  c <~ get_ctx self ;;
  let ptr := _stack_ptr c - idx - 1 in
  stack_get self ptr.

Definition top (self : positive) : M W_Object := peek self 0.

Definition set_top (self : positive) (value : W_Object) (position : Z) : M unit :=
  c <~ get_ctx self ;;
  let ptr := _stack_ptr c - position - 1 in
  stack_put self ptr value.

(** The [while n > 0] loop of [pop_n], [k] iterations. *)
Fixpoint pop_n_loop (k : nat) (self : positive) : M unit :=
  match k with
  | O => mret tt
  | S k' =>
      c <~ get_ctx self ;;
      _ <~ lift (py_assert (1 <=? _stack_ptr c)) ;;
      _ <~ update_ctx self (fun c => set__stack_ptr c (_stack_ptr c - 1)) ;;
      _ <~ stack_put self (_stack_ptr c - 1) w_nil ;;
      pop_n_loop k' self
  end.

Definition pop_n (self : positive) (n : Z) : M unit :=
  pop_n_loop (Z.to_nat n) self.

(** [range(n - 1, -1, -1)]. *)
Definition py_range_down (n : Z) : list Z :=
  map (fun k => n - 1 - Z.of_nat k) (seq 0 (Z.to_nat n)).

(** A comprehension over the store. *)
Fixpoint mapMM {A B : Type} (f : A -> M B) (xs : list A) : M (list B) :=
  match xs with
  | [] => mret []
  | x :: xs' => y <~ f x ;; ys <~ mapMM f xs' ;; mret (y :: ys)
  end.

Definition peek_n (self : positive) (n : Z) : M (list W_Object) :=
  mapMM (peek self) (py_range_down n).

Definition pop_and_return_n (self : positive) (n : Z) : M (list W_Object) :=
  result <~ mapMM (peek self) (py_range_down n) ;;
  _ <~ pop_n self n ;;
  mret result.

Definition store_stackpointer (self : positive) (size : Z) : M unit :=
  depth <~ stackdepth self ;;
  if size <? depth then
    _ <~ lift (py_assert (0 <=? size)) ;;
    pop_n self (depth - size)
  else
    forM (SmallPointers.py_range2 depth size) (fun _ => push self w_nil).

Definition reset_stack (self : positive) : M unit :=
  d <~ stackdepth self ;; pop_n self d.

(** *** Temporary variables *)

Definition gettemp_method_context (self : positive) (index0 : Z) : M W_Object :=
  stack_get self index0.

Definition settemp_method_context (self : positive) (index0 : Z) (w_value : W_Object)
  : M unit :=
  stack_put self index0 w_value.

Fixpoint gettemp (fuel : nat) (self : positive) (index : Z) : M W_Object :=
  b <~ pure_is_block_context self ;;
  if b then
    match fuel with
    | O => raise RuntimeError
    | S fuel' => h <~ s_home self ;; gettemp fuel' h index
    end
  else gettemp_method_context self index.

Fixpoint settemp (fuel : nat) (self : positive) (index : Z) (w_value : W_Object) : M unit :=
  b <~ pure_is_block_context self ;;
  if b then
    match fuel with
    | O => raise RuntimeError
    | S fuel' => h <~ s_home self ;; settemp fuel' h index w_value
    end
  else settemp_method_context self index w_value.

(** [w_arguments]. *)
Definition w_arguments (fuel : nat) (self : positive) : M (list W_Object) :=
  b <~ pure_is_block_context self ;;
  if b then mret []
  else
    m <~ w_method fuel self ;;
    mapMM (stack_get self) (py_range (Method.argsize m)).

(** *** Method contexts *)

Definition store_w_receiver (self : positive) (w_receiver : W_Object) : M unit :=
  update_ctx self (fun c => set__w_receiver c (Some w_receiver)).

Definition store_w_method (self : positive) (w_method : Method.W_CompiledMethod) : M unit :=
  update_ctx self
    (fun c => set__w_method c (Some w_method) (Method.primitive w_method =? 198)).

Definition initialize_temps (fuel : nat) (self : positive) (arguments : list W_Object)
  : M unit :=
  let argc := Z.of_nat (length arguments) in
  forM (py_range argc)
       (fun i0 => a <~ lift (py_getitem arguments i0) ;; settemp fuel self i0 a).

(** What [ContextPartShadow.__init__] leaves for [w_self = None], with
    [is_block_context] as set right after it; [_temps_and_stack] and
    [_stack_ptr] get their first values in [init_temps_and_stack]. *)
Definition new_context (size : Z) (is_block : bool) : ContextPartShadow :=
  mkContext None size InactiveContext is_block None 0 [] 0 None 0 0 None None false.

(** [build_method_context] without closure: the new context is put at the
    address [self]; [instsize] is the instance size of the class
    [MethodContext]. *)
Definition build_method_context (fuel : nat) (self : positive) (instsize : Z)
           (w_method : Method.W_CompiledMethod) (w_receiver : W_Object)
           (arguments : list W_Object) : M unit :=
  let size := Method.compute_frame_size w_method + instsize in
  _ <~ (fun sp => (with_ctx sp self (new_context size false), Ok tt)) ;;
  _ <~ store_w_receiver self w_receiver ;;
  _ <~ store_w_method self w_method ;;
  _ <~ init_temps_and_stack fuel self ;;
  initialize_temps fuel self arguments.

(** [W_CompiledMethod.create_frame]. *)
Definition create_frame (fuel : nat) (self : positive) (instsize : Z)
           (w_method : Method.W_CompiledMethod) (receiver : W_Object)
           (arguments : list W_Object) : M unit :=
  _ <~ lift (py_assert (Z.of_nat (length arguments) =? Method.argsize w_method)) ;;
  build_method_context fuel self instsize w_method receiver arguments.

End Contexts.

(* ################################################################## *)
(** * Part II: properties *)

(* ================================================================== *)
(** ** Machine arithmetic and list indexing *)

Lemma intmask_range n : MININT <= intmask n <= MAXINT.
Proof.
  unfold intmask, MININT, MAXINT, LONG_BIT.
  pose proof (Z.mod_pos_bound (n + 2 ^ (32 - 1)) (2 ^ 32) ltac:(lia)).
  change (2 ^ (32 - 1)) with 2147483648 in *. change (2 ^ 32) with 4294967296 in *.
  lia.
Qed.

Lemma intmask_id n : MININT <= n <= MAXINT -> intmask n = n.
Proof.
  unfold intmask, MININT, MAXINT, LONG_BIT.
  change (2 ^ (32 - 1)) with 2147483648. change (2 ^ 32) with 4294967296.
  intros H. rewrite Z.mod_small; lia.
Qed.

Lemma r_uint_range n : 0 <= r_uint n < 2 ^ 32.
Proof. unfold r_uint, LONG_BIT. apply Z.mod_pos_bound. lia. Qed.

Lemma r_uint_id n : 0 <= n < 2 ^ 32 -> r_uint n = n.
Proof. unfold r_uint, LONG_BIT. intros. apply Z.mod_small. lia. Qed.

Lemma r_uint_intmask n : r_uint (intmask n) = r_uint n.
Proof.
  unfold r_uint, intmask, LONG_BIT.
  change (2 ^ (32 - 1)) with 2147483648. change (2 ^ 32) with 4294967296.
  rewrite Zminus_mod_idemp_l.
  f_equal. lia.
Qed.

Lemma intmask_nonneg_r_uint n : 0 <= intmask n -> intmask n = r_uint n.
Proof.
  intros H. rewrite <- r_uint_intmask. symmetry. apply r_uint_id.
  pose proof (intmask_range n) as R. unfold MAXINT, LONG_BIT in R.
  change (2 ^ (32 - 1)) with 2147483648 in R. change (2 ^ 32) with 4294967296. lia.
Qed.

Lemma py_index_in_range {A} (l : list A) (i : Z) :
  0 <= i < Z.of_nat (length l) -> py_index l i = Ok (Z.to_nat i).
Proof.
  intros H. unfold py_index.
  destruct (0 <=? i) eqn:E1; [|lia].
  destruct (i <? Z.of_nat (length l)) eqn:E2; [|lia].
  reflexivity.
Qed.

Lemma py_index_too_large {A} (l : list A) (i : Z) :
  Z.of_nat (length l) <= i -> py_index l i = Raise IndexError.
Proof.
  intros H. unfold py_index.
  destruct (0 <=? i) eqn:E1; destruct (i <? Z.of_nat (length l)) eqn:E2;
    destruct (- Z.of_nat (length l) <=? i) eqn:E3; destruct (i <? 0) eqn:E4;
    simpl; try reflexivity; lia.
Qed.

Lemma py_getitem_in_range {A} (l : list A) (i : Z) (x : A) :
  0 <= i -> l !! Z.to_nat i = Some x -> py_getitem l i = Ok x.
Proof.
  intros H Hl. unfold py_getitem.
  rewrite py_index_in_range.
  - simpl. rewrite Hl. reflexivity.
  - apply lookup_lt_Some in Hl. lia.
Qed.

Lemma py_setitem_in_range {A} (l : list A) (i : Z) (x : A) :
  0 <= i < Z.of_nat (length l) -> py_setitem l i x = Ok (<[Z.to_nat i := x]> l).
Proof.
  intros H. unfold py_setitem. rewrite py_index_in_range by assumption. reflexivity.
Qed.


Lemma py_setitem_too_large {A} (l : list A) (i : Z) (x : A) :
  Z.of_nat (length l) <= i -> py_setitem l i x = Raise IndexError.
Proof.
  intros H. unfold py_setitem. rewrite py_index_too_large by assumption. reflexivity.
Qed.

(** A float is the same as itself, NaN included. *)
Lemma float_same_refl (v : Z) :
  float_eq v v || (float_is_nan v && float_is_nan v) = true.
Proof.
  unfold float_eq. rewrite Z.eqb_refl.
  destruct (float_is_nan v); reflexivity.
Qed.

Lemma float_same_sym (a b : Z) :
  float_eq a b || (float_is_nan a && float_is_nan b)
  = float_eq b a || (float_is_nan b && float_is_nan a).
Proof.
  unfold float_eq. rewrite (Z.eqb_sym a b).
  destruct (float_is_nan a), (float_is_nan b), (b =? a),
           (float_is_zero a), (float_is_zero b); reflexivity.
Qed.

(* The float predicates stay folded in the proofs below. *)
#[global] Opaque float_is_nan float_is_zero float_eq.

(* ================================================================== *)
(** ** Left shift of small integers *)

Section IntegerProps.
Import Integers.

Lemma r_uint_minus_one : r_uint (-1) = 2 ^ 32 - 1.
Proof. reflexivity. Qed.

Lemma upperbound_spec (value shift : Z) :
  0 < shift ->
  let upperbound := intmask (Z.shiftr (r_uint (-1)) shift) in
  0 <= upperbound /\ (value <= upperbound <-> value * 2 ^ shift <= 2 ^ 32 - 1).
Proof.
  intros Hs upperbound. subst upperbound.
  rewrite r_uint_minus_one, Z.shiftr_div_pow2 by lia.
  assert (Hp : 2 <= 2 ^ shift).
  { change 2 with (2 ^ 1) at 1. apply Z.pow_le_mono_r; lia. }
  assert (Hd : 0 <= (2 ^ 32 - 1) / 2 ^ shift <= MAXINT).
  { split.
    - apply Z.div_pos; lia.
    - transitivity ((2 ^ 32 - 1) / 2).
      + apply Z.div_le_compat_l; lia.
      + reflexivity. }
  rewrite intmask_id by (unfold MININT, LONG_BIT in *; simpl in *; lia).
  split; [lia|]. split; intros H.
  - pose proof (Z.mul_div_le (2 ^ 32 - 1) (2 ^ shift) ltac:(lia)). nia.
  - apply Z.div_le_lower_bound; lia.
Qed.

Lemma unwrap_wrap_positive_32bit_int (x : Z) :
  unwrap_positive_32bit_int (wrap_positive_32bit_int (intmask x)) = Ok (r_uint x).
Proof.
  unfold wrap_positive_32bit_int, int_between.
  destruct ((0 <=? intmask x) && (intmask x <? MAXINT)) eqn:E.
  - apply andb_true_iff in E as [E1 E2]. apply Z.leb_le in E1.
    unfold new_SmallInteger. simpl.
    rewrite (intmask_id (intmask x)) by apply intmask_range.
    destruct (0 <=? intmask x) eqn:E3; [|lia].
    rewrite r_uint_intmask. reflexivity.
  - unfold new_LargePositiveInteger1Word. simpl.
    rewrite !r_uint_intmask. reflexivity.
Qed.

(** C9. For a small integer receiver and a positive shift amount: when the
    shifted value stays within the unsigned 32-bit positive range, the
    result is the promoted positive 32-bit value, which denotes exactly
    [value * 2^shift]; when the shifted value is outside that range and
    overflows the native signed range, the operation fails with
    [PrimitiveFailedError]. *)
Theorem lshift_small_integer (value shift : Z) :
  MININT <= value <= MAXINT ->
  0 < shift ->
  (0 <= value * 2 ^ shift < 2 ^ 32 ->
   exists w,
     lshift (W_SmallInteger value) shift = Ok w /\
     w = wrap_positive_32bit_int (intmask (value * 2 ^ shift)) /\
     unwrap_positive_32bit_int w = Ok (value * 2 ^ shift)) /\
  (~ (0 <= value * 2 ^ shift < 2 ^ 32) ->
   ~ (MININT <= value * 2 ^ shift <= MAXINT) ->
   lshift (W_SmallInteger value) shift = Raise PrimitiveFailedError).
Proof.
  intros Hv Hs.
  destruct (upperbound_spec value shift Hs) as [Hub Hiff].
  assert (Hpow : 0 < 2 ^ shift) by (apply Z.pow_pos_nonneg; lia).
  unfold lshift, py_rshift, py_lshift.
  destruct (shift <? 0) eqn:Es; [lia|]. simpl bind.
  rewrite Z.shiftl_mul_pow2 by lia.
  split.
  - intros Hr.
    assert (H0 : 0 <= value) by nia.
    destruct (0 <=? value) eqn:E0; [|lia].
    destruct (value <=? intmask (Z.shiftr (r_uint (-1)) shift)) eqn:E1.
    2:{ apply Z.leb_gt in E1. exfalso.
        assert (value <= intmask (Z.shiftr (r_uint (-1)) shift)) by (apply Hiff; lia).
        lia. }
    simpl. eexists. split; [reflexivity|]. split; [reflexivity|].
    rewrite unwrap_wrap_positive_32bit_int. f_equal. apply r_uint_id. assumption.
  - intros Hnr Hovf.
    destruct ((0 <=? value) && (value <=? intmask (Z.shiftr (r_uint (-1)) shift))) eqn:E.
    + apply andb_true_iff in E as [E0 E1].
      apply Z.leb_le in E0. apply Z.leb_le in E1.
      apply Hiff in E1. exfalso. apply Hnr. nia.
    + unfold ovfcheck.
      destruct ((MININT <=? value * 2 ^ shift) && (value * 2 ^ shift <=? MAXINT)) eqn:E2.
      * apply andb_true_iff in E2 as [E3 E4].
        apply Z.leb_le in E3. apply Z.leb_le in E4. lia.
      * reflexivity.
Qed.

Lemma lshift_small_integer_witness :
  exists w,
    lshift (W_SmallInteger 1073741824) 1 = Ok w /\
    w = wrap_positive_32bit_int (intmask (1073741824 * 2 ^ 1)) /\
    unwrap_positive_32bit_int w = Ok (1073741824 * 2 ^ 1).
Proof.
  refine (proj1 (lshift_small_integer 1073741824 1 _ _) _).
  - unfold MININT, MAXINT, LONG_BIT. simpl. lia.
  - lia.
  - simpl. lia.
Defined.

End IntegerProps.

(* ================================================================== *)
(** ** Storage strategies *)

Section StrategyProps.
Import Strategies.

(* The word-size constants and the float comparison stay folded. *)
Arguments intmask : simpl never.
Arguments r_uint : simpl never.
Arguments MAXINT : simpl never.
Arguments MININT : simpl never.
Arguments float_eq : simpl never.
Arguments float_info_max : simpl never.

Lemma mapM_seq {B} (f : Z -> result B) (n a : nat) (ys : list B) :
  length ys = n ->
  (forall k y, ys !! k = Some y -> f (Z.of_nat (a + k)) = Ok y) ->
  mapM f (map Z.of_nat (seq a n)) = Ok ys.
Proof.
  revert a ys. induction n as [|n IH]; intros a ys Hlen Hf.
  - destruct ys; [reflexivity | discriminate].
  - destruct ys as [|y ys]; [discriminate|].
    cbn. rewrite <- (Nat.add_0_r a) at 1. rewrite (Hf 0%nat y eq_refl). cbn.
    rewrite (IH (S a) ys).
    + reflexivity.
    + cbn in Hlen. lia.
    + intros k y' Hk. replace (S a + k)%nat with (a + S k)%nat by lia.
      apply Hf. exact Hk.
Qed.






(** The two branches of [store]. *)
Lemma store_fuel_can_handle (fuel : nat) (s : strategy_type) (st : storage)
      (i : Z) (v : W_Object) :
  s <> AllNilStrategy -> _check_can_handle s v = true ->
  store_fuel fuel (mkObj s st) i v =
    match _unwrap s v, st with
    | Ok unwrapped, PyList l =>
        match py_setitem l i unwrapped with
        | Ok l' => (mkObj s (PyList l'), Ok tt)
        | Raise e => (mkObj s st, Raise e)
        end
    | Ok _, SingleValueStrategyStorage _ => (mkObj s st, Raise TypeError)
    | Raise e, _ => (mkObj s st, Raise e)
    end.
Proof.
  intros Hs Hc.
  destruct fuel; destruct s; try congruence;
    cbn [store_fuel strategy _storage set_storage]; rewrite Hc; reflexivity.
Qed.

Lemma store_fuel_AllNil_nil (fuel : nat) (st : storage) (i : Z) :
  store_fuel fuel (mkObj AllNilStrategy st) i w_nil = (mkObj AllNilStrategy st, Ok tt).
Proof. destruct fuel; reflexivity. Qed.

Lemma store_fuel_cannot_handle (fuel : nat) (o : W_GenericPointersObject)
      (i : Z) (v : W_Object) :
  _check_can_handle (strategy o) v = false ->
  store_fuel (S fuel) o i v =
    match generalized_strategy_for (strategy o) v with
    | Raise e => (o, Raise e)
    | Ok strategy_type =>
        match switch_strategy o strategy_type with
        | (o', Ok _) => store_fuel fuel o' i v
        | (o', Raise e) => (o', Raise e)
        end
    end.
Proof.
  intros Hc. destruct o as [s st]. cbn [strategy] in Hc.
  destruct s; cbn [store_fuel strategy]; rewrite Hc; reflexivity.
Qed.

Lemma store_fuel_O_cannot_handle (o : W_GenericPointersObject) (i : Z) (v : W_Object) :
  _check_can_handle (strategy o) v = false ->
  store_fuel 0 o i v = (o, Raise GenericException).
Proof.
  intros Hc. destruct o as [s st]. cbn [strategy] in Hc.
  destruct s; cbn [store_fuel strategy]; rewrite Hc; reflexivity.
Qed.










Lemma apply_ops_length c ops : length (apply_ops c ops) = length c.
Proof.
  revert c. induction ops as [|op ops IH]; intros c; cbn; [reflexivity|].
  unfold apply_ops in IH. rewrite IH, length_insert. reflexivity.
Qed.





(** *** Generalization is monotone *)

Lemma strategy_le_refl s : strategy_le s s = true.
Proof. destruct s; reflexivity. Qed.

Lemma strategy_le_trans a b c :
  strategy_le a b = true -> strategy_le b c = true -> strategy_le a c = true.
Proof. destruct a, b, c; cbn; congruence. Qed.

Lemma strategy_le_antisym a b :
  strategy_le a b = true -> strategy_le b a = true -> a = b.
Proof. destruct a, b; cbn; congruence. Qed.

Lemma generalized_strategy_le (s t : strategy_type) (v : W_Object) :
  generalized_strategy_for s v = Ok t -> strategy_le s t = true.
Proof.
  unfold generalized_strategy_for.
  destruct (find _ (generalize s)) as [t'|] eqn:E; [|discriminate].
  intros H. inversion H; subst t'.
  apply find_some in E as [E _].
  destruct s; cbn in E; destruct t; try reflexivity;
    repeat (destruct E as [E | E]; try discriminate); try contradiction.
Qed.

Lemma switch_strategy_type (o : W_GenericPointersObject) (t : strategy_type) :
  strategy (fst (switch_strategy o t)) = t.
Proof.
  unfold switch_strategy.
  destruct (convert_storage t (strategy o) (_storage o)); reflexivity.
Qed.

Lemma store_fuel_can_handle_strategy (fuel : nat) (s : strategy_type) (st : storage)
      (i : Z) (v : W_Object) :
  _check_can_handle s v = true ->
  strategy (fst (store_fuel fuel (mkObj s st) i v)) = s.
Proof.
  intros Hc.
  assert (D : s = AllNilStrategy \/ s <> AllNilStrategy)
    by (destruct s; auto; right; discriminate).
  destruct D as [-> | Hs].
  - destruct v; try discriminate. rewrite store_fuel_AllNil_nil. reflexivity.
  - rewrite store_fuel_can_handle by assumption.
    destruct (_unwrap s v) as [r|e]; [|reflexivity].
    destruct st as [n|l]; [reflexivity|].
    destruct (py_setitem l i r); reflexivity.
Qed.

Lemma store_fuel_monotone (fuel : nat) (o : W_GenericPointersObject)
      (i : Z) (v : W_Object) :
  strategy_le (strategy o) (strategy (fst (store_fuel fuel o i v))) = true.
Proof.
  revert o. induction fuel as [|fuel IH]; intros o;
    destruct (_check_can_handle (strategy o) v) eqn:Hc.
  - destruct o as [s st]. cbn [strategy] in Hc |- *.
    rewrite store_fuel_can_handle_strategy by assumption. apply strategy_le_refl.
  - rewrite store_fuel_O_cannot_handle by assumption. apply strategy_le_refl.
  - destruct o as [s st]. cbn [strategy] in Hc |- *.
    rewrite store_fuel_can_handle_strategy by assumption. apply strategy_le_refl.
  - rewrite store_fuel_cannot_handle by assumption.
    destruct (generalized_strategy_for (strategy o) v) as [t|e] eqn:Hg.
    + pose proof (generalized_strategy_le _ _ _ Hg) as Hle.
      pose proof (switch_strategy_type o t) as Ht.
      destruct (switch_strategy o t) as [o' [u|e]]; cbn [fst] in Ht |- *.
      * eapply strategy_le_trans; [exact Hle|]. rewrite <- Ht. apply IH.
      * rewrite Ht. exact Hle.
    + apply strategy_le_refl.
Qed.

Lemma store_sequence_monotone (o : W_GenericPointersObject) (ops : list (Z * W_Object)) :
  strategy_le (strategy o) (strategy (fst (store_sequence o ops))) = true.
Proof.
  revert o. induction ops as [|[i v] ops IH]; intros o.
  - apply strategy_le_refl.
  - cbn [store_sequence]. pose proof (store_fuel_monotone 4 o i v) as H1. unfold store.
    destruct (store_fuel 4 o i v) as [o' [u|e]]; cbn [fst] in H1 |- *.
    + eapply strategy_le_trans; [exact H1 | apply IH].
    + exact H1.
Qed.

(** C3. Generalization monotonicity: whatever the object and whatever
    values a sequence of stores writes, the strategy after the stores is
    at or above the strategy before them in the lattice
    AllNil <= tagged single type <= List; in particular a further
    sequence of stores [ops2] never takes the object below the strategy
    it reached after [ops1], and a strategy reached again is the same
    one (the order is antisymmetric), so no store switches back to a
    strictly more specific strategy. *)
Theorem generalization_monotone (o : W_GenericPointersObject)
        (ops1 ops2 : list (Z * W_Object)) (i : Z) (v : W_Object) :
  strategy_le (strategy o) (strategy (fst (store o i v))) = true /\
  strategy_le (strategy o) (strategy (fst (store_sequence o ops1))) = true /\
  strategy_le (strategy (fst (store_sequence o ops1)))
              (strategy (fst (store_sequence (fst (store_sequence o ops1)) ops2))) = true /\
  (forall a b, strategy_le a b = true -> strategy_le b a = true -> a = b).
Proof.
  split; [apply store_fuel_monotone|].
  split; [apply store_sequence_monotone|].
  split; [apply store_sequence_monotone|].
  apply strategy_le_antisym.
Qed.

End StrategyProps.
(* ================================================================== *)
(** ** Indexed access *)

Section IndexedAccessProps.

Lemma MAXINT_value : MAXINT = 2147483647.
Proof. reflexivity. Qed.

Lemma MININT_value : MININT = -2147483648.
Proof. reflexivity. Qed.

Lemma land_255_range (x : Z) : 0 <= Z.land x 255 <= 255.
Proof.
  change 255 with (Z.ones 8) at 1 2. rewrite Z.land_ones by lia.
  pose proof (Z.mod_pos_bound x (2 ^ 8) ltac:(lia)) as H.
  change (2 ^ 8) with 256 in *. lia.
Qed.

Lemma at0_value (value sz j : Z) :
  0 <= j ->
  Integers.at0 (W_LargePositiveInteger1Word value sz) j
  = Ok (W_SmallInteger (Z.land (Z.shiftr value (j * 8)) 255)).
Proof.
  intros Hj. unfold Integers.at0, py_rshift.
  assert (E : (j * 8 <? 0) = false) by lia. rewrite E. cbn [bind].
  pose proof (land_255_range (Z.shiftr value (j * 8))) as Hr.
  unfold wrap_int, new_SmallInteger.
  rewrite (intmask_id (Z.land (Z.shiftr value (j * 8)) 255))
    by (rewrite MININT_value, MAXINT_value; lia).
  rewrite intmask_id by (rewrite MININT_value, MAXINT_value; lia). reflexivity.
Qed.






Lemma int_between_false (index0 size : Z) :
  ~ (0 <= index0 < size) -> int_between 0 index0 size = false.
Proof.
  intros H. unfold int_between.
  destruct (0 <=? index0) eqn:E1; [|reflexivity].
  destruct (index0 <? size) eqn:E2; [|reflexivity]. lia.
Qed.



End IndexedAccessProps.

(* ================================================================== *)
(** ** Identity of byte objects *)

Section BytesProps.
Import Bytes.

Lemma py_range_In (n i : Z) : In i (py_range n) -> 0 <= i < n.
Proof.
  unfold py_range. intros H. apply in_map_iff in H as (k & <- & Hk).
  apply in_seq in Hk. lia.
Qed.

Lemma getchar_ok (o : W_BytesObject) (i : Z) :
  wf o -> 0 <= i < _size o -> exists x, getchar o i = Ok x.
Proof.
  intros [H0 Hwf] Hi. unfold getchar.
  destruct (bytes o) as [l|].
  - destruct (lookup_lt_is_Some_2 l (Z.to_nat i)) as [x Hx]; [lia|].
    exists x. apply py_getitem_in_range; [lia | exact Hx].
  - destruct (c_bytes o) as [buf|]; [|contradiction].
    assert (E : (_size o <=? i) = false) by lia. rewrite E.
    destruct (lookup_lt_is_Some_2 buf (Z.to_nat i)) as [x Hx]; [lia|].
    exists x. unfold raw_getitem.
    assert (E2 : ((0 <=? i) && (i <? Z.of_nat (length buf))) = true).
    { apply andb_true_iff. split; lia. }
    rewrite E2, Hx. reflexivity.
Qed.

Lemma has_same_chars_loop_true (o1 o2 : W_BytesObject) (idxs : list Z) :
  (forall i, In i idxs -> exists x, getchar o1 i = Ok x /\ getchar o2 i = Ok x) ->
  has_same_chars_loop o1 o2 idxs = Ok true.
Proof.
  induction idxs as [|i idxs IH]; intros H; [reflexivity|].
  destruct (H i (or_introl eq_refl)) as (x & H1 & H2).
  cbn [has_same_chars_loop]. rewrite H1, H2. cbn [bind].
  rewrite Z.eqb_refl. cbn [negb].
  apply IH. intros j Hj. apply H. right. exact Hj.
Qed.

Lemma list_eqb_refl (l : list Z) : list_eqb l l = true.
Proof.
  induction l as [|x l IH]; [reflexivity|].
  cbn [list_eqb]. rewrite Z.eqb_refl, IH. reflexivity.
Qed.

Lemma list_eqb_eq (l1 l2 : list Z) : list_eqb l1 l2 = true -> l1 = l2.
Proof.
  revert l2. induction l1 as [|x l1 IH]; intros [|y l2] H; try discriminate; [reflexivity|].
  cbn [list_eqb] in H. apply andb_true_iff in H as [H1 H2].
  apply Z.eqb_eq in H1. subst y. f_equal. apply IH. exact H2.
Qed.

Lemma has_same_chars_true (o1 o2 : W_BytesObject) :
  wf o1 -> wf o2 -> size o1 = size o2 ->
  (forall i, 0 <= i < size o1 -> getchar o1 i = getchar o2 i) ->
  has_same_chars o1 o2 (size o1) = Ok true.
Proof.
  intros W1 W2 Hs Hc. unfold has_same_chars.
  apply has_same_chars_loop_true. intros i Hi. apply py_range_In in Hi.
  destruct (getchar_ok o1 i W1 Hi) as [x Hx].
  exists x. split; [exact Hx|]. rewrite <- Hc by exact Hi. exact Hx.
Qed.

Lemma same_lists (o1 o2 : W_BytesObject) (l1 l2 : list Z) :
  wf o1 -> wf o2 -> size o1 = size o2 ->
  bytes o1 = Some l1 -> bytes o2 = Some l2 ->
  (forall i, 0 <= i < size o1 -> getchar o1 i = getchar o2 i) ->
  l1 = l2.
Proof.
  intros [H1 W1] [H2 W2] Hs B1 B2 Hc. unfold size in *.
  rewrite B1 in W1. rewrite B2 in W2.
  apply list_eq. intros k.
  destruct (decide (k < length l1)%nat) as [Hk|Hk].
  - destruct (lookup_lt_is_Some_2 l1 k Hk) as [x Hx].
    destruct (lookup_lt_is_Some_2 l2 k) as [y Hy]; [lia|].
    specialize (Hc (Z.of_nat k) ltac:(lia)).
    unfold getchar in Hc. rewrite B1, B2 in Hc.
    rewrite (py_getitem_in_range l1 (Z.of_nat k) x) in Hc;
      [|lia|rewrite Nat2Z.id; exact Hx].
    rewrite (py_getitem_in_range l2 (Z.of_nat k) y) in Hc;
      [|lia|rewrite Nat2Z.id; exact Hy].
    inversion Hc; subst. rewrite Hx, Hy. reflexivity.
  - rewrite !lookup_ge_None_2 by lia. reflexivity.
Qed.

Lemma py_range_In_2 (n i : Z) : 0 <= i < n -> In i (py_range n).
Proof.
  intros H. unfold py_range. apply in_map_iff. exists (Z.to_nat i).
  split; [lia|]. apply in_seq. lia.
Qed.

Lemma has_same_chars_loop_inv (o1 o2 : W_BytesObject) (idxs : list Z) :
  has_same_chars_loop o1 o2 idxs = Ok true ->
  forall i, In i idxs -> exists x, getchar o1 i = Ok x /\ getchar o2 i = Ok x.
Proof.
  induction idxs as [|k idxs IH]; intros H i Hi; [destruct Hi|].
  cbn [has_same_chars_loop] in H.
  destruct (getchar o1 k) as [a|e] eqn:E1; [|discriminate].
  destruct (getchar o2 k) as [b|e] eqn:E2; [|discriminate].
  cbn [bind] in H. destruct (a =? b) eqn:E; cbn [negb] in H; [|discriminate].
  apply Z.eqb_eq in E. subst b.
  destruct Hi as [<- | Hi]; [exists a; split; assumption|].
  apply IH; assumption.
Qed.

(** The loop of [has_same_chars] over indices at which both objects can
    be read: it returns, and answers true exactly when the characters
    agree at every index. *)
Lemma has_same_chars_loop_decides (o1 o2 : W_BytesObject) (idxs : list Z) :
  (forall i, In i idxs -> exists x y, getchar o1 i = Ok x /\ getchar o2 i = Ok y) ->
  exists r, has_same_chars_loop o1 o2 idxs = Ok r /\
            (r = true <-> forall i, In i idxs -> getchar o1 i = getchar o2 i).
Proof.
  induction idxs as [|k idxs IH]; intros Hrd.
  - exists true. split; [reflexivity|]. split; [intros _ i []|reflexivity].
  - destruct (Hrd k (or_introl eq_refl)) as (x & y & Hx & Hy).
    destruct IH as (r & Hr & Hiff); [intros i Hi; apply Hrd; right; exact Hi|].
    cbn [has_same_chars_loop]. rewrite Hx, Hy. cbn [bind].
    destruct (x =? y) eqn:E; cbn [negb].
    + apply Z.eqb_eq in E. subst y. exists r. split; [exact Hr|].
      rewrite Hiff. split.
      * intros H i [<- | Hi]; [rewrite Hx, Hy; reflexivity | apply H; exact Hi].
      * intros H i Hi. apply H. right. exact Hi.
    + apply Z.eqb_neq in E. exists false. split; [reflexivity|].
      split; [discriminate|]. intros H.
      specialize (H k (or_introl eq_refl)). rewrite Hx, Hy in H. congruence.
Qed.

(** C10.  [is_same_object] on byte objects is content equality: for two
    well-formed byte objects at distinct addresses, in either layout and
    whatever their classes and hashes, it returns, and it answers true
    exactly when the two have the same size and pairwise equal bytes. *)
Theorem bytes_is_same_object (a b : positive) (h1 h2 : Z) (o1 o2 : W_BytesObject) :
  a <> b ->
  wf o1 -> wf o2 ->
  exists r,
    Model.is_same_object a b (Model.mkObject h1 (Model.BytesObject o1))
                             (Model.mkObject h2 (Model.BytesObject o2)) = Ok r /\
    (r = true <->
     size o1 = size o2 /\
     forall i, 0 <= i < size o1 -> getchar o1 i = getchar o2 i).
Proof.
  intros Hab W1 W2.
  unfold Model.is_same_object. cbn [Model.fields].
  destruct (Pos.eqb a b) eqn:E; [apply Pos.eqb_eq in E; contradiction|].
  unfold is_same_object.
  destruct (size o1 =? size o2) eqn:Es; cbn [negb].
  2:{ apply Z.eqb_neq in Es. exists false. split; [reflexivity|].
      split; [discriminate | intros [H _]; contradiction]. }
  apply Z.eqb_eq in Es.
  assert (Hloop : exists r, has_same_chars o1 o2 (size o1) = Ok r /\
                    (r = true <->
                     size o1 = size o2 /\
                     forall i, 0 <= i < size o1 -> getchar o1 i = getchar o2 i)).
  { destruct (has_same_chars_loop_decides o1 o2 (py_range (size o1))) as (r & Hr & Hiff).
    - intros i Hi. apply py_range_In in Hi.
      destruct (getchar_ok o1 i W1 Hi) as [x Hx].
      destruct (getchar_ok o2 i W2) as [y Hy]; [unfold size in *; lia|].
      exists x, y. split; assumption.
    - exists r. split; [exact Hr|]. rewrite Hiff. split.
      + intros H. split; [exact Es|]. intros i Hi. apply H, py_range_In_2, Hi.
      + intros [_ H] i Hi. apply H, py_range_In, Hi. }
  destruct (bytes o1) as [l1|] eqn:B1; [|exact Hloop].
  destruct (bytes o2) as [l2|] eqn:B2; [|exact Hloop].
  destruct (256 <? size o1); [|exact Hloop].
  exists (list_eqb l1 l2). split; [reflexivity|]. split.
  - intros H. apply list_eqb_eq in H. subst l2. split; [exact Es|].
    intros i _. unfold getchar. rewrite B1, B2. reflexivity.
  - intros [_ H]. rewrite (same_lists o1 o2 l1 l2 W1 W2 Es B1 B2 H). apply list_eqb_refl.
Qed.

Lemma bytes_is_same_object_witness :
  Model.is_same_object 1 2
    (Model.mkObject 11 (Model.BytesObject (mkBytes None (Some [104; 105]) None 2)))
    (Model.mkObject 12 (Model.BytesObject (mkBytes (Some 5%positive) None (Some [104; 105; 0]) 2)))
  = Ok true /\
  Model.is_same_object 1 2
    (Model.mkObject 11 (Model.BytesObject (mkBytes None (Some [104; 105]) None 2)))
    (Model.mkObject 11 (Model.BytesObject (mkBytes None (Some [104; 106]) None 2)))
  = Ok false.
Proof.
  split.
  - destruct (bytes_is_same_object 1 2 11 12
                (mkBytes None (Some [104; 105]) None 2)
                (mkBytes (Some 5%positive) None (Some [104; 105; 0]) 2))
      as (r & Hr & Hiff).
    + discriminate.
    + split; [simpl; lia | reflexivity].
    + split; simpl; lia.
    + rewrite Hr. f_equal. apply Hiff. split; [reflexivity|].
      intros i Hi. simpl in Hi.
      assert (D : i = 0 \/ i = 1) by lia.
      destruct D as [-> | ->]; reflexivity.
  - destruct (bytes_is_same_object 1 2 11 11
                (mkBytes None (Some [104; 105]) None 2)
                (mkBytes None (Some [104; 106]) None 2))
      as (r & Hr & Hiff).
    + discriminate.
    + split; [simpl; lia | reflexivity].
    + split; [simpl; lia | reflexivity].
    + rewrite Hr. f_equal. destruct r; [|reflexivity].
      destruct (proj1 Hiff eq_refl) as [_ H].
      specialize (H 1 ltac:(simpl; lia)). discriminate H.
Defined.

End BytesProps.

(* ================================================================== *)
(** ** Become and the identity hash *)

Section ModelProps.
Import Model.

Lemma py_class_eqb_eq (c1 c2 : py_class) : py_class_eqb c1 c2 = true <-> c1 = c2.
Proof. destruct c1, c2; cbn; split; intros H; congruence. Qed.

Lemma _become_spec (oa ob oa' ob' : W_AbstractObjectWithIdentityHash) :
  _become oa ob = Ok (oa', ob') ->
  hash oa' = hash ob /\ hash ob' = hash oa /\
  fields_but_lookup_class (fields oa') = fields_but_lookup_class (fields ob) /\
  fields_but_lookup_class (fields ob') = fields_but_lookup_class (fields oa) /\
  lookup_class_of (fields oa') = lookup_class_of (fields oa) /\
  lookup_class_of (fields ob') = lookup_class_of (fields ob) /\
  (class_of oa <> cls_CompiledMethod -> fields oa' = fields ob /\ fields ob' = fields oa).
Proof.
  unfold _become, class_of.
  destruct (fields oa) eqn:Ea; destruct (fields ob) eqn:Eb; intros H;
    try discriminate; inversion H; subst; cbn;
    repeat split; try reflexivity; try congruence.
Qed.

Lemma _become_same_class (oa ob : W_AbstractObjectWithIdentityHash) :
  can_become oa ob = true -> exists oa' ob', _become oa ob = Ok (oa', ob').
Proof.
  unfold can_become, class_of, _become.
  destruct (fields oa); destruct (fields ob); cbn; intros H; try discriminate; eauto.
Qed.

(** C2, failing input.  Two compiled methods that differ in
    [lookup_class] only: [become] succeeds, and the method at address 1
    still has its own [lookup_class], not the one of the method formerly
    at address 2: [W_CompiledMethod._become] exchanges [lookup_selector]
    and [compiledin_class] and leaves [lookup_class] out. *)
Lemma become_swap_failing_input :
  let m1 := Method.mkMethod 0 0 0 0 0 0 [] [] String.EmptyString None (Some 10%positive) in
  let m2 := Method.mkMethod 0 0 0 0 0 0 [] [] String.EmptyString None (Some 20%positive) in
  let h : gmap positive W_AbstractObjectWithIdentityHash := <[2%positive := new (CompiledMethod m2)]>
                  (<[1%positive := new (CompiledMethod m1)]> ∅) in
  exists h', become h 1 2 = (h', Ok true) /\
             h' !! 1%positive = Some (new (CompiledMethod m1)) /\
             new (CompiledMethod m1) <> new (CompiledMethod m2).
Proof.
  cbn zeta. eexists. split; [vm_compute; reflexivity|]. split.
  - vm_compute. reflexivity.
  - discriminate.
Qed.

(** C2.  What [become] does on two objects at the addresses [a] and
    [b].  When it succeeds the two are distinct objects of the same
    class, the object at [a] then has the former hash and fields of the
    one at [b] and conversely, with one departure from the swap: the
    field [lookup_class] of a compiled method stays where it was, while
    every other field of the method is exchanged.  For every class
    other than [W_CompiledMethod] the exchange is complete.  Every other
    object is untouched.  [become] succeeds whenever the classes agree
    and [is_same_object] is false.  Between objects of different classes
    it returns false and changes nothing. *)
Theorem become_swap (h : gmap positive W_AbstractObjectWithIdentityHash) (a b : positive)
        (oa ob : W_AbstractObjectWithIdentityHash) :
  h !! a = Some oa -> h !! b = Some ob ->
  (forall h', become h a b = (h', Ok true) ->
     class_of oa = class_of ob /\ a <> b /\
     exists oa' ob',
       h' !! a = Some oa' /\ h' !! b = Some ob' /\
       hash oa' = hash ob /\ hash ob' = hash oa /\
       fields_but_lookup_class (fields oa') = fields_but_lookup_class (fields ob) /\
       fields_but_lookup_class (fields ob') = fields_but_lookup_class (fields oa) /\
       lookup_class_of (fields oa') = lookup_class_of (fields oa) /\
       lookup_class_of (fields ob') = lookup_class_of (fields ob) /\
       (class_of oa <> cls_CompiledMethod -> fields oa' = fields ob /\ fields ob' = fields oa) /\
       forall c, c <> a -> c <> b -> h' !! c = h !! c) /\
  (class_of oa = class_of ob -> is_same_object a b oa ob = Ok false ->
     exists h', become h a b = (h', Ok true)) /\
  (class_of oa <> class_of ob -> become h a b = (h, Ok false)).
Proof.
  intros Ha Hb. unfold become. rewrite Ha, Hb.
  split; [|split].
  - intros h' H.
    destruct (can_become oa ob) eqn:Hc; cbn [negb] in H; [|discriminate].
    destruct (is_same_object a b oa ob) as [[|]|e] eqn:Hs; try discriminate.
    destruct (_become oa ob) as [[oa' ob']|e] eqn:Hbe; [|discriminate].
    inversion H; subst h'. clear H.
    assert (Hab : a <> b).
    { intros ->. rewrite Ha in Hb. inversion Hb; subst ob.
      unfold is_same_object in Hs. rewrite Pos.eqb_refl in Hs.
      destruct (fields oa) eqn:Ef; try discriminate.
      rewrite float_same_refl in Hs. discriminate. }
    split; [apply py_class_eqb_eq; exact Hc|]. split; [exact Hab|].
    exists oa', ob'.
    split; [rewrite lookup_insert_ne by congruence; apply lookup_insert_eq|].
    split; [apply lookup_insert_eq|].
    destruct (_become_spec _ _ _ _ Hbe) as (H1 & H2 & H3 & H4 & H5 & H6 & H7).
    repeat (split; [assumption|]).
    intros c Hca Hcb. rewrite !lookup_insert_ne by congruence. reflexivity.
  - intros Hc Hs. apply py_class_eqb_eq in Hc. fold (can_become oa ob) in Hc.
    rewrite Hc, Hs. cbn [negb].
    destruct (_become_same_class oa ob Hc) as (oa' & ob' & Hbe).
    rewrite Hbe. eauto.
  - intros Hc. destruct (can_become oa ob) eqn:E; [|reflexivity].
    apply py_class_eqb_eq in E. contradiction.
Qed.

Lemma become_swap_witness :
  let m1 := Method.mkMethod 0 0 0 0 0 0 [] [] String.EmptyString (Some 30%positive)
                            (Some 10%positive) in
  let m2 := Method.mkMethod 0 0 0 0 0 0 [] [] String.EmptyString (Some 40%positive)
                            (Some 20%positive) in
  let h : gmap positive W_AbstractObjectWithIdentityHash :=
    <[2%positive := mkObject 7 (CompiledMethod m2)]>
      (<[1%positive := mkObject 5 (CompiledMethod m1)]> ∅) in
  exists h' oa',
    become h 1 2 = (h', Ok true) /\
    h' !! 1%positive = Some oa' /\
    hash oa' = 7 /\
    fields_but_lookup_class (fields oa') = fields_but_lookup_class (CompiledMethod m2) /\
    lookup_class_of (fields oa') = lookup_class_of (CompiledMethod m1).
Proof.
  cbn zeta.
  set (oa := mkObject 5 (CompiledMethod
                (Method.mkMethod 0 0 0 0 0 0 [] [] String.EmptyString (Some 30%positive)
                                 (Some 10%positive)))).
  set (ob := mkObject 7 (CompiledMethod
                (Method.mkMethod 0 0 0 0 0 0 [] [] String.EmptyString (Some 40%positive)
                                 (Some 20%positive)))).
  set (h := <[2%positive := ob]> (<[1%positive := oa]> ∅)).
  assert (Ha : h !! 1%positive = Some oa) by (vm_compute; reflexivity).
  assert (Hb : h !! 2%positive = Some ob) by (vm_compute; reflexivity).
  destruct (become_swap h 1 2 oa ob Ha Hb) as (Hswap & Hsucc & _).
  destruct (Hsucc eq_refl eq_refl) as [h' Hh'].
  destruct (Hswap h' Hh') as (_ & _ & oa' & ob' & H1 & _ & Hh & _ & Hf & _ & Hl & _).
  exists h', oa'.
  split; [exact Hh'|]. split; [exact H1|]. split; [exact Hh|].
  split; [exact Hf | exact Hl].
Defined.

(** *** Identity hash *)

Lemma halved_intmask_range (r : Z) : - 2 ^ 30 <= intmask r / 2 < 2 ^ 30.
Proof.
  pose proof (intmask_range r) as [Hlo Hhi].
  unfold MININT, MAXINT, LONG_BIT in *.
  change (2 ^ (32 - 1)) with 2147483648 in *. change (2 ^ 30) with 1073741824.
  split.
  - apply Z.div_le_lower_bound; lia.
  - apply Z.div_lt_upper_bound; lia.
Qed.

Lemma halved_intmask_assigned (r : Z) : intmask r / 2 <> UNASSIGNED_HASH.
Proof.
  pose proof (halved_intmask_range r) as H.
  unfold UNASSIGNED_HASH, MAXINT, LONG_BIT.
  change (2 ^ (32 - 1)) with 2147483648. change (2 ^ 30) with 1073741824 in H. lia.
Qed.

Section HashProps.
Variable compute_hash : Z -> Z.

(** An object whose hash is assigned keeps it through any [gethash]. *)
Lemma gethash_assigned (m : memory) (a : positive) (hv : Z) (i : instance) :
  assigned m a hv i -> (forall v, i <> Float v) ->
  gethash compute_hash m a = (m, Ok hv).
Proof.
  intros [Ha Hne] Hf. unfold gethash. rewrite Ha. cbn [fields hash].
  assert (E : (hv =? UNASSIGNED_HASH) = false) by (apply Z.eqb_neq; exact Hne).
  destruct i; try (rewrite E; reflexivity).
  exfalso. eapply Hf. reflexivity.
Qed.

Lemma gethash_preserves_assigned (m : memory) (a b : positive) (hv : Z) (i : instance) :
  assigned m a hv i -> assigned (fst (gethash compute_hash m b)) a hv i.
Proof.
  intros [Ha Hne]. unfold gethash.
  destruct (objects m !! b) as [ob|] eqn:Hb; [|split; assumption].
  assert (Hkeep : assigned
            (fst (if hash ob =? UNASSIGNED_HASH
                  then let (r, g) := genrand32 (hash_generator m) in
                       (mkMemory (<[b := mkObject (intmask r / 2) (fields ob)]> (objects m)) g,
                        Ok (intmask r / 2))
                  else (m, Ok (hash ob)))) a hv i).
  { destruct (hash ob =? UNASSIGNED_HASH) eqn:E; [|split; assumption].
    apply Z.eqb_eq in E. unfold genrand32. cbn [fst].
    split; [|assumption]. cbn [objects].
    rewrite lookup_insert_ne; [assumption|].
    intros ->. rewrite Ha in Hb. inversion Hb; subst ob. cbn [hash] in E. contradiction. }
  destruct (fields ob); try exact Hkeep. split; assumption.
Qed.

Lemma gethash_all_preserves_assigned (m : memory) (addrs : list positive)
      (a : positive) (hv : Z) (i : instance) :
  assigned m a hv i -> assigned (gethash_all compute_hash m addrs) a hv i.
Proof.
  revert m. induction addrs as [|b addrs IH]; intros m H; [exact H|].
  cbn [gethash_all]. apply IH. apply gethash_preserves_assigned. exact H.
Qed.

(** C8, amended.  For an object that is not a float: while its hash is
    unassigned, [gethash] draws the next number of the shared generator
    and stores [intmask(r) // 2], a signed 31-bit value in
    [[-2^30, 2^30)] that may be negative and is never the unassigned
    marker; once assigned, [gethash] returns the stored hash and changes
    nothing, also after any further [gethash] calls on any objects. *)
Theorem identity_hash (m : memory) (a : positive) (self : W_AbstractObjectWithIdentityHash) :
  objects m !! a = Some self ->
  (forall v, fields self <> Float v) ->
  exists m1 hv,
    gethash compute_hash m a = (m1, Ok hv) /\
    (hash self = UNASSIGNED_HASH ->
       hv = intmask (fst (genrand32 (hash_generator m))) / 2 /\
       - 2 ^ 30 <= hv < 2 ^ 30 /\
       hash_generator m1 = snd (genrand32 (hash_generator m)) /\
       forall c, c <> a -> objects m1 !! c = objects m !! c) /\
    (hash self <> UNASSIGNED_HASH -> m1 = m /\ hv = hash self) /\
    objects m1 !! a = Some (mkObject hv (fields self)) /\
    hv <> UNASSIGNED_HASH /\
    forall addrs,
      let m2 := gethash_all compute_hash m1 addrs in
      gethash compute_hash m2 a = (m2, Ok hv).
Proof.
  intros Ha Hf.
  assert (Hstable : forall m1 hv, assigned m1 a hv (fields self) ->
            forall addrs, let m2 := gethash_all compute_hash m1 addrs in
                          gethash compute_hash m2 a = (m2, Ok hv)).
  { intros m1 hv Has addrs m2. apply (gethash_assigned m2 a hv (fields self)); [|exact Hf].
    apply gethash_all_preserves_assigned. exact Has. }
  destruct (Z.eq_dec (hash self) UNASSIGNED_HASH) as [Hu|Hu].
  - exists (mkMemory (<[a := mkObject (intmask (fst (genrand32 (hash_generator m))) / 2)
                                     (fields self)]> (objects m))
                     (snd (genrand32 (hash_generator m)))),
           (intmask (fst (genrand32 (hash_generator m))) / 2).
    assert (Has : assigned
              (mkMemory (<[a := mkObject (intmask (fst (genrand32 (hash_generator m))) / 2)
                                         (fields self)]> (objects m))
                        (snd (genrand32 (hash_generator m))))
              a (intmask (fst (genrand32 (hash_generator m))) / 2) (fields self)).
    { split; [apply lookup_insert_eq | apply halved_intmask_assigned]. }
    split.
    { unfold gethash. rewrite Ha.
      assert (E : (hash self =? UNASSIGNED_HASH) = true) by (apply Z.eqb_eq; exact Hu).
      destruct (fields self) eqn:Ef; try (rewrite E; reflexivity).
      exfalso. eapply Hf. reflexivity. }
    split.
    { intros _. split; [reflexivity|]. split; [apply halved_intmask_range|].
      split; [reflexivity|].
      intros c Hc. cbn [objects]. apply lookup_insert_ne. congruence. }
    split; [intros Hn; contradiction|].
    split; [apply Has|]. split; [apply Has|].
    apply Hstable. exact Has.
  - assert (Has : assigned m a (hash self) (fields self)).
    { split; [|exact Hu]. rewrite Ha. destruct self; reflexivity. }
    exists m, (hash self).
    split; [apply (gethash_assigned m a (hash self) (fields self)); assumption|].
    split; [intros Hn; contradiction|].
    split; [intros _; split; reflexivity|].
    split; [apply Has|]. split; [exact Hu|].
    apply Hstable. exact Has.
Qed.

End HashProps.

(** C8, counterexample.  On the 32-bit target a generator output with
    the highest bit set gives a negative hash: for the output
    [2^32 - 1] the hash is [-1]. *)
Lemma identity_hash_counterexample :
  let m := mkMemory (<[1%positive := new (PointersObjectNoFields None)]> ∅)
                    (mkRandom (fun _ => 4294967295) 0) in
  snd (gethash (fun v => v) m 1) = Ok (-1) /\ ~ (0 <= -1).
Proof. cbn zeta. split; [vm_compute; reflexivity | lia]. Qed.

Lemma identity_hash_witness :
  let m := mkMemory (<[1%positive := new (PointersObjectNoFields None)]> ∅)
                    (mkRandom (fun _ => 12345) 0) in
  exists m1 hv,
    gethash (fun v => v) m 1 = (m1, Ok hv) /\
    (hash (new (PointersObjectNoFields None)) = UNASSIGNED_HASH ->
       hv = intmask (fst (genrand32 (hash_generator m))) / 2 /\
       - 2 ^ 30 <= hv < 2 ^ 30 /\
       hash_generator m1 = snd (genrand32 (hash_generator m)) /\
       forall c, c <> 1%positive -> objects m1 !! c = objects m !! c) /\
    (hash (new (PointersObjectNoFields None)) <> UNASSIGNED_HASH ->
       m1 = m /\ hv = hash (new (PointersObjectNoFields None))) /\
    objects m1 !! 1%positive = Some (mkObject hv (fields (new (PointersObjectNoFields None)))) /\
    hv <> UNASSIGNED_HASH /\
    forall addrs,
      let m2 := gethash_all (fun v => v) m1 addrs in
      gethash (fun v => v) m2 1 = (m2, Ok hv).
Proof.
  cbn zeta.
  apply (identity_hash (fun v => v) _ 1 (new (PointersObjectNoFields None))).
  - vm_compute. reflexivity.
  - discriminate.
Defined.


End ModelProps.

(* ================================================================== *)
(** ** Contexts *)

Section ContextProps.
Import Contexts.

Lemma mbind_ok {A B : Type} (m : M A) (k : A -> M B) (sp sp' : ObjSpace) (a : A) :
  m sp = (sp', Ok a) -> mbind m k sp = k a sp'.
Proof. intros H. unfold mbind. rewrite H. reflexivity. Qed.

Lemma mbind_raise {A B : Type} (m : M A) (k : A -> M B) (sp sp' : ObjSpace) (e : exn) :
  m sp = (sp', Raise e) -> mbind m k sp = (sp', Raise e).
Proof. intros H. unfold mbind. rewrite H. reflexivity. Qed.

Lemma with_ctx_lookup (sp : ObjSpace) (a : positive) (c : ContextPartShadow) :
  contexts (with_ctx sp a c) !! a = Some c.
Proof. apply lookup_insert_eq. Qed.

Lemma with_ctx_lookup_ne (sp : ObjSpace) (a b : positive) (c : ContextPartShadow) :
  a <> b -> contexts (with_ctx sp a c) !! b = contexts sp !! b.
Proof. intros H. apply lookup_insert_ne. exact H. Qed.

Lemma with_ctx_with_ctx (sp : ObjSpace) (a : positive) (c c' : ContextPartShadow) :
  with_ctx (with_ctx sp a c) a c' = with_ctx sp a c'.
Proof. unfold with_ctx. cbn [uses_block_contexts contexts]. rewrite insert_insert_eq. reflexivity. Qed.

Lemma with_ctx_same (sp : ObjSpace) (a : positive) (c : ContextPartShadow) :
  contexts sp !! a = Some c -> with_ctx sp a c = sp.
Proof.
  intros H. unfold with_ctx. destruct sp as [flag ctxs]. cbn in *.
  rewrite insert_id by exact H. reflexivity.
Qed.

Lemma get_ctx_ok (sp : ObjSpace) (a : positive) (c : ContextPartShadow) :
  contexts sp !! a = Some c -> get_ctx a sp = (sp, Ok c).
Proof. intros H. unfold get_ctx. rewrite H. reflexivity. Qed.

Lemma update_ctx_ok (sp : ObjSpace) (a : positive) (c : ContextPartShadow)
      (f : ContextPartShadow -> ContextPartShadow) :
  contexts sp !! a = Some c -> update_ctx a f sp = (with_ctx sp a (f c), Ok tt).
Proof. intros H. unfold update_ctx. rewrite H. reflexivity. Qed.

Lemma pure_is_block_context_ok (sp : ObjSpace) (a : positive) (c : ContextPartShadow) :
  contexts sp !! a = Some c ->
  pure_is_block_context a sp = (sp, Ok (uses_block_contexts sp && is_block_context c)).
Proof.
  intros H. unfold pure_is_block_context.
  rewrite (mbind_ok _ _ _ _ _ (get_ctx_ok sp a c H)). reflexivity.
Qed.

(** *** Contexts that act as method contexts *)

Lemma stackdepth_ok (sp : ObjSpace) (a : positive) (c : ContextPartShadow) :
  contexts sp !! a = Some c -> stackdepth a sp = (sp, Ok (_stack_ptr c)).
Proof.
  intros H. unfold stackdepth.
  rewrite (mbind_ok _ _ _ _ _ (get_ctx_ok sp a c H)). reflexivity.
Qed.

Lemma stack_get_ok (sp : ObjSpace) (a : positive) (c : ContextPartShadow)
      (i : Z) (x : W_Object) :
  contexts sp !! a = Some c -> 0 <= i ->
  _temps_and_stack c !! Z.to_nat i = Some x ->
  stack_get a i sp = (sp, Ok x).
Proof.
  intros H Hi Hx. unfold stack_get.
  rewrite (mbind_ok _ _ _ _ _ (get_ctx_ok sp a c H)).
  assert (E : (0 <=? i) = true) by lia. rewrite E.
  unfold lift, mbind, py_assert. rewrite (py_getitem_in_range _ i x Hi Hx). reflexivity.
Qed.

Lemma stack_put_ok (sp : ObjSpace) (a : positive) (c : ContextPartShadow)
      (i : Z) (w : W_Object) :
  contexts sp !! a = Some c -> 0 <= i < Z.of_nat (length (_temps_and_stack c)) ->
  stack_put a i w sp
  = (with_ctx sp a (set__temps_and_stack c (<[Z.to_nat i := w]> (_temps_and_stack c))), Ok tt).
Proof.
  intros H Hi. unfold stack_put.
  rewrite (mbind_ok _ _ _ _ _ (get_ctx_ok sp a c H)).
  assert (E : (0 <=? i) = true) by lia. rewrite E.
  unfold lift, mbind, py_assert. rewrite py_setitem_in_range by exact Hi.
  rewrite (update_ctx_ok sp a c _ H). reflexivity.
Qed.

Lemma gettemp_method (fuel : nat) (sp : ObjSpace) (a : positive) (c : ContextPartShadow)
      (i : Z) :
  contexts sp !! a = Some c -> uses_block_contexts sp && is_block_context c = false ->
  gettemp fuel a i sp = gettemp_method_context a i sp.
Proof.
  intros H Hm.
  destruct fuel; cbn [gettemp];
    rewrite (mbind_ok _ _ _ _ _ (pure_is_block_context_ok sp a c H)), Hm; reflexivity.
Qed.

Lemma settemp_method (fuel : nat) (sp : ObjSpace) (a : positive) (c : ContextPartShadow)
      (i : Z) (w : W_Object) :
  contexts sp !! a = Some c -> uses_block_contexts sp && is_block_context c = false ->
  settemp fuel a i w sp = settemp_method_context a i w sp.
Proof.
  intros H Hm.
  destruct fuel; cbn [settemp];
    rewrite (mbind_ok _ _ _ _ _ (pure_is_block_context_ok sp a c H)), Hm; reflexivity.
Qed.

Lemma w_receiver_method (fuel : nat) (sp : ObjSpace) (a : positive) (c : ContextPartShadow) :
  contexts sp !! a = Some c -> uses_block_contexts sp && is_block_context c = false ->
  w_receiver fuel a sp = (sp, Ok (_w_receiver c)).
Proof.
  intros H Hm.
  destruct fuel; cbn [w_receiver];
    rewrite (mbind_ok _ _ _ _ _ (pure_is_block_context_ok sp a c H)), Hm;
    rewrite (mbind_ok _ _ _ _ _ (get_ctx_ok sp a c H)); reflexivity.
Qed.

Lemma w_method_method (fuel : nat) (sp : ObjSpace) (a : positive) (c : ContextPartShadow)
      (m : Method.W_CompiledMethod) :
  contexts sp !! a = Some c -> uses_block_contexts sp && is_block_context c = false ->
  _w_method c = Some m ->
  w_method fuel a sp = (sp, Ok m).
Proof.
  intros H Hm Hw.
  destruct fuel; cbn [w_method];
    rewrite (mbind_ok _ _ _ _ _ (pure_is_block_context_ok sp a c H)), Hm;
    rewrite (mbind_ok _ _ _ _ _ (get_ctx_ok sp a c H)), Hw; reflexivity.
Qed.

Lemma tempsize_method (fuel : nat) (sp : ObjSpace) (a : positive) (c : ContextPartShadow)
      (m : Method.W_CompiledMethod) :
  contexts sp !! a = Some c -> uses_block_contexts sp && is_block_context c = false ->
  _w_method c = Some m ->
  tempsize fuel a sp = (sp, Ok (Method._tempsize m)).
Proof.
  intros H Hm Hw. unfold tempsize.
  rewrite (mbind_ok _ _ _ _ _ (pure_is_block_context_ok sp a c H)), Hm.
  rewrite (mbind_ok _ _ _ _ _ (w_method_method fuel sp a c m H Hm Hw)). reflexivity.
Qed.

Lemma push_ok (sp : ObjSpace) (a : positive) (c : ContextPartShadow) (w : W_Object) :
  contexts sp !! a = Some c ->
  0 <= _stack_ptr c < Z.of_nat (length (_temps_and_stack c)) ->
  push a w sp
  = (with_ctx sp a
       (set__stack_ptr
          (set__temps_and_stack c (<[Z.to_nat (_stack_ptr c) := w]> (_temps_and_stack c)))
          (_stack_ptr c + 1)), Ok tt).
Proof.
  intros H Hi. unfold push.
  rewrite (mbind_ok _ _ _ _ _ (get_ctx_ok sp a c H)).
  rewrite (mbind_ok _ _ _ _ _ (stack_put_ok sp a c _ w H Hi)).
  rewrite (update_ctx_ok _ a _ _ (with_ctx_lookup _ _ _)).
  rewrite with_ctx_with_ctx. reflexivity.
Qed.

Lemma pop_ok (fuel : nat) (sp : ObjSpace) (a : positive) (c : ContextPartShadow)
      (x : W_Object) :
  contexts sp !! a = Some c ->
  1 <= _stack_ptr c ->
  _temps_and_stack c !! Z.to_nat (_stack_ptr c - 1) = Some x ->
  pop fuel a sp = (with_ctx sp a (set__stack_ptr c (_stack_ptr c - 1)), Ok (Some x)).
Proof.
  intros H Hp Hx. unfold pop.
  rewrite (mbind_ok _ _ _ _ _ (get_ctx_ok sp a c H)).
  assert (E : (_stack_ptr c - 1 <? 0) = false) by lia. rewrite E.
  rewrite (mbind_ok _ _ sp sp (Some x)).
  2:{ assert (Hge : 0 <= _stack_ptr c - 1) by lia.
      rewrite (mbind_ok _ _ _ _ _ (stack_get_ok sp a c _ x H Hge Hx)). reflexivity. }
  assert (E2 : (0 <=? _stack_ptr c - 1) = true) by lia. rewrite E2.
  unfold lift, py_assert. rewrite (mbind_ok _ _ sp sp tt eq_refl).
  rewrite (mbind_ok _ _ _ _ _ (update_ctx_ok sp a c _ H)). reflexivity.
Qed.

Lemma set__temps_and_stack_same (c : ContextPartShadow) :
  set__temps_and_stack c (_temps_and_stack c) = c.
Proof. destruct c. reflexivity. Qed.

Lemma insert_prefix (args l0 : list W_Object) (k : nat) (x : W_Object) :
  args !! k = Some x -> (k < length l0)%nat ->
  <[k := x]> (take k args ++ drop k l0) = take (S k) args ++ drop (S k) l0.
Proof.
  intros Hx Hk.
  assert (Hlen : length (take k args) = k).
  { rewrite length_take. apply lookup_lt_Some in Hx. lia. }
  rewrite insert_app_r_alt by lia. rewrite Hlen, Nat.sub_diag.
  destruct (lookup_lt_is_Some_2 l0 k Hk) as [y Hy].
  rewrite (drop_S l0 y k Hy). cbn [insert list_insert].
  rewrite (take_S_r args k x Hx), <- app_assoc. reflexivity.
Qed.

(** The loop of [initialize_temps] from index [k] on. *)
Lemma initialize_temps_loop (fuel : nat) (a : positive) (args l0 : list W_Object)
      (n k : nat) (sp : ObjSpace) (c : ContextPartShadow) :
  contexts sp !! a = Some c ->
  uses_block_contexts sp && is_block_context c = false ->
  (k + n = length args)%nat -> (length args <= length l0)%nat ->
  _temps_and_stack c = take k args ++ drop k l0 ->
  forM (map Z.of_nat (seq k n))
       (fun i0 => x <~ lift (py_getitem args i0) ;; settemp fuel a i0 x) sp
  = (with_ctx sp a (set__temps_and_stack c (args ++ drop (length args) l0)), Ok tt).
Proof.
  revert k sp c. induction n as [|n IH]; intros k sp c Hc Hm Hkn Hlen Hl.
  - cbn [seq map forM]. unfold mret.
    replace k with (length args) in Hl by lia. rewrite firstn_all in Hl.
    rewrite <- Hl, set__temps_and_stack_same, with_ctx_same by exact Hc. reflexivity.
  - cbn [seq map forM].
    destruct (lookup_lt_is_Some_2 args k) as [x Hx]; [lia|].
    assert (Hget : py_getitem args (Z.of_nat k) = Ok x).
    { apply py_getitem_in_range; [lia|]. rewrite Nat2Z.id. exact Hx. }
    assert (Hk : 0 <= Z.of_nat k < Z.of_nat (length (_temps_and_stack c))).
    { rewrite Hl, length_app, length_take, length_drop. lia. }
    rewrite (mbind_ok _ _ sp
               (with_ctx sp a (set__temps_and_stack c
                  (<[Z.to_nat (Z.of_nat k) := x]> (_temps_and_stack c)))) tt).
    2:{ unfold lift. rewrite (mbind_ok _ _ sp sp x) by (rewrite Hget; reflexivity).
        rewrite (settemp_method fuel sp a c _ _ Hc Hm).
        apply stack_put_ok; assumption. }
    rewrite (IH (S k) _ _ (with_ctx_lookup _ _ _)).
    + rewrite with_ctx_with_ctx. reflexivity.
    + exact Hm.
    + lia.
    + exact Hlen.
    + cbn [set__temps_and_stack _temps_and_stack]. rewrite Nat2Z.id, Hl.
      apply insert_prefix; [exact Hx | lia].
Qed.

Lemma init_temps_and_stack_ok (fuel : nat) (sp : ObjSpace) (a : positive)
      (c : ContextPartShadow) (m : Method.W_CompiledMethod) :
  contexts sp !! a = Some c -> is_block_context c = false -> _w_method c = Some m ->
  init_temps_and_stack fuel a sp
  = (with_ctx sp a
       (set__stack_ptr
          (set__temps_and_stack c
             (replicate (Z.to_nat (Method.compute_frame_size m)) w_nil))
          (Method._tempsize m)), Ok tt).
Proof.
  intros Hc Hb Hw.
  assert (Hm : forall sp', uses_block_contexts sp' && is_block_context c = false)
    by (intros sp'; rewrite Hb; apply andb_false_r).
  unfold init_temps_and_stack.
  rewrite (mbind_ok _ _ sp sp (Method.compute_frame_size m)).
  2:{ unfold full_stacksize.
      rewrite (mbind_ok _ _ _ _ _ (get_ctx_ok _ a c Hc)). rewrite Hb. cbn [negb].
      rewrite (mbind_ok _ _ _ _ _ (w_method_method fuel _ a c m Hc (Hm _) Hw)).
      reflexivity. }
  rewrite (mbind_ok _ _ _ _ _ (update_ctx_ok _ a _ _ Hc)).
  set (c1 := set__temps_and_stack c _).
  rewrite (mbind_ok _ _ (with_ctx sp a c1) (with_ctx sp a c1) (Method._tempsize m)).
  2:{ apply (tempsize_method fuel _ a c1 m (with_ctx_lookup _ _ _)); [apply Hm | exact Hw]. }
  rewrite (update_ctx_ok _ a _ _ (with_ctx_lookup _ _ _)).
  rewrite with_ctx_with_ctx. reflexivity.
Qed.

(** The context [build_method_context] leaves at its address. *)
Lemma build_method_context_ok (fuel : nat) (sp : ObjSpace) (a : positive) (instsize : Z)
      (m : Method.W_CompiledMethod) (rcvr : W_Object) (args : list W_Object) :
  Z.of_nat (length args) <= Method.compute_frame_size m ->
  build_method_context fuel a instsize m rcvr args sp
  = (with_ctx sp a
       (mkContext None (Method.compute_frame_size m + instsize) InactiveContext false None 0
          (args ++ drop (length args)
                     (replicate (Z.to_nat (Method.compute_frame_size m)) w_nil))
          (Method._tempsize m) None 0 0 (Some rcvr) (Some m)
          (Method.primitive m =? 198)), Ok tt).
Proof.
  intros Hargs. unfold build_method_context.
  rewrite (mbind_ok _ _ sp _ tt eq_refl).
  unfold store_w_receiver.
  rewrite (mbind_ok _ _ _ _ _ (update_ctx_ok _ a _ _ (with_ctx_lookup _ _ _))).
  rewrite with_ctx_with_ctx. unfold store_w_method.
  rewrite (mbind_ok _ _ _ _ _ (update_ctx_ok _ a _ _ (with_ctx_lookup _ _ _))).
  rewrite with_ctx_with_ctx.
  match goal with |- context [with_ctx sp a ?c] => set (c2 := c) end.
  rewrite (mbind_ok _ _ _ _ _
             (init_temps_and_stack_ok fuel (with_ctx sp a c2) a c2 m
                (with_ctx_lookup _ _ _) eq_refl eq_refl)).
  rewrite with_ctx_with_ctx.
  match goal with |- context [with_ctx sp a ?c] => set (c4 := c) end.
  unfold initialize_temps, py_range. rewrite Nat2Z.id.
  rewrite (initialize_temps_loop fuel a args
             (replicate (Z.to_nat (Method.compute_frame_size m)) w_nil)
             (length args) 0 (with_ctx sp a c4) c4 (with_ctx_lookup _ _ _)).
  - rewrite with_ctx_with_ctx. reflexivity.
  - apply andb_false_r.
  - reflexivity.
  - rewrite length_replicate. lia.
  - reflexivity.
Qed.

(** C4, counterexample.  A method with two arguments and two
    temporaries (its arguments), activated with [3, 4]: the frame has 18
    slots, not 10, and after [push(7)] and [pop()] the stack depth is 2,
    not 0. *)
Lemma method_context_scenario_counterexample :
  let m := Method.mkMethod 0 0 0 0 2 2 [] [] String.EmptyString None None in
  let sp := mkSpace false ∅ in
  Method.compute_frame_size m = 18 /\
  exists sp1 sp2 sp3,
    build_method_context 0 1 6 m w_nil [W_SmallInteger 3; W_SmallInteger 4] sp
      = (sp1, Ok tt) /\
    push 1 (W_SmallInteger 7) sp1 = (sp2, Ok tt) /\
    pop 0 1 sp2 = (sp3, Ok (Some (W_SmallInteger 7))) /\
    stackdepth 1 sp3 = (sp3, Ok 2).
Proof.
  cbn zeta. split; [reflexivity|].
  eexists _, _, _.
  split; [vm_compute; reflexivity|].
  split; [vm_compute; reflexivity|].
  split; vm_compute; reflexivity.
Qed.

(** C4, amended.  For a method context built from a method with 2
    arguments, activated with the arguments [3, 4]: the frame size is
    [18 + 40 * islarge], never 10; [gettemp(0)] returns 3 and
    [gettemp(1)] returns 4; after [push(7)], [pop()] returns 7; and after
    that pop [stackdepth()] returns the number of temporaries of the
    method, arguments included, since the stack pointer counts from the
    start of the temporaries. *)
Theorem method_context_scenario (fuel : nat) (sp : ObjSpace) (self : positive)
        (instsize : Z) (m : Method.W_CompiledMethod) (rcvr : W_Object) :
  Method.argsize m = 2 ->
  0 <= Method._tempsize m < Method.compute_frame_size m ->
  Method.compute_frame_size m = 18 + 40 * Method.islarge m /\
  Method.compute_frame_size m <> 10 /\
  exists sp1 sp2 sp3,
    build_method_context fuel self instsize m rcvr [W_SmallInteger 3; W_SmallInteger 4] sp
      = (sp1, Ok tt) /\
    gettemp fuel self 0 sp1 = (sp1, Ok (W_SmallInteger 3)) /\
    gettemp fuel self 1 sp1 = (sp1, Ok (W_SmallInteger 4)) /\
    push self (W_SmallInteger 7) sp1 = (sp2, Ok tt) /\
    pop fuel self sp2 = (sp3, Ok (Some (W_SmallInteger 7))) /\
    stackdepth self sp3 = (sp3, Ok (Method._tempsize m)).
Proof.
  intros Hargs Ht.
  assert (Hf : Method.compute_frame_size m = 18 + 40 * Method.islarge m).
  { unfold Method.compute_frame_size. lia. }
  split; [exact Hf|]. split; [lia|].
  assert (Hlarge : 18 <= Method.compute_frame_size m) by lia.
  pose proof (build_method_context_ok fuel sp self instsize m rcvr
                [W_SmallInteger 3; W_SmallInteger 4]) as Hb.
  cbn [length] in Hb. specialize (Hb ltac:(lia)).
  set (l := [W_SmallInteger 3; W_SmallInteger 4] ++
            drop 2 (replicate (Z.to_nat (Method.compute_frame_size m)) w_nil)) in *.
  assert (Hlen : Z.of_nat (length l) = Method.compute_frame_size m).
  { unfold l. rewrite length_app, length_drop, length_replicate. cbn [length]. lia. }
  set (c := mkContext _ _ _ _ _ _ l _ _ _ _ _ _ _) in Hb.
  set (sp1 := with_ctx sp self c) in *.
  assert (Hc1 : contexts sp1 !! self = Some c) by apply with_ctx_lookup.
  assert (Hm : forall sp', uses_block_contexts sp' && is_block_context c = false)
    by (intros sp'; apply andb_false_r).
  pose proof (push_ok sp1 self c (W_SmallInteger 7) Hc1) as Hpush.
  cbn [_stack_ptr _temps_and_stack c] in Hpush. specialize (Hpush ltac:(lia)).
  set (c2 := set__stack_ptr _ _) in Hpush.
  set (sp2 := with_ctx sp1 self c2) in *.
  assert (Hc2 : contexts sp2 !! self = Some c2) by apply with_ctx_lookup.
  pose proof (pop_ok fuel sp2 self c2 (W_SmallInteger 7) Hc2) as Hpop.
  cbn [_stack_ptr _temps_and_stack c2 set__stack_ptr set__temps_and_stack] in Hpop.
  replace (Method._tempsize m + 1 - 1) with (Method._tempsize m) in Hpop by lia.
  specialize (Hpop ltac:(lia)).
  specialize (Hpop ltac:(apply list_lookup_insert_eq; lia)).
  set (c3 := set__stack_ptr c2 _) in Hpop.
  set (sp3 := with_ctx sp2 self c3) in *.
  exists sp1, sp2, sp3.
  split; [exact Hb|].
  split.
  { rewrite (gettemp_method fuel sp1 self c 0 Hc1 (Hm _)).
    apply (stack_get_ok sp1 self c 0 _ Hc1); [lia | reflexivity]. }
  split.
  { rewrite (gettemp_method fuel sp1 self c 1 Hc1 (Hm _)).
    apply (stack_get_ok sp1 self c 1 _ Hc1); [lia | reflexivity]. }
  split; [exact Hpush|]. split; [exact Hpop|].
  apply (stackdepth_ok sp3 self c3). apply with_ctx_lookup.
Qed.

Lemma method_context_scenario_witness :
  let m := Method.mkMethod 0 0 0 0 2 2 [] [] String.EmptyString None None in
  Method.compute_frame_size m = 18 + 40 * Method.islarge m /\
  Method.compute_frame_size m <> 10 /\
  exists sp1 sp2 sp3,
    build_method_context 1 5 6 m w_nil [W_SmallInteger 3; W_SmallInteger 4]
                         (mkSpace true ∅) = (sp1, Ok tt) /\
    gettemp 1 5 0 sp1 = (sp1, Ok (W_SmallInteger 3)) /\
    gettemp 1 5 1 sp1 = (sp1, Ok (W_SmallInteger 4)) /\
    push 5 (W_SmallInteger 7) sp1 = (sp2, Ok tt) /\
    pop 1 5 sp2 = (sp3, Ok (Some (W_SmallInteger 7))) /\
    stackdepth 5 sp3 = (sp3, Ok (Method._tempsize m)).
Proof.
  cbn zeta.
  apply (method_context_scenario 1 (mkSpace true ∅) 5 6
           (Method.mkMethod 0 0 0 0 2 2 [] [] String.EmptyString None None) w_nil).
  - reflexivity.
  - vm_compute. split; [discriminate | reflexivity].
Defined.

(** *** Block contexts and their home *)







(** *** Popping *)

Lemma pure_is_block_context_state (a : positive) (sp : ObjSpace) :
  fst (pure_is_block_context a sp) = sp.
Proof.
  unfold pure_is_block_context, mbind, get_ctx.
  destruct (contexts sp !! a); reflexivity.
Qed.

Lemma s_home_state (a : positive) (sp : ObjSpace) : fst (s_home a sp) = sp.
Proof.
  unfold s_home, mbind.
  pose proof (pure_is_block_context_state a sp) as H.
  destruct (pure_is_block_context a sp) as [sp' [b|e]]; cbn [fst] in H; subst sp';
    [|reflexivity].
  destruct b; [|reflexivity].
  unfold s_home_block_context, mbind, get_ctx.
  destruct (contexts sp !! a) as [c|]; [|reflexivity].
  destruct (_w_home c) as [h|]; [|reflexivity].
  destruct (contexts sp !! h); reflexivity.
Qed.

(** [w_receiver] only reads. *)
Lemma w_receiver_state (fuel : nat) (a : positive) (sp : ObjSpace) :
  fst (w_receiver fuel a sp) = sp.
Proof.
  revert a. induction fuel as [|fuel IH]; intros a; cbn [w_receiver]; unfold mbind;
    pose proof (pure_is_block_context_state a sp) as H;
    destruct (pure_is_block_context a sp) as [sp' [b|e]]; cbn [fst] in H; subst sp';
    try reflexivity;
    (destruct b; [|unfold get_ctx; destruct (contexts sp !! a); reflexivity]).
  - reflexivity.
  - pose proof (s_home_state a sp) as H.
    destruct (s_home a sp) as [sp' [h|e]]; cbn [fst] in H; subst sp'; [|reflexivity].
    apply IH.
Qed.

(** C5.  What [pop] does on a context at [a].  With the stack pointer
    at 0 the receiver is fetched, but the assertion after it fails: [pop]
    raises and changes nothing.  A [pop] that returns has taken the cell
    below a stack pointer of at least 1; the receiver is never returned
    as a fallback.  In particular, in a method context whose operand
    stack is empty above [t >= 1] temporaries, [pop] returns the last
    temporary and moves the stack pointer into the temporaries, and the
    following [push(v)] overwrites that temporary. *)
Theorem pop_empty_stack (fuel : nat) (sp : ObjSpace) (a : positive)
        (c : ContextPartShadow) :
  contexts sp !! a = Some c ->
  (_stack_ptr c <= 0 -> exists e, pop fuel a sp = (sp, Raise e)) /\
  (forall sp' r, pop fuel a sp = (sp', Ok r) ->
     1 <= _stack_ptr c /\
     sp' = with_ctx sp a (set__stack_ptr c (_stack_ptr c - 1)) /\
     exists x, r = Some x /\
               py_getitem (_temps_and_stack c) (_stack_ptr c - 1) = Ok x) /\
  (forall m x v,
     uses_block_contexts sp && is_block_context c = false ->
     _w_method c = Some m ->
     _stack_ptr c = Method._tempsize m ->
     1 <= Method._tempsize m <= Z.of_nat (length (_temps_and_stack c)) ->
     _temps_and_stack c !! Z.to_nat (Method._tempsize m - 1) = Some x ->
     exists sp1 sp2,
       gettemp fuel a (Method._tempsize m - 1) sp = (sp, Ok x) /\
       pop fuel a sp = (sp1, Ok (Some x)) /\
       stackdepth a sp1 = (sp1, Ok (Method._tempsize m - 1)) /\
       push a v sp1 = (sp2, Ok tt) /\
       gettemp fuel a (Method._tempsize m - 1) sp2 = (sp2, Ok v)).
Proof.
  intros Hc. split; [|split].
  - intros Hp. unfold pop.
    rewrite (mbind_ok _ _ _ _ _ (get_ctx_ok sp a c Hc)).
    assert (E : (_stack_ptr c - 1 <? 0) = true) by lia. rewrite E.
    unfold mbind at 1.
    pose proof (w_receiver_state fuel a sp) as Hst.
    destruct (w_receiver fuel a sp) as [sp' [r|e]]; cbn [fst] in Hst; subst sp'.
    + assert (E2 : (0 <=? _stack_ptr c - 1) = false) by lia. rewrite E2.
      exists AssertionError. reflexivity.
    + exists e. reflexivity.
  - intros sp' r Hpop. unfold pop in Hpop.
    rewrite (mbind_ok _ _ _ _ _ (get_ctx_ok sp a c Hc)) in Hpop.
    destruct (_stack_ptr c - 1 <? 0) eqn:E.
    + exfalso. unfold mbind at 1 in Hpop.
      pose proof (w_receiver_state fuel a sp) as Hst.
      destruct (w_receiver fuel a sp) as [sp0 [r0|e]]; cbn [fst] in Hst; subst sp0;
        [|discriminate].
      assert (E2 : (0 <=? _stack_ptr c - 1) = false) by lia.
      rewrite E2 in Hpop. discriminate.
    + split; [lia|].
      unfold stack_get in Hpop.
      unfold mbind, lift, py_assert, get_ctx, mret in Hpop. rewrite Hc in Hpop.
      assert (E2 : (0 <=? _stack_ptr c - 1) = true) by lia. rewrite E2 in Hpop.
      destruct (py_getitem (_temps_and_stack c) (_stack_ptr c - 1)) as [x|e];
        [|discriminate].
      unfold update_ctx in Hpop. rewrite Hc in Hpop.
      inversion Hpop; subst. split; [reflexivity|]. exists x. split; reflexivity.
  - intros m x v Hm Hw Hptr Ht Hx.
    pose proof (pop_ok fuel sp a c x Hc) as Hpop.
    rewrite Hptr in Hpop. specialize (Hpop ltac:(lia) Hx).
    set (c1 := set__stack_ptr c (Method._tempsize m - 1)) in *.
    assert (Hc1 : contexts (with_ctx sp a c1) !! a = Some c1) by apply with_ctx_lookup.
    pose proof (push_ok (with_ctx sp a c1) a c1 v Hc1) as Hpush.
    cbn [c1 _stack_ptr _temps_and_stack set__stack_ptr] in Hpush.
    specialize (Hpush ltac:(lia)). rewrite with_ctx_with_ctx in Hpush.
    match type of Hpush with _ = (with_ctx sp a ?c, _) => set (c2 := c) in * end.
    exists (with_ctx sp a c1), (with_ctx sp a c2).
    split.
    { rewrite (gettemp_method fuel sp a c _ Hc Hm).
      apply (stack_get_ok sp a c _ x Hc); [lia | exact Hx]. }
    split; [exact Hpop|].
    split; [apply (stackdepth_ok _ a c1 Hc1)|].
    split; [exact Hpush|].
    assert (Hc2 : contexts (with_ctx sp a c2) !! a = Some c2) by apply with_ctx_lookup.
    rewrite (gettemp_method fuel _ a c2 _ Hc2 Hm).
    apply (stack_get_ok _ a c2 _ v Hc2); [lia|].
    apply list_lookup_insert_eq. lia.
Qed.

Lemma pop_empty_stack_witness :
  let m := Method.mkMethod 0 0 0 0 2 2 [] [] String.EmptyString None None in
  let c := mkContext None 24 InactiveContext false None 0
             [W_SmallInteger 3; W_SmallInteger 4; w_nil; w_nil] 2 None 0 0
             (Some (W_Ref 9)) (Some m) false in
  let sp := mkSpace true (<[1%positive := c]> ∅) in
  exists sp1 sp2,
    gettemp 1 1 (Method._tempsize m - 1) sp = (sp, Ok (W_SmallInteger 4)) /\
    pop 1 1 sp = (sp1, Ok (Some (W_SmallInteger 4))) /\
    stackdepth 1 sp1 = (sp1, Ok (Method._tempsize m - 1)) /\
    push 1 (W_SmallInteger 7) sp1 = (sp2, Ok tt) /\
    gettemp 1 1 (Method._tempsize m - 1) sp2 = (sp2, Ok (W_SmallInteger 7)).
Proof.
  cbn zeta.
  refine (proj2 (proj2 (pop_empty_stack 1 _ 1 _ _)) _ _ _ _ _ _ _ _).
  - vm_compute. reflexivity.
  - reflexivity.
  - reflexivity.
  - reflexivity.
  - simpl. lia.
  - reflexivity.
Defined.

End ContextProps.

(* ================================================================== *)
(** ** More on integers *)

Section MoreIntegerProps.
Import Integers.

Lemma pow2_split (shift : Z) :
  0 <= shift <= 32 -> 2 ^ 32 = 2 ^ (32 - shift) * 2 ^ shift.
Proof. intros H. rewrite <- Z.pow_add_r by lia. f_equal. lia. Qed.

(** Dropping [shift] low bits of a signed word and keeping [32 - shift]
    bits is dividing its unsigned value. *)
Lemma masked_shift (value shift : Z) :
  0 <= shift <= 32 ->
  (value / 2 ^ shift) mod 2 ^ (32 - shift) = (value mod 2 ^ 32) / 2 ^ shift.
Proof.
  intros Hs.
  assert (Hp : 0 < 2 ^ shift) by (apply Z.pow_pos_nonneg; lia).
  assert (Hq : 0 < 2 ^ (32 - shift)) by (apply Z.pow_pos_nonneg; lia).
  pose proof (pow2_split shift Hs) as Hsplit.
  pose proof (Z.div_mod value (2 ^ 32) ltac:(lia)) as Hdm.
  pose proof (Z.mod_pos_bound value (2 ^ 32) ltac:(lia)) as Hr.
  set (q := value / 2 ^ 32) in *. set (r := value mod 2 ^ 32) in *.
  assert (E : value = q * 2 ^ (32 - shift) * 2 ^ shift + r).
  { rewrite Hsplit in Hdm. rewrite Hdm at 1. ring. }
  clearbody q r.
  rewrite E, Z.div_add_l by lia.
  rewrite Z.add_comm, Z.mod_add by lia.
  apply Z.mod_small. split.
  - apply Z.div_pos; lia.
  - apply Z.div_lt_upper_bound; [lia|]. nia.
Qed.

(** X1.  Right shift.  On a small integer it is the arithmetic shift of
    the signed value (floor division by [2^shift]).  On a 1-word large
    positive integer, for [0 < shift <= 32], the mask turns it into the
    logical shift of the unsigned 32-bit value: the result is the small
    integer [r_uint(value) / 2^shift]; a shift by 0 returns the receiver,
    a shift above 32 or below 0 raises [ValueError]. *)
Theorem rshift_spec (value sz shift : Z) :
  MININT <= value <= MAXINT ->
  (0 <= shift -> rshift (W_SmallInteger value) shift = Ok (W_SmallInteger (value / 2 ^ shift))) /\
  (0 < shift <= 32 ->
   rshift (W_LargePositiveInteger1Word value sz) shift
   = Ok (W_SmallInteger (r_uint value / 2 ^ shift))) /\
  rshift (W_LargePositiveInteger1Word value sz) 0 = Ok (W_LargePositiveInteger1Word value sz) /\
  (shift < 0 \/ 32 < shift ->
   rshift (W_LargePositiveInteger1Word value sz) shift = Raise ValueError).
Proof.
  intros Hv. rewrite MININT_value, MAXINT_value in Hv.
  split; [|split; [|split]].
  - intros Hs. unfold rshift, py_rshift.
    assert (E : (shift <? 0) = false) by lia. rewrite E. cbn [bind].
    rewrite Z.shiftr_div_pow2 by lia.
    assert (Hp : 0 < 2 ^ shift) by (apply Z.pow_pos_nonneg; lia).
    assert (Hr : MININT <= value / 2 ^ shift <= MAXINT).
    { rewrite MININT_value, MAXINT_value. split.
      - apply Z.div_le_lower_bound; [lia|]. nia.
      - apply Z.div_le_upper_bound; [lia|]. nia. }
    unfold wrap_int, new_SmallInteger. rewrite intmask_id by exact Hr. reflexivity.
  - intros Hs. unfold rshift, py_rshift, py_lshift.
    assert (E0 : (shift =? 0) = false) by lia.
    assert (E1 : (32 - shift <? 0) = false) by lia.
    assert (E2 : (shift <? 0) = false) by lia.
    rewrite E0, E1, E2. cbn [bind].
    rewrite Z.shiftl_1_l, Z.shiftr_div_pow2 by lia.
    assert (Hp : 0 < 2 ^ shift) by (apply Z.pow_pos_nonneg; lia).
    assert (Hq : 0 < 2 ^ (32 - shift) <= 2 ^ 31).
    { split; [apply Z.pow_pos_nonneg; lia|]. apply Z.pow_le_mono_r; lia. }
    change (2 ^ 31) with 2147483648 in Hq.
    rewrite intmask_id by (rewrite MININT_value, MAXINT_value; lia).
    replace (2 ^ (32 - shift) - 1) with (Z.ones (32 - shift))
      by (rewrite Z.ones_equiv; lia).
    rewrite Z.land_ones by lia. rewrite masked_shift by lia.
    unfold r_uint, LONG_BIT.
    assert (Hr : 0 <= value mod 2 ^ 32 / 2 ^ shift < 2147483648).
    { pose proof (Z.mod_pos_bound value (2 ^ 32) ltac:(lia)) as Hm.
      change (2 ^ 32) with 4294967296 in *. split.
      - apply Z.div_pos; lia.
      - apply Z.div_lt_upper_bound; [lia|].
        assert (2 <= 2 ^ shift).
        { change 2 with (2 ^ 1) at 1. apply Z.pow_le_mono_r; lia. }
        nia. }
    unfold wrap_int, new_SmallInteger.
    rewrite intmask_id by (rewrite MININT_value, MAXINT_value; lia). reflexivity.
  - reflexivity.
  - intros Hs. unfold rshift, py_rshift, py_lshift.
    assert (E0 : (shift =? 0) = false) by lia. rewrite E0.
    destruct (32 - shift <? 0) eqn:E1; [reflexivity|].
    assert (E2 : (shift <? 0) = true) by lia. rewrite E2. reflexivity.
Qed.

Lemma rshift_spec_witness :
  (0 <= 4 -> rshift (W_SmallInteger (-100)) 4 = Ok (W_SmallInteger (-100 / 2 ^ 4))) /\
  (0 < 4 <= 32 ->
   rshift (W_LargePositiveInteger1Word (-100) 4) 4
   = Ok (W_SmallInteger (r_uint (-100) / 2 ^ 4))) /\
  rshift (W_LargePositiveInteger1Word (-100) 4) 0 = Ok (W_LargePositiveInteger1Word (-100) 4) /\
  (4 < 0 \/ 32 < 4 ->
   rshift (W_LargePositiveInteger1Word (-100) 4) 4 = Raise ValueError).
Proof. apply (rshift_spec (-100) 4 4). vm_compute. split; discriminate. Defined.

(** X2.  Left shift of a 1-word large positive integer, for a positive
    shift: a non-negative field whose shifted value stays below [2^32] is
    promoted and denotes [value * 2^shift]; every other receiver fails
    with [PrimitiveFailedError], since there is no overflow check to fall
    back on.  A shift by 0 always fails, while on a small integer it
    returns the receiver. *)
Theorem lshift_large_positive_integer (value sz shift : Z) :
  MININT <= value <= MAXINT ->
  (0 < shift -> 0 <= value -> value * 2 ^ shift < 2 ^ 32 ->
   exists w, lshift (W_LargePositiveInteger1Word value sz) shift = Ok w /\
             unwrap_positive_32bit_int w = Ok (value * 2 ^ shift)) /\
  (0 < shift -> value < 0 \/ 2 ^ 32 <= value * 2 ^ shift ->
   lshift (W_LargePositiveInteger1Word value sz) shift = Raise PrimitiveFailedError) /\
  lshift (W_LargePositiveInteger1Word value sz) 0 = Raise PrimitiveFailedError /\
  lshift (W_SmallInteger value) 0 = Ok (W_SmallInteger value).
Proof.
  intros Hv. split; [|split; [|split]].
  - intros Hs H0 Hlt.
    destruct (upperbound_spec value shift Hs) as [Hub Hiff].
    unfold lshift, py_rshift, py_lshift.
    assert (Es : (shift <? 0) = false) by lia. rewrite Es. cbn [bind].
    assert (E : ((0 <=? value) && (value <=? intmask (Z.shiftr (r_uint (-1)) shift))) = true).
    { apply andb_true_iff. split; [lia|]. apply Z.leb_le. apply Hiff. lia. }
    rewrite E, Z.shiftl_mul_pow2 by lia.
    eexists. split; [reflexivity|].
    rewrite unwrap_wrap_positive_32bit_int. f_equal. apply r_uint_id.
    assert (0 < 2 ^ shift) by (apply Z.pow_pos_nonneg; lia). nia.
  - intros Hs Hout.
    destruct (upperbound_spec value shift Hs) as [Hub Hiff].
    unfold lshift, py_rshift.
    assert (Es : (shift <? 0) = false) by lia. rewrite Es. cbn [bind].
    assert (E : ((0 <=? value) && (value <=? intmask (Z.shiftr (r_uint (-1)) shift))) = false).
    { apply andb_false_iff. destruct Hout as [Hneg|Hbig]; [left; lia|].
      right. apply Z.leb_gt.
      destruct (Z_lt_le_dec (intmask (Z.shiftr (r_uint (-1)) shift)) value) as [Hlt|Hle];
        [exact Hlt|].
      apply Hiff in Hle. lia. }
    rewrite E. reflexivity.
  - unfold lshift. cbn [py_rshift Z.ltb Z.compare bind].
    replace (intmask (Z.shiftr (r_uint (-1)) 0)) with (-1) by reflexivity.
    assert (E : ((0 <=? value) && (value <=? -1)) = false).
    { apply andb_false_iff. destruct (Z_lt_le_dec value 0); [left|right]; lia. }
    rewrite E. reflexivity.
  - unfold lshift. cbn [py_rshift py_lshift Z.ltb Z.compare bind].
    replace (intmask (Z.shiftr (r_uint (-1)) 0)) with (-1) by reflexivity.
    assert (E : ((0 <=? value) && (value <=? -1)) = false).
    { apply andb_false_iff. destruct (Z_lt_le_dec value 0); [left|right]; lia. }
    rewrite E. rewrite Z.shiftl_0_r. unfold ovfcheck.
    assert (E2 : ((MININT <=? value) && (value <=? MAXINT)) = true).
    { apply andb_true_iff. split; lia. }
    rewrite E2. unfold wrap_int, new_SmallInteger. rewrite intmask_id by exact Hv.
    reflexivity.
Qed.

Lemma lshift_large_positive_integer_witness :
  (0 < 1 -> 0 <= 2147483647 -> 2147483647 * 2 ^ 1 < 2 ^ 32 ->
   exists w, lshift (W_LargePositiveInteger1Word 2147483647 4) 1 = Ok w /\
             unwrap_positive_32bit_int w = Ok (2147483647 * 2 ^ 1)) /\
  (0 < 1 -> 2147483647 < 0 \/ 2 ^ 32 <= 2147483647 * 2 ^ 1 ->
   lshift (W_LargePositiveInteger1Word 2147483647 4) 1 = Raise PrimitiveFailedError) /\
  lshift (W_LargePositiveInteger1Word 2147483647 4) 0 = Raise PrimitiveFailedError /\
  lshift (W_SmallInteger 2147483647) 0 = Ok (W_SmallInteger 2147483647).
Proof.
  apply (lshift_large_positive_integer 2147483647 4 1).
  vm_compute. split; discriminate.
Defined.

(** *** Bytes of the 1-word large positive integer *)

Lemma testbit_intmask (x n : Z) : 0 <= n < 32 -> Z.testbit (intmask x) n = Z.testbit x n.
Proof.
  intros Hn. rewrite <- (Z.mod_pow2_bits_low (intmask x) 32 n) by lia.
  rewrite <- (Z.mod_pow2_bits_low x 32 n) by lia.
  pose proof (r_uint_intmask x) as H. unfold r_uint, LONG_BIT in H. rewrite H. reflexivity.
Qed.

Lemma testbit_r_uint (x n : Z) : 0 <= n < 32 -> Z.testbit (r_uint x) n = Z.testbit x n.
Proof. intros Hn. unfold r_uint, LONG_BIT. apply Z.mod_pow2_bits_low. lia. Qed.

Lemma testbit_255 (n : Z) : 0 <= n -> Z.testbit 255 n = (n <? 8).
Proof. intros Hn. change 255 with (Z.ones 8). apply Z.testbit_ones_nonneg; lia. Qed.

Lemma testbit_byte (byte n : Z) : 0 <= byte <= 255 -> 8 <= n -> Z.testbit byte n = false.
Proof.
  intros Hb Hn. rewrite <- (Z.mod_small byte (2 ^ 8)) by (change (2 ^ 8) with 256; lia).
  apply Z.mod_pow2_bits_high. lia.
Qed.

(** The byte [j] of the word after byte [i] was replaced. *)
Lemma replaced_byte (value byte i j : Z) :
  0 <= i < 4 -> 0 <= j < 4 -> 0 <= byte <= 255 ->
  Z.land (Z.shiftr
            (intmask (Z.lor (Z.land (r_uint value) (r_uint (Z.lnot (Z.shiftl 255 (i * 8)))))
                            (r_uint (Z.shiftl byte (i * 8)))))
            (j * 8)) 255
  = if j =? i then byte else Z.land (Z.shiftr value (j * 8)) 255.
Proof.
  intros Hi Hj Hb. apply Z.bits_inj'. intros n Hn.
  rewrite Z.land_spec, Z.shiftr_spec, testbit_255 by lia.
  destruct (n <? 8) eqn:En.
  - rewrite andb_true_r.
    rewrite testbit_intmask by lia.
    rewrite Z.lor_spec, Z.land_spec, !testbit_r_uint by lia.
    rewrite Z.lnot_spec, !Z.shiftl_spec by lia.
    destruct (j =? i) eqn:Eji.
    + apply Z.eqb_eq in Eji. subst j.
      replace (n + i * 8 - i * 8) with n by lia.
      rewrite testbit_255, En by lia. cbn [negb]. rewrite andb_false_r. reflexivity.
    + apply Z.eqb_neq in Eji.
      rewrite Z.land_spec, Z.shiftr_spec, (testbit_255 n), En, andb_true_r by lia.
      destruct (Z_lt_le_dec j i) as [Hlt|Hge].
      * rewrite !(Z.testbit_neg_r _ (n + j * 8 - i * 8)) by lia.
        cbn [negb]. rewrite andb_true_r, orb_false_r. reflexivity.
      * rewrite testbit_255 by lia.
        assert (E8 : (n + j * 8 - i * 8 <? 8) = false) by lia. rewrite E8.
        rewrite (testbit_byte byte) by lia.
        cbn [negb]. rewrite andb_true_r, orb_false_r. reflexivity.
  - rewrite andb_false_r. destruct (j =? i).
    + symmetry. apply testbit_byte; lia.
    + rewrite Z.land_spec, (testbit_255 n), En, andb_false_r by lia. reflexivity.
Qed.

(** X3.  Byte access to a 1-word large positive integer of size at most
    4: after [atput0(i, byte)] with a byte value in [[0, 255]] and an
    index within the size, [at0(i)] returns the byte, every other byte
    of the word reads as before, and the size is unchanged. *)
Theorem atput0_at0_large_positive_integer (value sz i byte : Z) :
  0 <= i < sz -> sz <= 4 -> 0 <= byte <= 255 ->
  exists w',
    atput0 (W_LargePositiveInteger1Word value sz) i (W_SmallInteger byte) = Ok w' /\
    size w' = sz /\
    at0 w' i = Ok (W_SmallInteger byte) /\
    forall j, 0 <= j < 4 -> j <> i ->
              at0 w' j = at0 (W_LargePositiveInteger1Word value sz) j.
Proof.
  intros Hi Hsz Hb. unfold atput0.
  assert (E : (sz <=? i) = false) by lia. rewrite E.
  unfold unwrap_int. rewrite intmask_id by (rewrite MININT_value, MAXINT_value; lia).
  cbn [bind]. assert (E2 : (byte <=? 255) = true) by lia. rewrite E2.
  unfold py_assert, py_lshift. cbn [bind].
  assert (E3 : (i * 8 <? 0) = false) by lia. rewrite E3. cbn [bind].
  eexists. split; [reflexivity|]. split; [reflexivity|]. split.
  - rewrite at0_value by lia. rewrite replaced_byte by lia.
    rewrite Z.eqb_refl. reflexivity.
  - intros j Hj Hne. rewrite !at0_value by lia. rewrite replaced_byte by lia.
    assert (E4 : (j =? i) = false) by lia. rewrite E4. reflexivity.
Qed.

Lemma atput0_at0_large_positive_integer_witness :
  exists w',
    atput0 (W_LargePositiveInteger1Word (-1) 4) 2 (W_SmallInteger 18) = Ok w' /\
    size w' = 4 /\
    at0 w' 2 = Ok (W_SmallInteger 18) /\
    forall j, 0 <= j < 4 -> j <> 2 ->
              at0 w' j = at0 (W_LargePositiveInteger1Word (-1) 4) j.
Proof. apply (atput0_at0_large_positive_integer (-1) 4 2 18); lia. Defined.

(** X4.  Unwrapping what [lshift] promotes: for [0 <= x < 2^32] the
    promoted value unwraps as a positive 32-bit integer to [x]; as a
    signed integer it unwraps to [x] below [2^31] and fails with
    [UnwrappingError] from there on, the field being negative.  [clone]
    of a 1-word large positive integer keeps the value and takes the
    default size 4. *)
Theorem unwrap_promoted (x : Z) :
  0 <= x < 2 ^ 32 ->
  unwrap_positive_32bit_int (wrap_positive_32bit_int (intmask x)) = Ok x /\
  unwrap_uint (wrap_positive_32bit_int (intmask x)) = Ok x /\
  (x < 2 ^ 31 -> unwrap_int (wrap_positive_32bit_int (intmask x)) = Ok x) /\
  (2 ^ 31 <= x ->
   unwrap_int (wrap_positive_32bit_int (intmask x)) = Raise UnwrappingError) /\
  (forall sz, clone (W_LargePositiveInteger1Word (intmask x) sz)
              = Ok (W_LargePositiveInteger1Word (intmask x) 4)).
Proof.
  intros Hx. change (2 ^ 32) with 4294967296 in Hx. change (2 ^ 31) with 2147483648.
  pose proof (intmask_range x) as Hr. rewrite MININT_value, MAXINT_value in Hr.
  assert (Hu : r_uint x = x) by (apply r_uint_id; change (2 ^ 32) with 4294967296; lia).
  split; [rewrite unwrap_wrap_positive_32bit_int, Hu; reflexivity|].
  assert (Hcases : (x < 2147483648 /\ intmask x = x) \/
                   (2147483648 <= x /\ intmask x = x - 4294967296)).
  { unfold intmask, LONG_BIT. change (2 ^ (32 - 1)) with 2147483648.
    change (2 ^ 32) with 4294967296.
    destruct (Z_lt_le_dec x 2147483648) as [Hlt|Hge]; [left|right]; split; try lia.
    - rewrite Z.mod_small; lia.
    - replace (x + 2147483648) with (x - 2147483648 + 1 * 4294967296) by lia.
      rewrite Z.mod_add, Z.mod_small; lia. }
  unfold wrap_positive_32bit_int, int_between, new_SmallInteger,
         new_LargePositiveInteger1Word.
  rewrite !(intmask_id (intmask x)) by (rewrite MININT_value, MAXINT_value; lia).
  rewrite MAXINT_value.
  split; [|split; [|split]].
  - destruct ((0 <=? intmask x) && (intmask x <? 2147483647));
      cbn [unwrap_uint]; rewrite r_uint_intmask, Hu; reflexivity.
  - intros Hlt. destruct Hcases as [[_ E]|[Hge _]]; [|lia]. rewrite E.
    destruct ((0 <=? x) && (x <? 2147483647)); cbn [unwrap_int].
    + rewrite intmask_id by (rewrite MININT_value, MAXINT_value; lia). reflexivity.
    + assert (E0 : (0 <=? x) = true) by lia. rewrite E0.
      rewrite intmask_id by (rewrite MININT_value, MAXINT_value; lia). reflexivity.
  - intros Hge. destruct Hcases as [[Hlt _]|[_ E]]; [lia|]. rewrite E.
    assert (E1 : ((0 <=? x - 4294967296) && (x - 4294967296 <? 2147483647)) = false).
    { apply andb_false_iff. left. lia. }
    rewrite E1. cbn [unwrap_int].
    assert (E0 : (0 <=? x - 4294967296) = false) by lia. rewrite E0. reflexivity.
  - intros sz. unfold clone, new_LargePositiveInteger1Word.
    rewrite (intmask_id (intmask x)) by (rewrite MININT_value, MAXINT_value; lia).
    reflexivity.
Qed.

Lemma unwrap_promoted_witness :
  unwrap_positive_32bit_int (wrap_positive_32bit_int (intmask 4294967295)) = Ok 4294967295 /\
  unwrap_uint (wrap_positive_32bit_int (intmask 4294967295)) = Ok 4294967295 /\
  (4294967295 < 2 ^ 31 ->
   unwrap_int (wrap_positive_32bit_int (intmask 4294967295)) = Ok 4294967295) /\
  (2 ^ 31 <= 4294967295 ->
   unwrap_int (wrap_positive_32bit_int (intmask 4294967295)) = Raise UnwrappingError) /\
  (forall sz, clone (W_LargePositiveInteger1Word (intmask 4294967295) sz)
              = Ok (W_LargePositiveInteger1Word (intmask 4294967295) 4)).
Proof. apply (unwrap_promoted 4294967295). vm_compute. split; [discriminate | reflexivity]. Defined.

End MoreIntegerProps.

(* ================================================================== *)
(** ** Small slotted objects *)

Section SmallPointersProps.
Import SmallPointers.

Lemma int_between_true (index0 size : Z) :
  0 <= index0 < size -> int_between 0 index0 size = true.
Proof. intros H. unfold int_between. apply andb_true_iff. split; lia. Qed.

(** X5.  A store into one of the four fields within the size succeeds,
    keeps class and size, is read back by [fetch] at that index and
    leaves what [fetch] returns at every other index as it was. *)
Theorem small_pointers_store_fetch (o : W_SmallPointersObject) (i : Z) (v : W_Object) :
  0 <= i < size o -> i < 4 ->
  exists o',
    store o i v = Ok o' /\
    size o' = size o /\ w_class o' = w_class o /\
    fetch o' i = Ok v /\
    forall j, j <> i -> fetch o' j = fetch o j.
Proof.
  intros Hi H4. destruct o as [cls sz a b c d]. cbn [size _size] in Hi.
  assert (Hib : int_between 0 i sz = true) by (apply int_between_true; exact Hi).
  assert (D : i = 0 \/ i = 1 \/ i = 2 \/ i = 3) by lia.
  destruct D as [-> | [-> | [-> | ->]]];
    (eexists; split;
     [unfold store; cbn [size _size]; rewrite Hib; reflexivity|];
     split; [reflexivity|]; split; [reflexivity|]; split;
     [unfold fetch; cbn [size _size]; rewrite Hib; reflexivity|];
     intros j Hj; unfold fetch; cbn [size _size f1 f2 f3 f4];
     destruct (negb (int_between 0 j sz)); [reflexivity|];
     destruct (j =? 0) eqn:E0; [try reflexivity; lia|];
     destruct (j =? 1) eqn:E1; [try reflexivity; lia|];
     destruct (j =? 2) eqn:E2; [try reflexivity; lia|];
     destruct (j =? 3) eqn:E3; [try reflexivity; lia|];
     reflexivity).
Qed.

Lemma small_pointers_store_fetch_witness :
  exists o',
    store (new None 3) 2 (W_SmallInteger 5) = Ok o' /\
    size o' = size (new None 3) /\ w_class o' = w_class (new None 3) /\
    fetch o' 2 = Ok (W_SmallInteger 5) /\
    forall j, j <> 2 -> fetch o' j = fetch (new None 3) j.
Proof.
  apply (small_pointers_store_fetch (new None 3) 2 (W_SmallInteger 5)).
  - simpl. lia.
  - lia.
Defined.

Lemma fetch_all_overflow (o : W_SmallPointersObject) :
  4 < size o -> fetch_all o = Raise IndexError.
Proof.
  intros H. unfold fetch_all, py_range.
  destruct (Z.to_nat (size o)) as [|[|[|[|[|k]]]]] eqn:E; try lia.
  assert (Hib : forall i, 0 <= i < 5 -> int_between 0 i (size o) = true).
  { intros i Hi. apply int_between_true. lia. }
  change (map Z.of_nat (seq 0 (S (S (S (S (S k)))))))
    with (0 :: 1 :: 2 :: 3 :: 4 :: map Z.of_nat (seq 5 k)).
  cbn [mapM].
  unfold fetch at 1. rewrite (Hib 0) by lia. cbn [negb Z.eqb bind].
  unfold fetch at 1. rewrite (Hib 1) by lia. cbn [negb Z.eqb Pos.eqb bind].
  unfold fetch at 1. rewrite (Hib 2) by lia. cbn [negb Z.eqb Pos.eqb bind].
  unfold fetch at 1. rewrite (Hib 3) by lia. cbn [negb Z.eqb Pos.eqb bind].
  unfold fetch at 1. rewrite (Hib 4) by lia. cbn [negb Z.eqb Pos.eqb bind].
  reflexivity.
Qed.

(** X6.  The four-field limit: an index from 4 on fails with
    [IndexError] in [fetch] and [store] even when it is below the size,
    so [fetch_all] and [clone] of an object of size above 4 fail; and
    [at0], which addresses the part after the named fields, fails for
    every index from 0 on. *)
Theorem small_pointers_four_fields (o : W_SmallPointersObject) (i : Z) (v : W_Object) :
  (4 <= i -> fetch o i = Raise IndexError /\ store o i v = Raise IndexError) /\
  (4 < size o -> fetch_all o = Raise IndexError /\ clone o = Raise IndexError) /\
  (0 <= i -> at0 o i = Raise IndexError /\ atput0 o i v = Raise IndexError).
Proof.
  split; [|split].
  - intros H. unfold fetch, store.
    destruct (negb (int_between 0 i (size o))); [split; reflexivity|].
    assert (E0 : (i =? 0) = false) by lia. assert (E1 : (i =? 1) = false) by lia.
    assert (E2 : (i =? 2) = false) by lia. assert (E3 : (i =? 3) = false) by lia.
    rewrite E0, E1, E2, E3. split; reflexivity.
  - intros H. pose proof (fetch_all_overflow o H) as Hf.
    split; [exact Hf|]. unfold clone. rewrite Hf. reflexivity.
  - intros H. unfold at0, atput0, fetch, store, instsize.
    rewrite int_between_false by lia. split; reflexivity.
Qed.

Lemma small_pointers_four_fields_witness :
  (4 <= 4 -> fetch (new None 6) 4 = Raise IndexError /\
             store (new None 6) 4 w_nil = Raise IndexError) /\
  (4 < size (new None 6) ->
   fetch_all (new None 6) = Raise IndexError /\ clone (new None 6) = Raise IndexError) /\
  (0 <= 4 -> at0 (new None 6) 4 = Raise IndexError /\
             atput0 (new None 6) 4 w_nil = Raise IndexError).
Proof. apply (small_pointers_four_fields (new None 6) 4 w_nil). Defined.

(** X7.  [clone] of an object of size 0 to 4 succeeds: the copy has the
    class and the size of the original, [fetch] returns the same on both
    at every index, and the fields of the copy beyond the size are nil,
    whatever the original holds there. *)
Theorem small_pointers_clone (o : W_SmallPointersObject) :
  0 <= size o <= 4 ->
  exists o',
    clone o = Ok o' /\
    size o' = size o /\ w_class o' = w_class o /\
    (forall i, fetch o' i = fetch o i) /\
    (size o <= 0 -> f1 o' = w_nil) /\ (size o <= 1 -> f2 o' = w_nil) /\
    (size o <= 2 -> f3 o' = w_nil) /\ (size o <= 3 -> f4 o' = w_nil).
Proof.
  intros Hs. destruct o as [cls sz a b c d]. cbn [size _size] in Hs.
  assert (D : sz = 0 \/ sz = 1 \/ sz = 2 \/ sz = 3 \/ sz = 4) by lia.
  destruct D as [-> | [-> | [-> | [-> | ->]]]];
    (eexists; split; [vm_compute; reflexivity|];
     split; [reflexivity|]; split; [reflexivity|]; split;
     [ intros i; unfold fetch; cbn [size _size f1 f2 f3 f4];
       destruct (negb (int_between 0 i _)) eqn:Eb; [reflexivity|];
       unfold int_between in Eb; apply negb_false_iff, andb_true_iff in Eb;
       destruct Eb as [Eb1 Eb2];
       destruct (i =? 0) eqn:E0; [try reflexivity; lia|];
       destruct (i =? 1) eqn:E1; [try reflexivity; lia|];
       destruct (i =? 2) eqn:E2; [try reflexivity; lia|];
       destruct (i =? 3) eqn:E3; [try reflexivity; lia|];
       reflexivity
     | cbn [size _size f1 f2 f3 f4];
       repeat split; intros Hle; try reflexivity; lia ]).
Qed.

Lemma small_pointers_clone_witness :
  let o := mkSmallPointers (Some 3%positive) 2 (W_SmallInteger 1) (W_SmallInteger 2)
                           (W_SmallInteger 3) w_nil in
  exists o',
    clone o = Ok o' /\
    size o' = size o /\ w_class o' = w_class o /\
    (forall i, fetch o' i = fetch o i) /\
    (size o <= 0 -> f1 o' = w_nil) /\ (size o <= 1 -> f2 o' = w_nil) /\
    (size o <= 2 -> f3 o' = w_nil) /\ (size o <= 3 -> f4 o' = w_nil).
Proof.
  cbn zeta. apply small_pointers_clone. simpl. lia.
Defined.

Lemma store_loop_ext (o : W_SmallPointersObject) (idxs : list Z)
      (f g : Z -> result W_Object) :
  (forall i, In i idxs -> f i = g i) ->
  store_loop o idxs f = store_loop o idxs g.
Proof.
  revert o. induction idxs as [|i idxs IH]; intros o H; [reflexivity|].
  cbn [store_loop]. rewrite <- (H i (or_introl eq_refl)).
  destruct (f i) as [w|e]; [|reflexivity].
  destruct (store o i w) as [o'|e]; [|reflexivity].
  apply IH. intros j Hj. apply H. right. exact Hj.
Qed.

Lemma py_range2_In (a b i : Z) : In i (py_range2 a b) -> a <= i < b.
Proof.
  unfold py_range2. intros H. apply in_map_iff in H as (k & <- & Hk).
  apply in_seq in Hk. lia.
Qed.

(** Only the first four elements of the collection matter. *)
Lemma store_all_prefix (o : W_SmallPointersObject) (x1 x2 x3 x4 : W_Object)
      (rest : list W_Object) :
  size o <= 4 ->
  store_all o (x1 :: x2 :: x3 :: x4 :: rest) = store_all o [x1; x2; x3; x4].
Proof.
  intros Hs. unfold store_all.
  assert (Hlen : 4 <= Z.of_nat (length (x1 :: x2 :: x3 :: x4 :: rest))).
  { cbn [length]. lia. }
  rewrite !Z.min_l by (cbn [length] in *; lia).
  rewrite (store_loop_ext o _ (py_getitem (x1 :: x2 :: x3 :: x4 :: rest))
             (py_getitem [x1; x2; x3; x4])); [reflexivity|].
  intros i Hi. apply py_range2_In in Hi.
  assert (D : i = 0 \/ i = 1 \/ i = 2 \/ i = 3) by lia.
  destruct D as [-> | [-> | [-> | ->]]].
  - rewrite (py_getitem_in_range (x1 :: x2 :: x3 :: x4 :: rest) 0 x1); [reflexivity|lia|reflexivity].
  - rewrite (py_getitem_in_range (x1 :: x2 :: x3 :: x4 :: rest) 1 x2); [reflexivity|lia|reflexivity].
  - rewrite (py_getitem_in_range (x1 :: x2 :: x3 :: x4 :: rest) 2 x3); [reflexivity|lia|reflexivity].
  - rewrite (py_getitem_in_range (x1 :: x2 :: x3 :: x4 :: rest) 3 x4); [reflexivity|lia|reflexivity].
Qed.

(** X8.  [store_all] on an object of size 0 to 4 is tolerant: whatever
    the length of the collection, it succeeds, keeps the size, and
    afterwards [fetch(i)] within the size returns the element [i] of the
    collection, or nil where the collection is too short. *)
Theorem small_pointers_store_all (o : W_SmallPointersObject) (collection : list W_Object) :
  0 <= size o <= 4 ->
  exists o',
    store_all o collection = (o', Ok tt) /\
    size o' = size o /\ w_class o' = w_class o /\
    forall i, 0 <= i < size o ->
              fetch o' i = Ok (default w_nil (collection !! Z.to_nat i)).
Proof.
  intros Hs.
  assert (Hshort : forall coll, (length coll <= 4)%nat ->
            exists o', store_all o coll = (o', Ok tt) /\
                       size o' = size o /\ w_class o' = w_class o /\
                       forall i, 0 <= i < size o ->
                                 fetch o' i = Ok (default w_nil (coll !! Z.to_nat i))).
  { intros coll Hl. destruct o as [cls sz a b c d]. cbn [size _size] in Hs |- *.
    assert (D : sz = 0 \/ sz = 1 \/ sz = 2 \/ sz = 3 \/ sz = 4) by lia.
    destruct coll as [|x1 [|x2 [|x3 [|x4 [|x5 rest]]]]]; cbn [length] in Hl; try lia;
      destruct D as [-> | [-> | [-> | [-> | ->]]]];
      (eexists; split; [vm_compute; reflexivity|];
       split; [reflexivity|]; split; [reflexivity|];
       intros i Hi;
       assert (Di : i = 0 \/ i = 1 \/ i = 2 \/ i = 3) by lia;
       destruct Di as [-> | [-> | [-> | ->]]]; try lia; reflexivity). }
  destruct collection as [|x1 [|x2 [|x3 [|x4 rest]]]];
    try (apply Hshort; cbn [length]; lia).
  rewrite store_all_prefix by lia.
  destruct (Hshort [x1; x2; x3; x4]) as (o' & H1 & H2 & H3 & H4); [cbn [length]; lia|].
  exists o'. split; [exact H1|]. split; [exact H2|]. split; [exact H3|].
  intros i Hi. rewrite (H4 i Hi).
  assert (Di : i = 0 \/ i = 1 \/ i = 2 \/ i = 3) by lia.
  destruct Di as [-> | [-> | [-> | ->]]]; reflexivity.
Qed.

Lemma small_pointers_store_all_witness :
  exists o',
    store_all (new None 3) [W_SmallInteger 1] = (o', Ok tt) /\
    size o' = size (new None 3) /\ w_class o' = w_class (new None 3) /\
    forall i, 0 <= i < size (new None 3) ->
              fetch o' i = Ok (default w_nil ([W_SmallInteger 1] !! Z.to_nat i)).
Proof. apply small_pointers_store_all. simpl. lia. Defined.

End SmallPointersProps.

(* ================================================================== *)
(** ** More on byte objects *)

Section MoreBytesProps.
Import Bytes.

Lemma raw_getitem_in_range (buf : list Z) (i x : Z) :
  0 <= i -> buf !! Z.to_nat i = Some x -> raw_getitem (Some buf) i = Ok x.
Proof.
  intros Hi Hx. unfold raw_getitem.
  assert (E : ((0 <=? i) && (i <? Z.of_nat (length buf))) = true).
  { apply lookup_lt_Some in Hx. apply andb_true_iff. split; lia. }
  rewrite E, Hx. reflexivity.
Qed.

(** X9.  [atput0] and [at0] of a byte object, in either layout: storing
    a small integer in [[0, 255]] at an index within the size succeeds,
    keeps the size and the layout, is read back by [at0] and leaves
    every other byte as it was; a small integer outside [[0, 255]] is
    refused with [ValueError] by [chr]. *)
Theorem bytes_atput0_at0 (o : W_BytesObject) (i v : Z) :
  wf o -> 0 <= i < size o -> MININT <= v <= MAXINT ->
  (0 <= v <= 255 ->
   exists o',
     atput0 o i (W_SmallInteger v) = Ok o' /\
     wf o' /\ size o' = size o /\ w_class o' = w_class o /\
     at0 o' i = Ok (W_SmallInteger v) /\
     forall j, 0 <= j < size o -> j <> i -> getchar o' j = getchar o j) /\
  (~ (0 <= v <= 255) -> atput0 o i (W_SmallInteger v) = Raise ValueError).
Proof.
  intros [H0 Hwf] Hi Hv. unfold size in Hi. unfold atput0, Integers.unwrap_int.
  rewrite intmask_id by exact Hv. cbn [bind]. unfold chr. split.
  - intros Hb.
    assert (E : ((0 <=? v) && (v <? 256)) = true) by (apply andb_true_iff; split; lia).
    rewrite E. cbn [bind]. unfold setchar, at0, getchar, size.
    assert (Hw : wrap_int v = W_SmallInteger v).
    { unfold wrap_int, new_SmallInteger. rewrite intmask_id by exact Hv. reflexivity. }
    destruct (bytes o) as [l|] eqn:Eb.
    + rewrite py_setitem_in_range by lia. cbn [bind].
      eexists. split; [reflexivity|]. cbn [bytes _size w_class c_bytes].
      split; [split; [exact H0 | cbn [bytes c_bytes _size]; rewrite length_insert; exact Hwf]|].
      split; [reflexivity|]. split; [reflexivity|]. split.
      * rewrite (py_getitem_in_range _ i v); [cbn [bind]; rewrite Hw; reflexivity | lia |].
        apply list_lookup_insert_eq. lia.
      * intros j Hj Hne.
        destruct (lookup_lt_is_Some_2 l (Z.to_nat j)) as [x Hx]; [lia|].
        rewrite (py_getitem_in_range l j x) by (lia || exact Hx).
        apply py_getitem_in_range; [lia|].
        rewrite list_lookup_insert_ne by lia. exact Hx.
    + destruct (c_bytes o) as [buf|] eqn:Ec; [|contradiction].
      unfold raw_setitem.
      assert (E2 : ((0 <=? i) && (i <? Z.of_nat (length buf))) = true)
        by (apply andb_true_iff; split; lia).
      rewrite E2. cbn [bind].
      eexists. split; [reflexivity|]. cbn [bytes _size w_class c_bytes].
      split; [split; [exact H0 | cbn [bytes c_bytes _size]; rewrite length_insert; exact Hwf]|].
      split; [reflexivity|]. split; [reflexivity|]. split.
      * assert (E3 : (_size o <=? i) = false) by lia. rewrite E3.
        rewrite (raw_getitem_in_range _ i v); [cbn [bind]; rewrite Hw; reflexivity | lia |].
        apply list_lookup_insert_eq. lia.
      * intros j Hj Hne.
        assert (E3 : (_size o <=? j) = false) by lia. rewrite E3.
        destruct (lookup_lt_is_Some_2 buf (Z.to_nat j)) as [x Hx]; [lia|].
        rewrite (raw_getitem_in_range buf j x) by (lia || exact Hx).
        apply raw_getitem_in_range; [lia|].
        rewrite list_lookup_insert_ne by lia. exact Hx.
  - intros Hb.
    assert (E : ((0 <=? v) && (v <? 256)) = false).
    { apply andb_false_iff. destruct (Z_lt_le_dec v 0); [left|right]; lia. }
    rewrite E. reflexivity.
Qed.

Lemma bytes_atput0_at0_witness :
  (0 <= 65 <= 255 ->
   exists o',
     atput0 (new None 3) 1 (W_SmallInteger 65) = Ok o' /\
     wf o' /\ size o' = size (new None 3) /\ w_class o' = w_class (new None 3) /\
     at0 o' 1 = Ok (W_SmallInteger 65) /\
     forall j, 0 <= j < size (new None 3) -> j <> 1 ->
               getchar o' j = getchar (new None 3) j) /\
  (~ (0 <= 65 <= 255) -> atput0 (new None 3) 1 (W_SmallInteger 65) = Raise ValueError).
Proof.
  apply (bytes_atput0_at0 (new None 3) 1 65).
  - split; [simpl; lia | reflexivity].
  - simpl. lia.
  - vm_compute. split; discriminate.
Defined.

Lemma getchar_new (cls : option positive) (n i : Z) :
  0 <= i < n -> getchar (new cls n) i = Ok 0.
Proof.
  intros Hi. unfold getchar. cbn [new bytes].
  apply py_getitem_in_range; [lia|]. apply lookup_replicate_2. lia.
Qed.

Lemma convert_to_c_layout_keeps (o : W_BytesObject) :
  wf o ->
  exists o',
    convert_to_c_layout o = Ok o' /\
    bytes o' = None /\ wf o' /\ size o' = size o /\ w_class o' = w_class o /\
    chars o' = chars o /\
    (forall i, 0 <= i < size o -> getchar o' i = getchar o i) /\
    convert_to_c_layout o' = Ok o'.
Proof.
  intros Hwf. pose proof Hwf as [H0 Hl]. unfold convert_to_c_layout.
  destruct (bytes o) as [l|] eqn:Eb.
  - eexists. split; [reflexivity|]. cbn [bytes c_bytes _size w_class size].
    split; [reflexivity|].
    split; [split; [exact H0 | cbn [bytes c_bytes _size]; rewrite length_app; cbn [length]; lia]|].
    split; [reflexivity|]. split; [reflexivity|].
    split.
    { unfold chars. cbn [bytes c_bytes _size]. rewrite Eb.
      rewrite take_app_le by lia. rewrite take_ge by lia. reflexivity. }
    split; [|reflexivity].
    intros i Hi. unfold size in Hi. unfold getchar. cbn [bytes c_bytes _size]. rewrite Eb.
    assert (E : (_size o <=? i) = false) by lia. rewrite E.
    destruct (lookup_lt_is_Some_2 l (Z.to_nat i)) as [x Hx]; [lia|].
    rewrite (py_getitem_in_range l i x) by (lia || exact Hx).
    apply raw_getitem_in_range; [lia|].
    rewrite lookup_app_l by lia. exact Hx.
  - exists o. split; [reflexivity|]. split; [exact Eb|]. split; [exact Hwf|].
    split; [reflexivity|]. split; [reflexivity|]. split; [reflexivity|].
    split; [reflexivity|]. rewrite Eb. reflexivity.
Qed.

(** X10.  [convert_to_c_layout] keeps what the object stands for: it
    succeeds on a well-formed object, the result is in the C layout with
    the same class and size, [getchar] within the size returns the same
    on both, and converting again changes nothing.  A new object has
    only zero bytes, before and after the conversion. *)
Theorem bytes_convert_to_c_layout (o : W_BytesObject) :
  wf o ->
  (exists o',
     convert_to_c_layout o = Ok o' /\
     bytes o' = None /\ wf o' /\ size o' = size o /\ w_class o' = w_class o /\
     chars o' = chars o /\
     (forall i, 0 <= i < size o -> getchar o' i = getchar o i) /\
     convert_to_c_layout o' = Ok o') /\
  (forall cls n i, 0 <= i < n ->
     getchar (new cls n) i = Ok 0 /\
     exists o', convert_to_c_layout (new cls n) = Ok o' /\
                bytes o' = None /\ getchar o' i = Ok 0).
Proof.
  intros Hwf. split; [apply convert_to_c_layout_keeps; exact Hwf|].
  intros cls n i Hi. split; [apply getchar_new; exact Hi|].
  assert (Hnew : wf (new cls n)).
  { split; [cbn [new _size]; lia|]. cbn [new bytes _size]. rewrite length_replicate. lia. }
  destruct (convert_to_c_layout_keeps (new cls n) Hnew)
    as (o' & Hconv & Hb & _ & _ & _ & _ & Hget & _).
  exists o'. split; [exact Hconv|]. split; [exact Hb|].
  rewrite (Hget i Hi). apply getchar_new. exact Hi.
Qed.

Lemma bytes_convert_to_c_layout_witness :
  let o := mkBytes None (Some [104; 105]) None 2 in
  (exists o',
     convert_to_c_layout o = Ok o' /\
     bytes o' = None /\ wf o' /\ size o' = size o /\ w_class o' = w_class o /\
     chars o' = chars o /\
     (forall i, 0 <= i < size o -> getchar o' i = getchar o i) /\
     convert_to_c_layout o' = Ok o') /\
  (forall cls n i, 0 <= i < n ->
     getchar (new cls n) i = Ok 0 /\
     exists o', convert_to_c_layout (new cls n) = Ok o' /\
                bytes o' = None /\ getchar o' i = Ok 0).
Proof.
  cbn zeta. apply bytes_convert_to_c_layout. split; [simpl; lia | reflexivity].
Defined.

(** X11.  [is_same_object] on two byte objects answers true only for
    equal contents: when it returns true for two distinct well-formed
    objects, they have the same size and [getchar] returns the same
    character on both at every index within it; and two objects of
    different sizes are never the same. *)
Theorem bytes_is_same_object_sound (o1 o2 : W_BytesObject) :
  wf o1 -> wf o2 ->
  (is_same_object false o1 o2 = Ok true ->
   size o1 = size o2 /\
   forall i, 0 <= i < size o1 ->
             exists x, getchar o1 i = Ok x /\ getchar o2 i = Ok x) /\
  (size o1 <> size o2 -> is_same_object false o1 o2 = Ok false).
Proof.
  intros W1 W2. unfold is_same_object. split.
  - destruct (size o1 =? size o2) eqn:Es; cbn [negb]; [|discriminate].
    apply Z.eqb_eq in Es. intros H. split; [exact Es|].
    assert (Hloop : has_same_chars o1 o2 (size o1) = Ok true ->
                    forall i, 0 <= i < size o1 ->
                              exists x, getchar o1 i = Ok x /\ getchar o2 i = Ok x).
    { intros Hl i Hi. apply (has_same_chars_loop_inv o1 o2 _ Hl).
      apply py_range_In_2. exact Hi. }
    destruct (bytes o1) as [l1|] eqn:B1; [|apply Hloop; exact H].
    destruct (bytes o2) as [l2|] eqn:B2; [|apply Hloop; exact H].
    destruct (256 <? size o1); [|apply Hloop; exact H].
    injection H as H. apply list_eqb_eq in H. subst l2.
    intros i Hi. unfold size in *.
    destruct (getchar_ok o1 i W1 Hi) as [x Hx]. exists x. split; [exact Hx|].
    unfold getchar in *. rewrite B1 in Hx. rewrite B2. exact Hx.
  - intros Hne. assert (E : (size o1 =? size o2) = false) by lia.
    rewrite E. reflexivity.
Qed.

Lemma bytes_is_same_object_sound_witness :
  let o1 := mkBytes None (Some [104; 105]) None 2 in
  let o2 := mkBytes None (Some [104; 105; 33]) None 3 in
  (is_same_object false o1 o2 = Ok true ->
   size o1 = size o2 /\
   forall i, 0 <= i < size o1 ->
             exists x, getchar o1 i = Ok x /\ getchar o2 i = Ok x) /\
  (size o1 <> size o2 -> is_same_object false o1 o2 = Ok false).
Proof.
  cbn zeta. apply bytes_is_same_object_sound; (split; [simpl; lia | reflexivity]).
Defined.

(** X12.  [clone] of a well-formed byte object, in either layout, gives
    an object in the list layout with the same class, size and
    characters; and a new object of size [n >= 0] is well-formed and
    holds [n] zero bytes. *)
Theorem bytes_clone (o : W_BytesObject) (n : Z) (cls : option positive) :
  wf o -> 0 <= n ->
  (exists o' l,
     clone o = Ok o' /\
     bytes o' = Some l /\ chars o = Some l /\ c_bytes o' = None /\
     wf o' /\ size o' = size o /\ w_class o' = w_class o) /\
  wf (new cls n) /\ size (new cls n) = n /\
  chars (new cls n) = Some (replicate (Z.to_nat n) 0).
Proof.
  intros [H0 Hl] Hn. split.
  2:{ split; [|split; reflexivity].
      split; [exact Hn|]. cbn [new bytes _size]. rewrite length_replicate. lia. }
  unfold clone, chars. destruct (bytes o) as [l|] eqn:Eb.
  - eexists _, l. split; [reflexivity|]. cbn [bytes c_bytes _size w_class size new].
    split; [reflexivity|]. split; [reflexivity|]. split; [reflexivity|].
    split; [split; assumption|]. split; reflexivity.
  - destruct (c_bytes o) as [buf|] eqn:Ec; [|contradiction].
    assert (Hm : mapM (raw_getitem (Some buf)) (py_range (size o))
                 = Ok (take (Z.to_nat (_size o)) buf)).
    { unfold py_range, size. apply mapM_seq.
      - rewrite length_take. lia.
      - intros k y Hk. pose proof (lookup_lt_Some _ _ _ Hk) as Hlt.
        rewrite length_take in Hlt.
        rewrite lookup_take_lt in Hk by lia.
        apply raw_getitem_in_range; [lia|]. rewrite Nat.add_0_l, Nat2Z.id. exact Hk. }
    rewrite Hm. cbn [bind].
    eexists _, _. split; [reflexivity|]. cbn [bytes c_bytes _size w_class size new].
    split; [reflexivity|]. split; [reflexivity|]. split; [reflexivity|].
    split; [split; [exact H0 | cbn [bytes c_bytes _size]; unfold size; rewrite length_take; lia]|].
    split; reflexivity.
Qed.

Lemma bytes_clone_witness :
  let o := mkBytes (Some 4%positive) None (Some [104; 105; 0]) 2 in
  (exists o' l,
     clone o = Ok o' /\
     bytes o' = Some l /\ chars o = Some l /\ c_bytes o' = None /\
     wf o' /\ size o' = size o /\ w_class o' = w_class o) /\
  wf (new None 3) /\ size (new None 3) = 3 /\
  chars (new None 3) = Some (replicate (Z.to_nat 3) 0).
Proof.
  cbn zeta. apply bytes_clone; [split; simpl; lia | lia].
Defined.

End MoreBytesProps.

(* ================================================================== *)
(** ** Word objects and compiled methods *)

Section WordsProps.
Import Words.

(** X13.  Words of a word object in the list layout, with as many words
    as its size: [setword] within the size succeeds, keeps the size, is
    read back by [getword] as the unsigned word [r_uint(word)] and
    leaves the other words alone; outside the size [setword] is not
    guarded, unlike [getword]: at a negative index down to [-size] it
    overwrites the word counted from the end. *)
Theorem words_setword_getword (o : W_WordsObject) (l : list Z) (n word : Z) :
  words o = Some l -> Z.of_nat (length l) = size o ->
  (0 <= n < size o ->
   exists o',
     setword o n word = Ok o' /\ size o' = size o /\
     getword o' n = Ok (r_uint word) /\
     forall j, j <> n -> getword o' j = getword o j) /\
  (- size o <= n < 0 ->
   exists o',
     setword o n word = Ok o' /\
     getword o' (n + size o) = Ok (r_uint word)).
Proof.
  intros Hw Hl. unfold size in *. split.
  - intros Hn. unfold setword. rewrite Hw.
    rewrite py_setitem_in_range by lia. cbn [bind].
    eexists. split; [reflexivity|]. split; [reflexivity|].
    unfold getword, size. cbn [words _size c_words]. split.
    + assert (E : ((n <? _size o) && (0 <=? n)) = true) by (apply andb_true_iff; split; lia).
      rewrite E. cbn [py_assert bind].
      apply py_getitem_in_range; [lia|]. apply list_lookup_insert_eq. lia.
    + intros j Hj. rewrite Hw.
      destruct ((j <? _size o) && (0 <=? j)) eqn:E; [|reflexivity].
      apply andb_true_iff in E as [E1 E2]. cbn [py_assert bind].
      destruct (lookup_lt_is_Some_2 l (Z.to_nat j)) as [x Hx]; [lia|].
      rewrite (py_getitem_in_range l j x) by (lia || exact Hx).
      apply py_getitem_in_range; [lia|].
      rewrite list_lookup_insert_ne by lia. exact Hx.
  - intros Hn. unfold setword, py_setitem, py_index. rewrite Hw.
    assert (E1 : ((0 <=? n) && (n <? Z.of_nat (length l))) = false)
      by (apply andb_false_iff; left; lia).
    assert (E2 : ((- Z.of_nat (length l) <=? n) && (n <? 0)) = true)
      by (apply andb_true_iff; split; lia).
    rewrite E1, E2. cbn [bind].
    eexists. split; [reflexivity|].
    unfold getword, size. cbn [words _size c_words].
    assert (E : ((n + _size o <? _size o) && (0 <=? n + _size o)) = true)
      by (apply andb_true_iff; split; lia).
    rewrite E. cbn [py_assert bind].
    apply py_getitem_in_range; [lia|]. rewrite Hl.
    apply list_lookup_insert_eq. lia.
Qed.

Lemma words_setword_getword_witness :
  (0 <= 1 < size (new None 3) ->
   exists o',
     setword (new None 3) 1 (-1) = Ok o' /\ size o' = size (new None 3) /\
     getword o' 1 = Ok (r_uint (-1)) /\
     forall j, j <> 1 -> getword o' j = getword (new None 3) j) /\
  (- size (new None 3) <= 1 < 0 ->
   exists o',
     setword (new None 3) 1 (-1) = Ok o' /\
     getword o' (1 + size (new None 3)) = Ok (r_uint (-1))).
Proof.
  apply (words_setword_getword (new None 3) (replicate 3 (r_uint 0)) 1 (-1)); reflexivity.
Defined.

(** X14.  [convert_to_c_layout] of a word object in the list layout
    whose words are unsigned 32-bit numbers: the conversion succeeds,
    stores each word as a signed C int, and [getword] within the size
    still returns the same unsigned word; [clone] of the converted
    object gives back the list of words. *)
Theorem words_convert_to_c_layout (o : W_WordsObject) (l : list Z) :
  words o = Some l -> Z.of_nat (length l) = size o ->
  Forall (fun w => 0 <= w < 2 ^ 32) l ->
  exists o',
    convert_to_c_layout o = Ok o' /\
    words o' = None /\ c_words o' = Some (map intmask l) /\ size o' = size o /\
    (forall i, getword o' i = getword o i) /\
    exists o'', clone o' = Ok o'' /\ words o'' = Some l /\ size o'' = size o.
Proof.
  intros Hw Hl Hr. unfold size in *. unfold convert_to_c_layout. rewrite Hw.
  assert (Hm : mapM (fun i => w <- py_getitem l i ;; Ok (intmask w)) (py_range (size o))
               = Ok (map intmask l)).
  { unfold py_range, size. apply mapM_seq.
    - rewrite length_map. lia.
    - intros k y Hk. rewrite list_lookup_fmap in Hk.
      destruct (l !! k) as [x|] eqn:Hx; [|discriminate]. injection Hk as <-.
      rewrite Nat.add_0_l.
      rewrite (py_getitem_in_range l (Z.of_nat k) x); [reflexivity | lia |].
      rewrite Nat2Z.id. exact Hx. }
  rewrite Hm. cbn [bind].
  eexists. split; [reflexivity|]. cbn [words c_words _size].
  split; [reflexivity|]. split; [reflexivity|]. split; [reflexivity|].
  assert (Hword : forall k x, l !! k = Some x -> r_uint (intmask x) = x).
  { intros k x Hx. rewrite r_uint_intmask. apply r_uint_id.
    rewrite Forall_lookup in Hr. apply (Hr k x Hx). }
  split.
  - intros i. unfold getword, size. cbn [words c_words _size]. rewrite Hw.
    destruct ((i <? _size o) && (0 <=? i)) eqn:E; [|reflexivity].
    apply andb_true_iff in E as [E1 E2]. cbn [py_assert bind].
    destruct (lookup_lt_is_Some_2 l (Z.to_nat i)) as [x Hx]; [lia|].
    rewrite (py_getitem_in_range l i x) by (lia || exact Hx).
    unfold raw_getitem. rewrite length_map.
    assert (E3 : ((0 <=? i) && (i <? Z.of_nat (length l))) = true)
      by (apply andb_true_iff; split; lia).
    rewrite E3, list_lookup_fmap, Hx. cbn [fmap option_fmap option_map bind].
    rewrite (Hword _ _ Hx). reflexivity.
  - unfold clone, size. cbn [words c_words _size w_class new].
    assert (Hm2 : mapM (fun i => c <- raw_getitem (Some (map intmask l)) i ;; Ok (r_uint c))
                       (py_range (_size o)) = Ok l).
    { unfold py_range. apply mapM_seq.
      - lia.
      - intros k y Hk. rewrite Nat.add_0_l. unfold raw_getitem. rewrite length_map.
        pose proof (lookup_lt_Some _ _ _ Hk) as Hlt.
        assert (E3 : ((0 <=? Z.of_nat k) && (Z.of_nat k <? Z.of_nat (length l))) = true)
          by (apply andb_true_iff; split; lia).
        rewrite E3, Nat2Z.id, list_lookup_fmap, Hk.
        cbn [fmap option_fmap option_map bind]. rewrite (Hword _ _ Hk). reflexivity. }
    rewrite Hm2. cbn [bind]. eexists. split; [reflexivity|]. split; reflexivity.
Qed.

Lemma words_convert_to_c_layout_witness :
  let o := mkWords None (Some [4294967295; 7]) None 2 in
  exists o',
    convert_to_c_layout o = Ok o' /\
    words o' = None /\ c_words o' = Some (map intmask [4294967295; 7]) /\
    size o' = size o /\
    (forall i, getword o' i = getword o i) /\
    exists o'', clone o' = Ok o'' /\ words o'' = Some [4294967295; 7] /\ size o'' = size o.
Proof.
  cbn zeta. apply words_convert_to_c_layout; [reflexivity | reflexivity |].
  repeat constructor; vm_compute; try discriminate; reflexivity.
Defined.

End WordsProps.

Section MethodProps.
Import Method.

(** X15.  Bytecodes of a compiled method: [setchar] at an index within
    the bytes stores the bytecode that [fetch_bytecode] then returns,
    and changes neither the size of the method nor its frame size;
    [fetch_bytecode] outside the bytes fails with [AssertionError], and
    [setchar] fails there too, with [AssertionError] below 0 and
    [IndexError] from the length on. *)
Theorem method_setchar_fetch_bytecode (self : W_CompiledMethod) (pc c : Z) :
  (0 <= pc < Z.of_nat (length (bytes self)) ->
   exists m',
     setchar self pc c = Ok m' /\
     fetch_bytecode m' pc = Ok c /\
     size m' = size self /\ compute_frame_size m' = compute_frame_size self /\
     literals m' = literals self /\
     forall j, j <> pc -> fetch_bytecode m' j = fetch_bytecode self j) /\
  (~ (0 <= pc < Z.of_nat (length (bytes self))) ->
   fetch_bytecode self pc = Raise AssertionError /\
   setchar self pc c = Raise (if pc <? 0 then AssertionError else IndexError)).
Proof.
  split.
  - intros Hpc. unfold setchar.
    assert (E : (0 <=? pc) = true) by lia. rewrite E. cbn [py_assert bind].
    rewrite py_setitem_in_range by lia. cbn [bind].
    eexists. split; [reflexivity|].
    unfold fetch_bytecode, size, compute_frame_size, getliteralsize, headersize.
    cbn [bytes literalsize islarge argsize literals]. rewrite length_insert.
    split.
    { assert (E2 : ((0 <=? pc) && (pc <? Z.of_nat (length (bytes self)))) = true)
        by (apply andb_true_iff; split; lia).
      rewrite E2. cbn [py_assert bind].
      apply py_getitem_in_range; [lia|]. apply list_lookup_insert_eq. lia. }
    split; [reflexivity|]. split; [reflexivity|]. split; [reflexivity|].
    intros j Hj.
    destruct ((0 <=? j) && (j <? Z.of_nat (length (bytes self)))) eqn:E2; [|reflexivity].
    apply andb_true_iff in E2 as [E3 E4]. cbn [py_assert bind].
    destruct (lookup_lt_is_Some_2 (bytes self) (Z.to_nat j)) as [x Hx]; [lia|].
    rewrite (py_getitem_in_range (bytes self) j x) by (lia || exact Hx).
    apply py_getitem_in_range; [lia|].
    rewrite list_lookup_insert_ne by lia. exact Hx.
  - intros Hout. split.
    + unfold fetch_bytecode.
      assert (E : ((0 <=? pc) && (pc <? Z.of_nat (length (bytes self)))) = false).
      { apply andb_false_iff. destruct (Z_lt_le_dec pc 0); [left|right]; lia. }
      rewrite E. reflexivity.
    + unfold setchar. destruct (pc <? 0) eqn:E.
      * assert (E2 : (0 <=? pc) = false) by lia. rewrite E2. reflexivity.
      * assert (E2 : (0 <=? pc) = true) by lia. rewrite E2. cbn [py_assert bind].
        rewrite py_setitem_too_large by lia. reflexivity.
Qed.

Lemma method_setchar_fetch_bytecode_witness :
  let m := mkMethod 0 0 0 0 0 0 [112; 120] [] String.EmptyString None None in
  (0 <= 1 < Z.of_nat (length (bytes m)) ->
   exists m',
     setchar m 1 124 = Ok m' /\
     fetch_bytecode m' 1 = Ok 124 /\
     size m' = size m /\ compute_frame_size m' = compute_frame_size m /\
     literals m' = literals m /\
     forall j, j <> 1 -> fetch_bytecode m' j = fetch_bytecode m j) /\
  (~ (0 <= 1 < Z.of_nat (length (bytes m))) ->
   fetch_bytecode m 1 = Raise AssertionError /\
   setchar m 1 124 = Raise (if 1 <? 0 then AssertionError else IndexError)).
Proof.
  cbn zeta.
  apply (method_setchar_fetch_bytecode
           (mkMethod 0 0 0 0 0 0 [112; 120] [] String.EmptyString None None) 1 124).
Defined.

(** X16.  [setliteral] never resets [compiledin_class]: the test
    [index == len(self.literals)] comes after the list store, which has
    already failed for that index, so a [setliteral] that returns has
    replaced one literal and changed nothing else. *)
Theorem method_setliteral_keeps_class (self m' : W_CompiledMethod) (index : Z) (w_lit : W_Object) :
  setliteral self index w_lit = Ok m' ->
  compiledin_class m' = compiledin_class self /\
  lookup_class m' = lookup_class self /\
  length (literals m') = length (literals self) /\
  bytes m' = bytes self /\
  exists k, (k < length (literals self))%nat /\
            literals m' = <[k := w_lit]> (literals self) /\
            getliteral m' index = Ok w_lit.
Proof.
  unfold setliteral, py_setitem. intros H.
  destruct (py_index (literals self) index) as [k|e] eqn:Ek; [|discriminate].
  cbn [bind] in H.
  assert (Hk : (k < length (literals self))%nat /\
               index < Z.of_nat (length (literals self))).
  { unfold py_index in Ek.
    destruct ((0 <=? index) && (index <? Z.of_nat (length (literals self)))) eqn:E1.
    - apply andb_true_iff in E1 as [E2 E3]. injection Ek as <-. lia.
    - destruct ((- Z.of_nat (length (literals self)) <=? index) && (index <? 0)) eqn:E2;
        [|discriminate].
      apply andb_true_iff in E2 as [E3 E4]. injection Ek as <-. lia. }
  destruct Hk as [Hk Hidx].
  rewrite length_insert in H.
  assert (E : (index =? Z.of_nat (length (literals self))) = false) by lia.
  rewrite E in H. injection H as <-. cbn [compiledin_class lookup_class literals bytes].
  split; [reflexivity|]. split; [reflexivity|].
  split; [apply length_insert|]. split; [reflexivity|].
  exists k. split; [exact Hk|]. split; [reflexivity|].
  unfold getliteral, py_getitem. cbn [literals].
  assert (Ek' : py_index (<[k := w_lit]> (literals self)) index = Ok k).
  { unfold py_index in *. rewrite length_insert. exact Ek. }
  rewrite Ek'. cbn [bind]. rewrite list_lookup_insert_eq by exact Hk. reflexivity.
Qed.

Lemma method_setliteral_keeps_class_witness :
  let m := mkMethod 0 0 2 0 0 0 [] [w_nil; w_nil] String.EmptyString (Some 3%positive) None in
  let m' := mkMethod 0 0 2 0 0 0 [] [w_nil; W_SmallInteger 5] String.EmptyString
                     (Some 3%positive) None in
  compiledin_class m' = compiledin_class m /\
  lookup_class m' = lookup_class m /\
  length (literals m') = length (literals m) /\
  bytes m' = bytes m /\
  exists k, (k < length (literals m))%nat /\
            literals m' = <[k := W_SmallInteger 5]> (literals m) /\
            getliteral m' 1 = Ok (W_SmallInteger 5).
Proof.
  cbn zeta.
  apply (method_setliteral_keeps_class
           (mkMethod 0 0 2 0 0 0 [] [w_nil; w_nil] String.EmptyString (Some 3%positive) None)
           _ 1 (W_SmallInteger 5)).
  reflexivity.
Defined.

End MethodProps.

(* ================================================================== *)
(** ** More on become and the identity hash *)

Section MoreModelProps.
Import Model.

Lemma list_eqb_sym (l1 l2 : list Z) : Bytes.list_eqb l1 l2 = Bytes.list_eqb l2 l1.
Proof.
  revert l2. induction l1 as [|x l1 IH]; intros [|y l2]; try reflexivity.
  cbn [Bytes.list_eqb]. rewrite (Z.eqb_sym x y), IH. reflexivity.
Qed.

Lemma has_same_chars_loop_sym (o1 o2 : Bytes.W_BytesObject) (idxs : list Z) (r : bool) :
  Bytes.has_same_chars_loop o1 o2 idxs = Ok r ->
  Bytes.has_same_chars_loop o2 o1 idxs = Ok r.
Proof.
  induction idxs as [|k idxs IH]; intros H; [exact H|].
  cbn [Bytes.has_same_chars_loop] in *.
  destruct (Bytes.getchar o1 k) as [x|e]; [|discriminate].
  destruct (Bytes.getchar o2 k) as [y|e]; [|discriminate].
  cbn [bind] in *. rewrite (Z.eqb_sym y x).
  destruct (x =? y); cbn [negb] in *; [apply IH; exact H | exact H].
Qed.

Lemma bytes_is_same_object_sym (o1 o2 : Bytes.W_BytesObject) (r : bool) :
  Bytes.is_same_object false o1 o2 = Ok r -> Bytes.is_same_object false o2 o1 = Ok r.
Proof.
  unfold Bytes.is_same_object. rewrite (Z.eqb_sym (Bytes.size o2) (Bytes.size o1)).
  destruct (Bytes.size o1 =? Bytes.size o2) eqn:Es; cbn [negb]; [|trivial].
  apply Z.eqb_eq in Es. rewrite <- Es. unfold Bytes.has_same_chars.
  destruct (Bytes.bytes o1) as [l1|], (Bytes.bytes o2) as [l2|];
    try apply has_same_chars_loop_sym.
  destruct (256 <? Bytes.size o1); [|apply has_same_chars_loop_sym].
  rewrite (list_eqb_sym l2 l1). trivial.
Qed.

Lemma become_success_inv (h h' : gmap positive W_AbstractObjectWithIdentityHash)
      (a b : positive) :
  become h a b = (h', Ok true) ->
  exists oa ob oa' ob',
    h !! a = Some oa /\ h !! b = Some ob /\
    is_same_object a b oa ob = Ok false /\
    _become oa ob = Ok (oa', ob') /\
    h' = <[b := ob']> (<[a := oa']> h) /\ a <> b.
Proof.
  unfold become. intros H.
  destruct (h !! a) as [oa|] eqn:Ha; [|discriminate].
  destruct (h !! b) as [ob|] eqn:Hb; [|discriminate].
  destruct (can_become oa ob); cbn [negb] in H; [|discriminate].
  destruct (is_same_object a b oa ob) as [[|]|e] eqn:Hs; try discriminate.
  destruct (_become oa ob) as [[oa' ob']|e] eqn:Hbe; [|discriminate].
  injection H as <-.
  exists oa, ob, oa', ob'. repeat (split; [reflexivity || assumption|]).
  intros ->. rewrite Ha in Hb. injection Hb as <-.
  unfold is_same_object in Hs. rewrite Pos.eqb_refl in Hs.
  destruct (fields oa) eqn:Ef; try discriminate.
  rewrite float_same_refl in Hs. discriminate.
Qed.

Lemma _become_twice (oa ob oa' ob' : W_AbstractObjectWithIdentityHash) :
  _become oa ob = Ok (oa', ob') -> _become oa' ob' = Ok (oa, ob).
Proof.
  destruct oa as [ha fa], ob as [hb fb]. unfold _become. cbn [fields hash].
  destruct fa, fb; intros H; try discriminate; injection H as <- <-;
    try reflexivity.
  destruct o, o0. reflexivity.
Qed.

Lemma _become_can_become (oa ob oa' ob' : W_AbstractObjectWithIdentityHash) :
  _become oa ob = Ok (oa', ob') -> can_become oa' ob' = true.
Proof.
  destruct oa as [ha fa], ob as [hb fb]. unfold _become. cbn [fields hash].
  destruct fa, fb; intros H; try discriminate; injection H as <- <-; reflexivity.
Qed.

Lemma is_same_object_swapped (a b : positive)
      (oa ob oa' ob' : W_AbstractObjectWithIdentityHash) (r : bool) :
  _become oa ob = Ok (oa', ob') ->
  is_same_object a b oa ob = Ok r -> is_same_object a b oa' ob' = Ok r.
Proof.
  destruct oa as [ha fa], ob as [hb fb]. unfold _become, is_same_object. cbn [fields hash].
  destruct fa, fb; intros H; try discriminate; injection H as <- <-; cbn [fields];
    try (intros Hs; exact Hs).
  - rewrite float_same_sym. trivial.
  - destruct (Pos.eqb a b); [trivial|]. apply bytes_is_same_object_sym.
Qed.

(** X17.  [become] is an involution: when [become] on [a] and [b]
    succeeds, doing it again succeeds as well and gives back the memory
    as it was, compiled methods included. *)
Theorem become_involution (h h' : gmap positive W_AbstractObjectWithIdentityHash)
        (a b : positive) :
  become h a b = (h', Ok true) -> become h' a b = (h, Ok true).
Proof.
  intros H.
  destruct (become_success_inv h h' a b H)
    as (oa & ob & oa' & ob' & Ha & Hb & Hs & Hbe & -> & Hab).
  unfold become.
  rewrite (lookup_insert_ne _ b a) by congruence.
  rewrite lookup_insert_eq, lookup_insert_eq.
  rewrite (_become_can_become _ _ _ _ Hbe). cbn [negb].
  rewrite (is_same_object_swapped a b _ _ _ _ false Hbe Hs).
  rewrite (_become_twice _ _ _ _ Hbe).
  f_equal. apply map_eq. intros k.
  destruct (decide (k = b)) as [->|Hkb].
  - rewrite lookup_insert_eq. symmetry. exact Hb.
  - rewrite lookup_insert_ne by congruence.
    destruct (decide (k = a)) as [->|Hka].
    + rewrite lookup_insert_eq. symmetry. exact Ha.
    + rewrite !lookup_insert_ne by congruence. reflexivity.
Qed.

Lemma become_involution_witness :
  let h : gmap positive W_AbstractObjectWithIdentityHash :=
    <[2%positive := mkObject 7 (LargePositiveInteger1Word 1 4)]>
      (<[1%positive := mkObject 5 (LargePositiveInteger1Word (-1) 4)]> ∅) in
  become (fst (become h 1 2)) 1 2 = (h, Ok true).
Proof.
  cbn zeta. apply become_involution. vm_compute. reflexivity.
Defined.

(** X18.  What [become] refuses although the classes agree: an object
    with itself; two byte objects that are well-formed, of equal size
    and with the same bytes, whatever their classes and hashes; two
    floats with equal values, or both NaN.  It returns false and the
    memory stays as it is. *)
Theorem become_refused (h : gmap positive W_AbstractObjectWithIdentityHash)
        (a b : positive) (oa ob : W_AbstractObjectWithIdentityHash) :
  h !! a = Some oa -> h !! b = Some ob ->
  a = b \/
  (exists o1 o2,
     fields oa = BytesObject o1 /\ fields ob = BytesObject o2 /\
     Bytes.wf o1 /\ Bytes.wf o2 /\ Bytes.size o1 = Bytes.size o2 /\
     forall i, 0 <= i < Bytes.size o1 -> Bytes.getchar o1 i = Bytes.getchar o2 i) \/
  (exists v1 v2,
     fields oa = Float v1 /\ fields ob = Float v2 /\
     float_eq v1 v2 || (float_is_nan v1 && float_is_nan v2) = true) ->
  become h a b = (h, Ok false).
Proof.
  intros Ha Hb Hcase. unfold become. rewrite Ha, Hb.
  destruct (can_become oa ob); cbn [negb]; [|reflexivity].
  assert (Hs : is_same_object a b oa ob = Ok true).
  { unfold is_same_object. destruct Hcase as [-> | [Hbytes | Hfloat]].
    - rewrite Ha in Hb. injection Hb as <-. rewrite Pos.eqb_refl.
      destruct (fields oa); try reflexivity. rewrite float_same_refl. reflexivity.
    - destruct Hbytes as (o1 & o2 & F1 & F2 & W1 & W2 & Hsz & Hc). rewrite F1, F2.
      destruct (Pos.eqb a b); [reflexivity|].
      unfold Bytes.is_same_object. rewrite <- Hsz, Z.eqb_refl. cbn [negb].
      pose proof (has_same_chars_true o1 o2 W1 W2 Hsz Hc) as Hsame.
      destruct (Bytes.bytes o1) as [l1|] eqn:B1; [|exact Hsame].
      destruct (Bytes.bytes o2) as [l2|] eqn:B2; [|exact Hsame].
      destruct (256 <? Bytes.size o1); [|exact Hsame].
      rewrite (same_lists o1 o2 l1 l2 W1 W2 Hsz B1 B2 Hc), list_eqb_refl. reflexivity.
    - destruct Hfloat as (v1 & v2 & F1 & F2 & Hf). rewrite F1, F2, Hf. reflexivity. }
  rewrite Hs. reflexivity.
Qed.

Lemma become_refused_witness :
  let oa := mkObject 5 (BytesObject (Bytes.mkBytes (Some 8%positive) (Some [104; 105]) None 2)) in
  let ob := mkObject 6 (BytesObject (Bytes.mkBytes (Some 9%positive) (Some [104; 105]) None 2)) in
  let h : gmap positive W_AbstractObjectWithIdentityHash :=
    <[2%positive := ob]> (<[1%positive := oa]> ∅) in
  become h 1 2 = (h, Ok false).
Proof.
  cbn zeta. eapply become_refused.
  - vm_compute. reflexivity.
  - vm_compute. reflexivity.
  - right. left. eexists _, _. split; [reflexivity|]. split; [reflexivity|].
    split; [split; [simpl; lia | reflexivity]|].
    split; [split; [simpl; lia | reflexivity]|].
    split; [reflexivity|]. intros i _. reflexivity.
Defined.

(** The two ways [gethash] can go. *)
Lemma gethash_cases (compute_hash : Z -> Z) (m : memory) (a : positive) :
  (~ gethash_assigns m a /\ fst (gethash compute_hash m a) = m) \/
  (gethash_assigns m a /\
   exists self,
     objects m !! a = Some self /\
     fst (gethash compute_hash m a)
     = mkMemory (<[a := mkObject (intmask (fst (genrand32 (hash_generator m))) / 2)
                                 (fields self)]> (objects m))
                (snd (genrand32 (hash_generator m)))).
Proof.
  unfold gethash, gethash_assigns.
  destruct (objects m !! a) as [self|] eqn:Ha.
  2:{ left. split; [|reflexivity]. intros (s & Hs & _). discriminate. }
  destruct (hash self =? UNASSIGNED_HASH) eqn:E.
  - apply Z.eqb_eq in E.
    destruct (fields self) eqn:Ef;
      try (right; split;
           [exists self; split; [reflexivity|]; split; [exact E|];
            intros v; rewrite Ef; discriminate
           |exists self; split; [reflexivity|]; rewrite Ef; reflexivity]).
    left. split; [|reflexivity].
    intros (s & Hs & _ & Hnf). injection Hs as <-. eapply Hnf. exact Ef.
  - apply Z.eqb_neq in E.
    assert (Hno : ~ (exists s, Some self = Some s /\ hash s = UNASSIGNED_HASH /\
                               forall v, fields s <> Float v)).
    { intros (s & Hs & Hu & _). injection Hs as <-. contradiction. }
    left. split; [exact Hno|]. destruct (fields self); reflexivity.
Qed.

(** X19.  [gethash] touches nothing but the hash it assigns: every
    object keeps its fields, every object other than the one asked keeps
    its hash, an assigned hash is kept, and no object appears or
    disappears.  The generator advances by one number exactly when a
    hash is assigned, which is when the object asked is there, is no
    float and has no hash yet; in every other case the generator stays
    where it is. *)
Theorem gethash_frame (compute_hash : Z -> Z) (m : memory) (a c : positive) :
  let m' := fst (gethash compute_hash m a) in
  (objects m !! c = None -> objects m' !! c = None) /\
  (forall o, objects m !! c = Some o ->
     exists hv, objects m' !! c = Some (mkObject hv (fields o)) /\
                (c <> a -> hv = hash o) /\
                (hash o <> UNASSIGNED_HASH -> hv = hash o)) /\
  outputs (hash_generator m') = outputs (hash_generator m) /\
  (gethash_assigns m a ->
   position (hash_generator m') = S (position (hash_generator m))) /\
  (~ gethash_assigns m a -> m' = m).
Proof.
  cbn zeta.
  destruct (gethash_cases compute_hash m a) as [[Hno ->] | (Hyes & self & Ha & ->)].
  - split; [trivial|]. split; [|split; [reflexivity | split; [contradiction | reflexivity]]].
    intros o Ho. exists (hash o). rewrite Ho. destruct o. repeat split; reflexivity.
  - destruct Hyes as (self' & Ha' & Hu & Hnf).
    rewrite Ha in Ha'. injection Ha' as <-.
    unfold genrand32. cbn [fst snd objects hash_generator outputs position].
    split; [|split; [|split; [reflexivity|split; [reflexivity|]]]].
    + intros Hc. rewrite lookup_insert_ne; [exact Hc|]. intros ->. congruence.
    + intros o Ho. destruct (decide (c = a)) as [->|Hne].
      * rewrite Ha in Ho. injection Ho as <-. eexists.
        rewrite lookup_insert_eq. split; [reflexivity|].
        split; [congruence|]. intros Hn. contradiction.
      * exists (hash o). rewrite lookup_insert_ne by congruence. rewrite Ho.
        destruct o. repeat split; reflexivity.
    + intros Hno. exfalso. apply Hno. exists self. repeat split; assumption.
Qed.

Lemma gethash_frame_witness :
  let g := mkRandom (fun _ => 10) 0 in
  let m := mkMemory (<[1%positive := mkObject UNASSIGNED_HASH (LargePositiveInteger1Word 1 4)]> ∅) g in
  position (hash_generator (fst (gethash (fun v => v) m 1))) = 1%nat /\
  fst (gethash (fun v => v) m 2) = m.
Proof.
  cbn zeta.
  set (g := mkRandom (fun _ => 10) 0).
  set (m := mkMemory
              (<[1%positive := mkObject UNASSIGNED_HASH (LargePositiveInteger1Word 1 4)]> ∅) g).
  split.
  - destruct (gethash_frame (fun v => v) m 1 1) as (_ & _ & _ & H & _).
    apply H. exists (mkObject UNASSIGNED_HASH (LargePositiveInteger1Word 1 4)).
    split; [vm_compute; reflexivity|]. split; [reflexivity|]. intros v. discriminate.
  - destruct (gethash_frame (fun v => v) m 2 1) as (_ & _ & _ & _ & H).
    apply H. intros (s & Hs & _). vm_compute in Hs. discriminate.
Defined.

End MoreModelProps.

(* ================================================================== *)
(** ** More on contexts *)

Section MoreContextProps.
Import Contexts.

Lemma set__stack_ptr_same (c : ContextPartShadow) : set__stack_ptr c (_stack_ptr c) = c.
Proof. destruct c. reflexivity. Qed.

Lemma peek_ok (sp : ObjSpace) (a : positive) (c : ContextPartShadow) (idx : Z) (x : W_Object) :
  contexts sp !! a = Some c -> 0 <= _stack_ptr c - idx - 1 ->
  _temps_and_stack c !! Z.to_nat (_stack_ptr c - idx - 1) = Some x ->
  peek a idx sp = (sp, Ok x).
Proof.
  intros Hc Hi Hx. unfold peek.
  rewrite (mbind_ok _ _ _ _ _ (get_ctx_ok sp a c Hc)).
  apply (stack_get_ok sp a c _ x Hc Hi Hx).
Qed.

(** X20.  [push] then [pop]: on any context whose stack pointer is
    within the frame, [push(v)] succeeds, [top()] and then [pop()] return
    [v], and the stack depth is back where it was.  The popped value
    stays in its cell: [pop] only moves the stack pointer.  No other
    context and no other field is touched. *)
Theorem push_pop (fuel : nat) (sp : ObjSpace) (a : positive) (c : ContextPartShadow)
        (v : W_Object) :
  contexts sp !! a = Some c ->
  0 <= _stack_ptr c < Z.of_nat (length (_temps_and_stack c)) ->
  exists sp1 sp2,
    push a v sp = (sp1, Ok tt) /\
    stackdepth a sp1 = (sp1, Ok (_stack_ptr c + 1)) /\
    top a sp1 = (sp1, Ok v) /\
    pop fuel a sp1 = (sp2, Ok (Some v)) /\
    stackdepth a sp2 = (sp2, Ok (_stack_ptr c)) /\
    sp2 = with_ctx sp a
            (set__temps_and_stack c (<[Z.to_nat (_stack_ptr c) := v]> (_temps_and_stack c))).
Proof.
  intros Hc Hp.
  pose proof (push_ok sp a c v Hc Hp) as Hpush.
  set (c1 := set__stack_ptr _ _) in Hpush.
  assert (Hc1 : contexts (with_ctx sp a c1) !! a = Some c1) by apply with_ctx_lookup.
  assert (Hcell : _temps_and_stack c1 !! Z.to_nat (_stack_ptr c1 - 1) = Some v).
  { cbn [c1 _temps_and_stack _stack_ptr set__stack_ptr set__temps_and_stack].
    replace (_stack_ptr c + 1 - 1) with (_stack_ptr c) by lia.
    apply list_lookup_insert_eq. lia. }
  pose proof (pop_ok fuel _ a c1 v Hc1) as Hpop.
  cbn [c1 _stack_ptr set__stack_ptr] in Hpop. specialize (Hpop ltac:(lia) Hcell).
  rewrite with_ctx_with_ctx in Hpop.
  exists (with_ctx sp a c1), (with_ctx sp a (set__stack_ptr c1 (_stack_ptr c + 1 - 1))).
  split; [exact Hpush|].
  split; [apply (stackdepth_ok _ a c1 Hc1)|].
  split.
  { unfold top. apply (peek_ok _ a c1 0 v Hc1).
    - cbn [c1 _stack_ptr set__stack_ptr]. lia.
    - replace (_stack_ptr c1 - 0 - 1) with (_stack_ptr c1 - 1) by lia. exact Hcell. }
  split; [exact Hpop|].
  split.
  { rewrite (stackdepth_ok _ a _ (with_ctx_lookup _ _ _)).
    cbn [_stack_ptr set__stack_ptr]. do 2 f_equal. lia. }
  f_equal. cbn [c1 set__stack_ptr set__temps_and_stack _w_self_size state is_block_context
                _s_sender _pc _temps_and_stack _stack_ptr _w_home _initialip _eargc
                _w_receiver _w_method _is_BlockClosure_ensure].
  replace (_stack_ptr c + 1 - 1) with (_stack_ptr c) by lia. reflexivity.
Qed.

Lemma push_pop_witness :
  let c := mkContext None 24 InactiveContext true None 0 [w_nil; w_nil; w_nil] 1
                     (Some 7%positive) 0 0 None None false in
  let sp := mkSpace true (<[3%positive := c]> ∅) in
  exists sp1 sp2,
    push 3 (W_SmallInteger 8) sp = (sp1, Ok tt) /\
    stackdepth 3 sp1 = (sp1, Ok (_stack_ptr c + 1)) /\
    top 3 sp1 = (sp1, Ok (W_SmallInteger 8)) /\
    pop 0 3 sp1 = (sp2, Ok (Some (W_SmallInteger 8))) /\
    stackdepth 3 sp2 = (sp2, Ok (_stack_ptr c)) /\
    sp2 = with_ctx sp 3
            (set__temps_and_stack c
               (<[Z.to_nat (_stack_ptr c) := W_SmallInteger 8]> (_temps_and_stack c))).
Proof.
  cbn zeta. apply push_pop.
  - vm_compute. reflexivity.
  - simpl. lia.
Defined.

(** X21.  [push] outside the frame: with the stack pointer at or above
    the length of the frame [push] raises [IndexError], with a negative
    stack pointer [AssertionError]; in both cases nothing is changed, in
    particular the stack pointer is not moved. *)
Theorem push_outside_frame (sp : ObjSpace) (a : positive) (c : ContextPartShadow)
        (v : W_Object) :
  contexts sp !! a = Some c ->
  ~ (0 <= _stack_ptr c < Z.of_nat (length (_temps_and_stack c))) ->
  push a v sp = (sp, Raise (if _stack_ptr c <? 0 then AssertionError else IndexError)).
Proof.
  intros Hc Hout. unfold push.
  rewrite (mbind_ok _ _ _ _ _ (get_ctx_ok sp a c Hc)).
  apply mbind_raise. unfold stack_put.
  rewrite (mbind_ok _ _ _ _ _ (get_ctx_ok sp a c Hc)).
  destruct (_stack_ptr c <? 0) eqn:E.
  - assert (E2 : (0 <=? _stack_ptr c) = false) by lia. rewrite E2. reflexivity.
  - assert (E2 : (0 <=? _stack_ptr c) = true) by lia. rewrite E2.
    unfold lift, py_assert. rewrite (mbind_ok _ _ sp sp tt eq_refl).
    apply mbind_raise. rewrite py_setitem_too_large by lia. reflexivity.
Qed.

Lemma push_outside_frame_witness :
  let c := mkContext None 24 InactiveContext false None 0 [w_nil; w_nil] 2
                     None 0 0 None None false in
  let sp := mkSpace true (<[3%positive := c]> ∅) in
  push 3 (W_SmallInteger 8) sp
  = (sp, Raise (if _stack_ptr c <? 0 then AssertionError else IndexError)).
Proof.
  cbn zeta. apply push_outside_frame.
  - vm_compute. reflexivity.
  - simpl. lia.
Defined.

Lemma set__s_sender_same (c : ContextPartShadow) : set__s_sender c (_s_sender c) = c.
Proof. destruct c. reflexivity. Qed.

Lemma store_s_sender_ok (sp : ObjSpace) (a : positive) (c : ContextPartShadow)
      (s : option positive) :
  contexts sp !! a = Some c ->
  store_s_sender a s sp
  = (with_ctx sp a
       (set_state (set__s_sender c s)
          (match s, state c with
           | Some _, ActiveContext =>
               if bool_decide (s = _s_sender c) then ActiveContext else DirtyContext
           | _, st => st
           end)), Ok tt).
Proof.
  intros Hc. unfold store_s_sender.
  rewrite (mbind_ok _ _ _ _ _ (get_ctx_ok sp a c Hc)).
  destruct (bool_decide (s = _s_sender c)) eqn:E; cbn [negb].
  - apply bool_decide_eq_true in E. subst s. unfold mret.
    rewrite set__s_sender_same.
    replace (set_state c _) with c.
    + rewrite with_ctx_same by exact Hc. reflexivity.
    + destruct c as [? ? st ? [x|] ? ? ? ? ? ? ? ? ?]; destruct st; reflexivity.
  - rewrite (mbind_ok _ _ _ _ _ (update_ctx_ok sp a c _ Hc)).
    destruct s as [x|]; destruct (state c) eqn:Es;
      try (unfold mret; f_equal; f_equal; destruct c; cbn in *; subst; reflexivity).
    rewrite (update_ctx_ok _ a _ _ (with_ctx_lookup _ _ _)).
    rewrite with_ctx_with_ctx. reflexivity.
Qed.

(** X22.  [store_s_sender] and the state of a context: it always
    succeeds and sets the sender; an active context becomes dirty
    exactly when it gets a sender that is not [None] and not the one it
    has; in every other case the state stays, in particular when the
    sender is cleared.  Stack, temporaries and program counter are not
    touched. *)
Theorem store_s_sender_state (sp : ObjSpace) (a : positive) (c : ContextPartShadow)
        (s : option positive) :
  contexts sp !! a = Some c ->
  exists sp' c',
    store_s_sender a s sp = (sp', Ok tt) /\
    contexts sp' !! a = Some c' /\
    _s_sender c' = s /\
    (state c' = DirtyContext <->
     state c = DirtyContext \/
     (state c = ActiveContext /\ s <> None /\ s <> _s_sender c)) /\
    (s = None -> state c' = state c) /\
    _temps_and_stack c' = _temps_and_stack c /\ _stack_ptr c' = _stack_ptr c /\
    _pc c' = _pc c.
Proof.
  intros Hc. eexists _, _. split; [apply (store_s_sender_ok sp a c s Hc)|].
  split; [apply with_ctx_lookup|].
  cbn [set_state set__s_sender _s_sender state _temps_and_stack _stack_ptr _pc].
  split; [reflexivity|]. split; [|split; [|repeat split]].
  - destruct s as [x|]; destruct (state c) eqn:Es;
      try (destruct (bool_decide (Some x = _s_sender c)) eqn:E;
           [apply bool_decide_eq_true in E | apply bool_decide_eq_false in E]);
      split; intros H; try discriminate; try (left; reflexivity); try reflexivity;
      try (right; repeat split; congruence);
      try (destruct H as [H | (H1 & H2 & H3)]; congruence).
  - intros ->. reflexivity.
Qed.

Lemma store_s_sender_state_witness :
  let c := mkContext None 24 ActiveContext false None 3 [w_nil] 0 None 0 0 None None false in
  let sp := mkSpace true (<[3%positive := c]> ∅) in
  exists sp' c',
    store_s_sender 3 (Some 5%positive) sp = (sp', Ok tt) /\
    contexts sp' !! 3%positive = Some c' /\
    _s_sender c' = Some 5%positive /\
    (state c' = DirtyContext <->
     state c = DirtyContext \/
     (state c = ActiveContext /\ Some 5%positive <> None /\ Some 5%positive <> _s_sender c)) /\
    (Some 5%positive = None -> state c' = state c) /\
    _temps_and_stack c' = _temps_and_stack c /\ _stack_ptr c' = _stack_ptr c /\
    _pc c' = _pc c.
Proof.
  cbn zeta. apply store_s_sender_state. vm_compute. reflexivity.
Defined.

(** X23.  [mark_returned] and [is_returned]: marking a context succeeds,
    after it [is_returned()] answers true, and the mark does not make an
    active context dirty; it changes the program counter and the sender
    only.  [store_pc] refuses a program counter below -1 with
    [AssertionError] and changes nothing. *)
Theorem mark_returned_is_returned (sp : ObjSpace) (a : positive) (c : ContextPartShadow)
        (newpc : Z) :
  contexts sp !! a = Some c ->
  (exists sp',
     mark_returned a sp = (sp', Ok tt) /\
     is_returned a sp' = (sp', Ok true) /\
     sp' = with_ctx sp a (set__s_sender (set__pc c (-1)) None)) /\
  (newpc < -1 -> store_pc a newpc sp = (sp, Raise AssertionError)) /\
  (is_returned a sp = (sp, Ok true) <-> _pc c = -1 /\ _s_sender c = None).
Proof.
  intros Hc. split; [|split].
  - unfold mark_returned, store_pc.
    unfold lift, py_assert. cbn [Z.leb Z.compare Pos.compare Pos.compare_cont].
    rewrite (mbind_ok _ _ sp (with_ctx sp a (set__pc c (-1))) tt).
    2:{ rewrite (mbind_ok _ _ sp sp tt eq_refl).
        apply (update_ctx_ok sp a c (fun c => set__pc c (-1)) Hc). }
    rewrite (store_s_sender_ok _ a _ None (with_ctx_lookup _ _ _)).
    rewrite with_ctx_with_ctx.
    replace (set_state (set__s_sender (set__pc c (-1)) None) _)
      with (set__s_sender (set__pc c (-1)) None)
      by (destruct c as [? ? st ? ? ? ? ? ? ? ? ? ? ?]; destruct st; reflexivity).
    eexists. split; [reflexivity|]. split; [|reflexivity].
    set (c1 := set__s_sender (set__pc c (-1)) None).
    assert (Hc1 : contexts (with_ctx sp a c1) !! a = Some c1) by apply with_ctx_lookup.
    unfold is_returned, pc, w_sender, s_sender.
    rewrite (mbind_ok _ _ (with_ctx sp a c1) (with_ctx sp a c1) (-1)).
    2:{ rewrite (mbind_ok _ _ _ _ _ (get_ctx_ok _ a c1 Hc1)). reflexivity. }
    cbn [Z.eqb Pos.eqb].
    rewrite (mbind_ok _ _ (with_ctx sp a c1) (with_ctx sp a c1) w_nil).
    2:{ rewrite (mbind_ok _ _ (with_ctx sp a c1) (with_ctx sp a c1) None).
        - reflexivity.
        - rewrite (mbind_ok _ _ _ _ _ (get_ctx_ok _ a c1 Hc1)). reflexivity. }
    reflexivity.
  - intros Hn. unfold store_pc. apply mbind_raise. unfold lift, py_assert.
    assert (E : (-1 <=? newpc) = false) by lia. rewrite E. reflexivity.
  - unfold is_returned, pc, w_sender, s_sender, w_self, mbind, get_ctx, mret, raise.
    rewrite Hc. cbv beta iota.
    destruct (_pc c =? -1) eqn:E.
    + rewrite Hc. cbv beta iota.
      destruct (_s_sender c) as [s|].
      * split; [|intros [_ H]; discriminate].
        destruct (contexts sp !! s) as [cs|]; [|discriminate].
        destruct (_w_self cs); discriminate.
      * cbn [Strategies.is_nil].
        split; intros H; [split; [lia | reflexivity] | reflexivity].
    + split; intros H; [discriminate|]. lia.
Qed.

Lemma mark_returned_is_returned_witness :
  let c := mkContext None 24 ActiveContext false (Some 9%positive) 3 [w_nil] 0 None 0 0
                     None None false in
  let sp := mkSpace true (<[3%positive := c]> ∅) in
  (exists sp',
     mark_returned 3 sp = (sp', Ok tt) /\
     is_returned 3 sp' = (sp', Ok true) /\
     sp' = with_ctx sp 3 (set__s_sender (set__pc c (-1)) None)) /\
  (-2 < -1 -> store_pc 3 (-2) sp = (sp, Raise AssertionError)) /\
  (is_returned 3 sp = (sp, Ok true) <-> _pc c = -1 /\ _s_sender c = None).
Proof.
  cbn zeta. apply mark_returned_is_returned. vm_compute. reflexivity.
Defined.

(** X24.  [create_frame]: with a number of arguments other than the
    method's [argsize] it fails with [AssertionError] before anything is
    built.  With the right number it builds a method context in which
    temporary [i] is argument [i], every further slot of the frame is
    nil, the stack depth is the method's number of temporaries, receiver
    and method are the given ones, and no other context is changed. *)
Theorem create_frame_spec (fuel : nat) (sp : ObjSpace) (self : positive) (instsize : Z)
        (m : Method.W_CompiledMethod) (rcvr : W_Object) (args : list W_Object) :
  (Z.of_nat (length args) <> Method.argsize m ->
   create_frame fuel self instsize m rcvr args sp = (sp, Raise AssertionError)) /\
  (Z.of_nat (length args) = Method.argsize m -> 0 <= Method.islarge m ->
   exists sp1,
     create_frame fuel self instsize m rcvr args sp = (sp1, Ok tt) /\
     (forall i x, args !! i = Some x -> gettemp fuel self (Z.of_nat i) sp1 = (sp1, Ok x)) /\
     (forall i, Z.of_nat (length args) <= i < Method.compute_frame_size m ->
                gettemp fuel self i sp1 = (sp1, Ok w_nil)) /\
     stackdepth self sp1 = (sp1, Ok (Method._tempsize m)) /\
     w_receiver fuel self sp1 = (sp1, Ok (Some rcvr)) /\
     w_method fuel self sp1 = (sp1, Ok m) /\
     forall b, b <> self -> contexts sp1 !! b = contexts sp !! b).
Proof.
  unfold create_frame, lift, py_assert. split.
  - intros Hne. apply mbind_raise.
    assert (E : (Z.of_nat (length args) =? Method.argsize m) = false) by lia.
    rewrite E. reflexivity.
  - intros Heq Hlarge. rewrite Heq, Z.eqb_refl.
    rewrite (mbind_ok _ _ sp sp tt eq_refl).
    assert (Hfit : Z.of_nat (length args) <= Method.compute_frame_size m).
    { unfold Method.compute_frame_size. lia. }
    rewrite (build_method_context_ok fuel sp self instsize m rcvr args Hfit).
    set (l := args ++ drop (length args)
                        (replicate (Z.to_nat (Method.compute_frame_size m)) w_nil)).
    set (c := mkContext _ _ _ _ _ _ l _ _ _ _ _ _ _).
    assert (Hc : contexts (with_ctx sp self c) !! self = Some c) by apply with_ctx_lookup.
    assert (Hm : uses_block_contexts (with_ctx sp self c) && is_block_context c = false)
      by apply andb_false_r.
    eexists. split; [reflexivity|]. split; [|split; [|split; [|split; [|split]]]].
    + intros i x Hx. rewrite (gettemp_method fuel _ self c _ Hc Hm).
      apply (stack_get_ok _ self c _ x Hc); [lia|].
      rewrite Nat2Z.id. cbn [c _temps_and_stack]. unfold l.
      rewrite lookup_app_l by (apply lookup_lt_Some in Hx; exact Hx). exact Hx.
    + intros i Hi. rewrite (gettemp_method fuel _ self c _ Hc Hm).
      apply (stack_get_ok _ self c _ w_nil Hc); [lia|].
      cbn [c _temps_and_stack]. unfold l.
      rewrite lookup_app_r by lia. rewrite lookup_drop.
      apply lookup_replicate. split; [reflexivity|]. lia.
    + apply (stackdepth_ok _ self c Hc).
    + apply (w_receiver_method fuel _ self c Hc Hm).
    + apply (w_method_method fuel _ self c m Hc Hm). reflexivity.
    + intros b Hb. apply with_ctx_lookup_ne. congruence.
Qed.

Lemma create_frame_spec_witness :
  let m := Method.mkMethod 0 0 0 0 3 1 [] [] String.EmptyString None None in
  let args := [W_SmallInteger 5] in
  let sp := mkSpace true ∅ in
  (Z.of_nat (length args) <> Method.argsize m ->
   create_frame 0 1 6 m w_nil args sp = (sp, Raise AssertionError)) /\
  (Z.of_nat (length args) = Method.argsize m -> 0 <= Method.islarge m ->
   exists sp1,
     create_frame 0 1 6 m w_nil args sp = (sp1, Ok tt) /\
     (forall i x, args !! i = Some x -> gettemp 0 1 (Z.of_nat i) sp1 = (sp1, Ok x)) /\
     (forall i, Z.of_nat (length args) <= i < Method.compute_frame_size m ->
                gettemp 0 1 i sp1 = (sp1, Ok w_nil)) /\
     stackdepth 1 sp1 = (sp1, Ok (Method._tempsize m)) /\
     w_receiver 0 1 sp1 = (sp1, Ok (Some w_nil)) /\
     w_method 0 1 sp1 = (sp1, Ok m) /\
     forall b, b <> 1%positive -> contexts sp1 !! b = contexts sp !! b).
Proof. cbn zeta. apply create_frame_spec. Defined.

(** X25.  Without the flag [uses_block_contexts] a block context is
    treated as a method context: [settemp] through it writes its own
    frame, and neither its home nor any other context sees the value. *)
Theorem block_without_flag (fuel : nat) (sp : ObjSpace) (b : positive)
        (cb : ContextPartShadow) (k : Z) (v : W_Object) :
  uses_block_contexts sp = false ->
  contexts sp !! b = Some cb -> is_block_context cb = true ->
  0 <= k < Z.of_nat (length (_temps_and_stack cb)) ->
  exists sp',
    settemp fuel b k v sp = (sp', Ok tt) /\
    gettemp fuel b k sp' = (sp', Ok v) /\
    contexts sp' !! b
    = Some (set__temps_and_stack cb (<[Z.to_nat k := v]> (_temps_and_stack cb))) /\
    forall h, h <> b -> contexts sp' !! h = contexts sp !! h.
Proof.
  intros Hf Hb Hblk Hk.
  assert (Hm : uses_block_contexts sp && is_block_context cb = false)
    by (rewrite Hf; reflexivity).
  set (cb' := set__temps_and_stack cb (<[Z.to_nat k := v]> (_temps_and_stack cb))).
  exists (with_ctx sp b cb').
  assert (Hb' : contexts (with_ctx sp b cb') !! b = Some cb') by apply with_ctx_lookup.
  split.
  { rewrite (settemp_method fuel sp b cb k v Hb Hm). apply stack_put_ok; assumption. }
  split.
  { rewrite (gettemp_method fuel _ b cb' k Hb').
    - apply (stack_get_ok _ b cb' k v Hb'); [lia|]. apply list_lookup_insert_eq. lia.
    - cbn [with_ctx uses_block_contexts]. rewrite Hf. reflexivity. }
  split; [exact Hb'|].
  intros h Hh. apply with_ctx_lookup_ne. congruence.
Qed.

Lemma block_without_flag_witness :
  let ch := mkContext None 24 InactiveContext false None 0
              [W_SmallInteger 1; W_SmallInteger 2] 2 None 0 0 (Some w_nil) None false in
  let cb := mkContext None 8 InactiveContext true None 0 [w_nil; w_nil] 0
              (Some 1%positive) 0 0 None None false in
  let sp := mkSpace false (<[2%positive := cb]> (<[1%positive := ch]> ∅)) in
  exists sp',
    settemp 1 2 1 (W_SmallInteger 9) sp = (sp', Ok tt) /\
    gettemp 1 2 1 sp' = (sp', Ok (W_SmallInteger 9)) /\
    contexts sp' !! 2%positive
    = Some (set__temps_and_stack cb
              (<[Z.to_nat 1 := W_SmallInteger 9]> (_temps_and_stack cb))) /\
    forall h, h <> 2%positive -> contexts sp' !! h = contexts sp !! h.
Proof.
  cbn zeta. apply block_without_flag.
  - reflexivity.
  - vm_compute. reflexivity.
  - reflexivity.
  - simpl. lia.
Defined.

(** *** Several stack cells at once *)

Lemma set_ptr_temps_same (c : ContextPartShadow) :
  set__stack_ptr (set__temps_and_stack c (_temps_and_stack c)) (_stack_ptr c) = c.
Proof. destruct c. reflexivity. Qed.

Lemma take_S_insert (l : list W_Object) (p : nat) (x : W_Object) :
  (p < length l)%nat -> take (S p) (<[p := x]> l) = take p l ++ [x].
Proof.
  intros Hp. rewrite (take_S_r _ p x) by (apply list_lookup_insert_eq; exact Hp).
  rewrite take_insert_ge by lia. reflexivity.
Qed.

Lemma push_all_ok (a : positive) (lst : list W_Object) (sp : ObjSpace)
      (c : ContextPartShadow) :
  contexts sp !! a = Some c -> 0 <= _stack_ptr c ->
  _stack_ptr c + Z.of_nat (length lst) <= Z.of_nat (length (_temps_and_stack c)) ->
  push_all a lst sp
  = (with_ctx sp a
       (set__stack_ptr
          (set__temps_and_stack c
             (take (Z.to_nat (_stack_ptr c)) (_temps_and_stack c) ++ lst ++
              drop (Z.to_nat (_stack_ptr c) + length lst) (_temps_and_stack c)))
          (_stack_ptr c + Z.of_nat (length lst))), Ok tt).
Proof.
  unfold push_all. revert sp c. induction lst as [|x rest IH]; intros sp c Hc Hp Hfit.
  - cbn [forM length app]. unfold mret.
    rewrite Nat.add_0_r, take_drop, Z.add_0_r, set_ptr_temps_same.
    rewrite with_ctx_same by exact Hc. reflexivity.
  - cbn [forM]. cbn [length] in Hfit.
    rewrite (mbind_ok _ _ _ _ _ (push_ok sp a c x Hc ltac:(lia))).
    rewrite (IH _ _ (with_ctx_lookup _ _ _)).
    + rewrite with_ctx_with_ctx. f_equal. f_equal.
      cbn [set__stack_ptr set__temps_and_stack _w_self_size state is_block_context
           _s_sender _pc _temps_and_stack _stack_ptr _w_home _initialip _eargc
           _w_receiver _w_method _is_BlockClosure_ensure length].
      replace (Z.to_nat (_stack_ptr c + 1)) with (S (Z.to_nat (_stack_ptr c))) by lia.
      rewrite take_S_insert by lia.
      rewrite drop_insert_lt by lia.
      rewrite <- app_assoc. cbn [app].
      replace (S (Z.to_nat (_stack_ptr c)) + length rest)%nat
        with (Z.to_nat (_stack_ptr c) + S (length rest))%nat by lia.
      f_equal. lia.
    + cbn [_stack_ptr set__stack_ptr]. lia.
    + cbn [_stack_ptr _temps_and_stack set__stack_ptr set__temps_and_stack].
      rewrite length_insert. lia.
Qed.

Lemma mapMM_read {A B : Type} (f : A -> M B) (sp : ObjSpace) (xs : list A) (ys : list B) :
  length xs = length ys ->
  (forall k x y, xs !! k = Some x -> ys !! k = Some y -> f x sp = (sp, Ok y)) ->
  mapMM f xs sp = (sp, Ok ys).
Proof.
  revert ys. induction xs as [|x xs IH]; intros [|y ys] Hlen H; try discriminate.
  - reflexivity.
  - cbn [mapMM]. rewrite (mbind_ok _ _ _ _ _ (H 0%nat x y eq_refl eq_refl)).
    rewrite (mbind_ok _ _ sp sp ys).
    + reflexivity.
    + apply IH; [cbn in Hlen; lia|]. intros k x' y' Hx Hy. apply (H (S k)); assumption.
Qed.

Lemma pop_n_loop_ok (a : positive) (k : nat) (sp : ObjSpace) (c : ContextPartShadow) :
  contexts sp !! a = Some c ->
  Z.of_nat k <= _stack_ptr c <= Z.of_nat (length (_temps_and_stack c)) ->
  pop_n_loop k a sp
  = (with_ctx sp a
       (set__stack_ptr
          (set__temps_and_stack c
             (take (Z.to_nat (_stack_ptr c) - k) (_temps_and_stack c) ++
              replicate k w_nil ++
              drop (Z.to_nat (_stack_ptr c)) (_temps_and_stack c)))
          (_stack_ptr c - Z.of_nat k)), Ok tt).
Proof.
  revert sp c. induction k as [|k IH]; intros sp c Hc Hp.
  - cbn [pop_n_loop replicate app]. unfold mret.
    rewrite Nat.sub_0_r, take_drop, Z.sub_0_r, set_ptr_temps_same.
    rewrite with_ctx_same by exact Hc. reflexivity.
  - cbn [pop_n_loop].
    rewrite (mbind_ok _ _ _ _ _ (get_ctx_ok sp a c Hc)).
    assert (E : (1 <=? _stack_ptr c) = true) by lia. rewrite E.
    unfold lift, py_assert. rewrite (mbind_ok _ _ sp sp tt eq_refl).
    rewrite (mbind_ok _ _ _ _ _
               (update_ctx_ok sp a c (fun c0 => set__stack_ptr c0 (_stack_ptr c0 - 1)) Hc)).
    set (c' := set__stack_ptr c (_stack_ptr c - 1)).
    assert (Hput : stack_put a (_stack_ptr c - 1) w_nil (with_ctx sp a c')
                   = (with_ctx (with_ctx sp a c') a
                        (set__temps_and_stack c'
                           (<[Z.to_nat (_stack_ptr c - 1) := w_nil]> (_temps_and_stack c'))),
                      Ok tt)).
    { apply stack_put_ok; [apply with_ctx_lookup|].
      cbn [c' _temps_and_stack set__stack_ptr]. lia. }
    rewrite (mbind_ok _ _ _ _ _ Hput). rewrite with_ctx_with_ctx.
    rewrite (IH _ _ (with_ctx_lookup _ _ _)).
    + rewrite with_ctx_with_ctx. f_equal. f_equal.
      cbn [c' set__stack_ptr set__temps_and_stack _w_self_size state is_block_context
           _s_sender _pc _temps_and_stack _stack_ptr _w_home _initialip _eargc
           _w_receiver _w_method _is_BlockClosure_ensure].
      set (l := _temps_and_stack c). set (q := Z.to_nat (_stack_ptr c)).
      replace (Z.to_nat (_stack_ptr c - 1)) with (q - 1)%nat by lia.
      assert (Hq : (1 <= q <= length l)%nat) by (unfold q, l; lia).
      destruct (lookup_lt_is_Some_2 l (q - 1)%nat) as [y Hy]; [lia|].
      rewrite take_insert_ge by lia.
      rewrite drop_insert_ge by lia. rewrite Nat.sub_diag.
      rewrite (drop_S l y (q - 1) Hy). cbn [insert list_insert].
      replace (S (q - 1)) with q by lia.
      replace (q - 1 - k)%nat with (q - S k)%nat by lia.
      rewrite replicate_S_end, <- !app_assoc. cbn [app].
      f_equal. lia.
    + cbn [c' _stack_ptr _temps_and_stack set__stack_ptr set__temps_and_stack].
      rewrite length_insert. lia.
Qed.

(** X26.  [push_all] and [pop_and_return_n]: pushing a list that fits
    into the frame raises the stack depth by its length; [peek_n] and
    [pop_and_return_n] for that many elements then return the list in
    the order it was pushed; and after [pop_and_return_n] the stack
    depth is back where it was and the popped cells hold nil. *)
Theorem push_all_pop_and_return_n (sp : ObjSpace) (a : positive) (c : ContextPartShadow)
        (lst : list W_Object) :
  contexts sp !! a = Some c -> 0 <= _stack_ptr c ->
  _stack_ptr c + Z.of_nat (length lst) <= Z.of_nat (length (_temps_and_stack c)) ->
  exists sp1 sp2,
    push_all a lst sp = (sp1, Ok tt) /\
    stackdepth a sp1 = (sp1, Ok (_stack_ptr c + Z.of_nat (length lst))) /\
    peek_n a (Z.of_nat (length lst)) sp1 = (sp1, Ok lst) /\
    pop_and_return_n a (Z.of_nat (length lst)) sp1 = (sp2, Ok lst) /\
    sp2 = with_ctx sp a
            (set__temps_and_stack c
               (take (Z.to_nat (_stack_ptr c)) (_temps_and_stack c) ++
                replicate (length lst) w_nil ++
                drop (Z.to_nat (_stack_ptr c) + length lst) (_temps_and_stack c))).
Proof.
  intros Hc Hp Hfit.
  pose proof (push_all_ok a lst sp c Hc Hp Hfit) as Hpush.
  set (l := _temps_and_stack c) in *. set (p := Z.to_nat (_stack_ptr c)) in *.
  set (n := length lst) in *.
  set (c1 := set__stack_ptr _ _) in Hpush.
  set (sp1 := with_ctx sp a c1) in *.
  assert (Hc1 : contexts sp1 !! a = Some c1) by apply with_ctx_lookup.
  assert (Hlenp : length (take p l) = p) by (rewrite length_take; unfold p; lia).
  assert (Hpeek : mapMM (peek a) (py_range_down (Z.of_nat n)) sp1 = (sp1, Ok lst)).
  { apply mapMM_read.
    - unfold py_range_down. rewrite length_map, length_seq. unfold n. lia.
    - intros k x y Hx Hy. unfold py_range_down in Hx.
      rewrite list_lookup_fmap in Hx.
      destruct (seq 0 (Z.to_nat (Z.of_nat n)) !! k) as [k'|] eqn:Hk; [|discriminate].
      apply lookup_seq in Hk as [-> Hk]. cbn [fmap option_fmap option_map] in Hx.
      injection Hx as <-. cbn [Nat.add].
      pose proof (lookup_lt_Some _ _ _ Hy) as Hlt. fold n in Hlt.
      apply (peek_ok sp1 a c1 _ y Hc1).
      + cbn [c1 _stack_ptr set__stack_ptr]. lia.
      + cbn [c1 _stack_ptr _temps_and_stack set__stack_ptr set__temps_and_stack].
        replace (Z.to_nat (_stack_ptr c + Z.of_nat n - (Z.of_nat n - 1 - Z.of_nat k) - 1))
          with (p + k)%nat by (unfold p; lia).
        rewrite lookup_app_r by lia. rewrite Hlenp.
        replace (p + k - p)%nat with k by lia.
        rewrite lookup_app_l by exact Hlt. exact Hy. }
  pose proof (pop_n_loop_ok a n sp1 c1 Hc1) as Hpop.
  cbn [c1 _stack_ptr _temps_and_stack set__stack_ptr set__temps_and_stack] in Hpop.
  assert (Hlen1 : length (take p l ++ lst ++ drop (p + n) l) = length l).
  { rewrite !length_app, Hlenp, length_drop. fold n. unfold p. lia. }
  specialize (Hpop ltac:(rewrite Hlen1; lia)).
  exists sp1, (with_ctx sp1 a
                 (set__stack_ptr
                    (set__temps_and_stack c1
                       (take (Z.to_nat (_stack_ptr c + Z.of_nat n) - n)
                             (take p l ++ lst ++ drop (p + n) l) ++
                        replicate n w_nil ++
                        drop (Z.to_nat (_stack_ptr c + Z.of_nat n))
                             (take p l ++ lst ++ drop (p + n) l)))
                    (_stack_ptr c + Z.of_nat n - Z.of_nat n))).
  split; [exact Hpush|].
  split; [apply (stackdepth_ok sp1 a c1 Hc1)|].
  split; [exact Hpeek|].
  split.
  { unfold pop_and_return_n. rewrite (mbind_ok _ _ _ _ _ Hpeek).
    unfold pop_n. rewrite Nat2Z.id.
    rewrite (mbind_ok _ _ _ _ _ Hpop). reflexivity. }
  unfold sp1. rewrite with_ctx_with_ctx. f_equal.
  cbn [c1 set__stack_ptr set__temps_and_stack _w_self_size state is_block_context
       _s_sender _pc _temps_and_stack _stack_ptr _w_home _initialip _eargc
       _w_receiver _w_method _is_BlockClosure_ensure].
  replace (Z.to_nat (_stack_ptr c + Z.of_nat n) - n)%nat with p by (unfold p; lia).
  replace (Z.to_nat (_stack_ptr c + Z.of_nat n)) with (p + n)%nat by (unfold p; lia).
  replace (_stack_ptr c + Z.of_nat n - Z.of_nat n) with (_stack_ptr c) by lia.
  rewrite take_app_le by lia. rewrite take_ge by lia.
  rewrite (app_assoc (take p l) lst).
  rewrite drop_app_length' by (rewrite length_app, Hlenp; reflexivity).
  destruct c. reflexivity.
Qed.

Lemma push_all_pop_and_return_n_witness :
  let c := mkContext None 24 InactiveContext false None 0
             [W_SmallInteger 1; w_nil; w_nil; w_nil] 1 None 0 0 None None false in
  let sp := mkSpace true (<[3%positive := c]> ∅) in
  let lst := [W_SmallInteger 7; W_SmallInteger 8] in
  exists sp1 sp2,
    push_all 3 lst sp = (sp1, Ok tt) /\
    stackdepth 3 sp1 = (sp1, Ok (_stack_ptr c + Z.of_nat (length lst))) /\
    peek_n 3 (Z.of_nat (length lst)) sp1 = (sp1, Ok lst) /\
    pop_and_return_n 3 (Z.of_nat (length lst)) sp1 = (sp2, Ok lst) /\
    sp2 = with_ctx sp 3
            (set__temps_and_stack c
               (take (Z.to_nat (_stack_ptr c)) (_temps_and_stack c) ++
                replicate (length lst) w_nil ++
                drop (Z.to_nat (_stack_ptr c) + length lst) (_temps_and_stack c))).
Proof.
  cbn zeta. apply push_all_pop_and_return_n.
  - vm_compute. reflexivity.
  - simpl. lia.
  - simpl. lia.
Defined.

Lemma forM_const {A : Type} (xs : list A) (f : W_Object -> M unit) (v : W_Object) :
  forM xs (fun _ => f v) = forM (replicate (length xs) v) f.
Proof.
  induction xs as [|x xs IH]; [reflexivity|].
  cbn [forM length replicate]. rewrite IH. reflexivity.
Qed.

(** X27.  [store_stackpointer]: a negative size below the current depth
    is refused with an assertion error and nothing changes; otherwise,
    for a depth and a size inside the frame, the stack depth becomes the
    size, the cells between the old and the new depth hold nil, and
    every other cell keeps its value. *)
Theorem store_stackpointer_spec (sp : ObjSpace) (a : positive) (c : ContextPartShadow)
        (size : Z) :
  contexts sp !! a = Some c ->
  (size < _stack_ptr c -> size < 0 ->
   store_stackpointer a size sp = (sp, Raise AssertionError)) /\
  (0 <= _stack_ptr c <= Z.of_nat (length (_temps_and_stack c)) ->
   0 <= size <= Z.of_nat (length (_temps_and_stack c)) ->
   let lo := Z.to_nat (Z.min size (_stack_ptr c)) in
   let hi := Z.to_nat (Z.max size (_stack_ptr c)) in
   store_stackpointer a size sp
   = (with_ctx sp a
        (set__stack_ptr
           (set__temps_and_stack c
              (take lo (_temps_and_stack c) ++ replicate (hi - lo) w_nil ++
               drop hi (_temps_and_stack c)))
           size), Ok tt)).
Proof.
  intros Hc. unfold store_stackpointer.
  rewrite (mbind_ok _ _ _ _ _ (stackdepth_ok sp a c Hc)).
  split.
  - intros Hlt Hneg. assert (E : (size <? _stack_ptr c) = true) by lia. rewrite E.
    assert (E0 : (0 <=? size) = false) by lia. rewrite E0.
    apply mbind_raise. reflexivity.
  - intros Hp Hs.
    set (lo := Z.to_nat (Z.min size (_stack_ptr c))).
    set (hi := Z.to_nat (Z.max size (_stack_ptr c))).
    destruct (size <? _stack_ptr c) eqn:E.
    + assert (E0 : (0 <=? size) = true) by lia. rewrite E0.
      unfold lift, py_assert. rewrite (mbind_ok _ _ sp sp tt eq_refl).
      unfold pop_n. rewrite (pop_n_loop_ok a _ sp c Hc) by lia.
      replace (Z.to_nat (_stack_ptr c) - Z.to_nat (_stack_ptr c - size))%nat
        with lo by (unfold lo; lia).
      replace (Z.to_nat (_stack_ptr c - size)) with (hi - lo)%nat by (unfold hi, lo; lia).
      replace (Z.to_nat (_stack_ptr c)) with hi by (unfold hi; lia).
      replace (_stack_ptr c - Z.of_nat (hi - lo)) with size by (unfold hi, lo; lia).
      reflexivity.
    + rewrite (forM_const _ (push a) w_nil).
      unfold SmallPointers.py_range2. rewrite length_map, length_seq.
      pose proof (push_all_ok a (replicate (Z.to_nat (size - _stack_ptr c)) w_nil) sp c Hc)
        as Hpush.
      rewrite length_replicate in Hpush. unfold push_all in Hpush.
      rewrite Hpush by lia.
      replace (Z.to_nat (_stack_ptr c)) with lo by (unfold lo; lia).
      replace (Z.to_nat (size - _stack_ptr c)) with (hi - lo)%nat by (unfold hi, lo; lia).
      replace (lo + (hi - lo))%nat with hi by (unfold hi, lo; lia).
      replace (_stack_ptr c + Z.of_nat (hi - lo)) with size by (unfold hi, lo; lia).
      reflexivity.
Qed.

Lemma store_stackpointer_spec_witness :
  let c := mkContext None 24 InactiveContext false None 0
             [W_SmallInteger 1; W_SmallInteger 2; W_SmallInteger 3; w_nil] 3
             None 0 0 None None false in
  let sp := mkSpace true (<[3%positive := c]> ∅) in
  store_stackpointer 3 (-1) sp = (sp, Raise AssertionError) /\
  store_stackpointer 3 1 sp
  = (with_ctx sp 3
       (set__stack_ptr
          (set__temps_and_stack c [W_SmallInteger 1; w_nil; w_nil; w_nil]) 1), Ok tt).
Proof.
  cbn zeta.
  pose (c := mkContext None 24 InactiveContext false None 0
               [W_SmallInteger 1; W_SmallInteger 2; W_SmallInteger 3; w_nil] 3
               None 0 0 None None false).
  pose (sp := mkSpace true (<[3%positive := c]> ∅)).
  assert (Hc : contexts sp !! 3%positive = Some c) by (vm_compute; reflexivity).
  split.
  - apply (proj1 (store_stackpointer_spec sp 3 c (-1) Hc)); simpl; lia.
  - apply (proj2 (store_stackpointer_spec sp 3 c 1 Hc)); simpl; lia.
Defined.

End MoreContextProps.
